(** * Todo application: the item store, the mutation tools and the
      response normalizer of [todo_graph.py] and [backend.py]

    The program is Python.  Its data are the values that [json.load] builds
    (None, booleans, integers, strings, lists and dictionaries keyed by
    strings); they are embedded as the type [pyval].  Floating-point numbers
    are left out of the value domain.  A Python exception is the outcome
    [Raised]; the class of the exception is not tracked, since no caller in
    the repository tells classes apart (bare [except:], [except Exception]).

    The todo file is the only state: [file] is [None] when [todos.json] does
    not exist and [Some s] when it holds the text [s].  A tool is a
    computation in the monad [M], which threads the file and keeps whatever
    was written before an exception was raised. *)

From Stdlib Require Import String Ascii List ZArith Bool Lia Arith Sorted.
From Stdlib Require Import DecimalString DecimalFacts DecimalPos DecimalZ.
Import ListNotations.
Open Scope string_scope.
Open Scope list_scope.
Open Scope Z_scope.

(** ** Python values *)

Unset Elimination Schemes.
Inductive pyval : Type :=
| PNone
| PBool (b : bool)
| PInt (n : Z)
| PStr (s : string)
| PList (l : list pyval)
| PDict (d : list (string * pyval)).
Set Elimination Schemes.

(** Induction on values: the elements of a list and the values of a
    dictionary come with the property. *)

Section PyvalInd.
Variable P : pyval -> Prop.
Hypothesis HNone : P PNone.
Hypothesis HBool : forall b, P (PBool b).
Hypothesis HInt : forall n, P (PInt n).
Hypothesis HStr : forall s, P (PStr s).
Hypothesis HList : forall l, Forall P l -> P (PList l).
Hypothesis HDict : forall d, Forall (fun kv => P (snd kv)) d -> P (PDict d).

Fixpoint pyval_ind (v : pyval) : P v :=
  match v with
  | PNone => HNone
  | PBool b => HBool b
  | PInt n => HInt n
  | PStr s => HStr s
  | PList l =>
      HList l
        ((fix all (l : list pyval) : Forall P l :=
            match l with
            | [] => Forall_nil _
            | x :: l' => Forall_cons x (pyval_ind x) (all l')
            end) l)
  | PDict d =>
      HDict d
        ((fix all (d : list (string * pyval))
            : Forall (fun kv => P (snd kv)) d :=
            match d with
            | [] => Forall_nil _
            | kv :: d' => Forall_cons kv (pyval_ind (snd kv)) (all d')
            end) d)
  end.
End PyvalInd.

(** A dictionary keeps its keys in insertion order. *)
Definition dict := list (string * pyval).

Fixpoint dict_lookup (k : string) (d : dict) : option pyval :=
  match d with
  | [] => None
  | (k', v) :: d' => if String.eqb k k' then Some v else dict_lookup k d'
  end.

(** [d[k] = v]: an existing key keeps its place, a new key goes last. *)
Fixpoint dict_set (k : string) (v : pyval) (d : dict) : dict :=
  match d with
  | [] => [(k, v)]
  | (k', v') :: d' =>
      if String.eqb k k' then (k, v) :: d' else (k', v') :: dict_set k v d'
  end.

Fixpoint mem_string (k : string) (ks : list string) : bool :=
  match ks with
  | [] => false
  | k' :: ks' => String.eqb k k' || mem_string k ks'
  end.

Fixpoint nodup_strings (ks : list string) : bool :=
  match ks with
  | [] => true
  | k :: ks' => negb (mem_string k ks') && nodup_strings ks'
  end.

(** The values that are Python objects: no dictionary holds a key twice. *)
Fixpoint wf (v : pyval) : bool :=
  match v with
  | PList l => forallb wf l
  | PDict d =>
      nodup_strings (map fst d) && forallb (fun kv => wf (snd kv)) d
  | _ => true
  end.

(** ** Outcomes of a Python expression *)

Inductive res (A : Type) : Type :=
| Ok (a : A)
| Raised.
Arguments Ok {A} a.
Arguments Raised {A}.

Definition res_bind {A B} (r : res A) (k : A -> res B) : res B :=
  match r with
  | Ok a => k a
  | Raised => Raised
  end.

Declare Scope res_scope.
Delimit Scope res_scope with res.
Notation "x <- r ;; k" := (res_bind r (fun x => k))
  (at level 61, r at next level, right associativity) : res_scope.

Fixpoint res_map {A B} (f : A -> res B) (l : list A) : res (list B) :=
  match l with
  | [] => Ok []
  | a :: l' =>
      (b <- f a ;; bs <- res_map f l' ;; Ok (b :: bs))%res
  end.

(** ** The Python operations the tools use *)

(** [bool(v)], the test behind [if not v]. *)
Definition truthy (v : pyval) : bool :=
  match v with
  | PNone => false
  | PBool b => b
  | PInt n => negb (n =? 0)
  | PStr s => negb (String.eqb s "")
  | PList l => match l with [] => false | _ => true end
  | PDict d => match d with [] => false | _ => true end
  end.

Fixpoint chars_of (s : string) : list pyval :=
  match s with
  | EmptyString => []
  | String c s' => PStr (String c EmptyString) :: chars_of s'
  end.

(** [iter(v)]: a list gives its elements, a dictionary its keys, a string
    its characters; nothing else is iterable. *)
Definition py_iter (v : pyval) : res (list pyval) :=
  match v with
  | PList l => Ok l
  | PDict d => Ok (map (fun kv => PStr (fst kv)) d)
  | PStr s => Ok (chars_of s)
  | _ => Raised
  end.

(** [v[key]] for a string key: KeyError on a dictionary without the key,
    TypeError on every other value. *)
Definition py_getitem (v : pyval) (key : string) : res pyval :=
  match v with
  | PDict d => match dict_lookup key d with Some x => Ok x | None => Raised end
  | _ => Raised
  end.

(** [v.get(key, default)]: only dictionaries have the method. *)
Definition py_get (v : pyval) (key : string) (default : pyval) : res pyval :=
  match v with
  | PDict d =>
      match dict_lookup key d with Some x => Ok x | None => Ok default end
  | _ => Raised
  end.

(** [v[key] = x] for a string key. *)
Definition py_setitem (v : pyval) (key : string) (x : pyval) : res pyval :=
  match v with
  | PDict d => Ok (PDict (dict_set key x d))
  | _ => Raised
  end.

(** [v.append(x)]: only lists have the method. *)
Definition py_append (v x : pyval) : res pyval :=
  match v with
  | PList l => Ok (PList (l ++ [x]))
  | _ => Raised
  end.

Fixpoint string_length_Z (s : string) : Z :=
  match s with
  | EmptyString => 0
  | String _ s' => 1 + string_length_Z s'
  end.

(** [len(v)]. *)
Definition py_len (v : pyval) : res pyval :=
  match v with
  | PList l => Ok (PInt (Z.of_nat (List.length l)))
  | PDict d => Ok (PInt (Z.of_nat (List.length d)))
  | PStr s => Ok (PInt (string_length_Z s))
  | _ => Raised
  end.

(** Booleans are integers in Python: [True == 1], [True + 1 == 2]. *)
Definition numeric (v : pyval) : option Z :=
  match v with
  | PInt n => Some n
  | PBool b => Some (if b then 1 else 0)
  | _ => None
  end.

(** [a == b].  Dictionaries are compared as maps, whatever the key order. *)
Fixpoint py_eq (a b : pyval) {struct a} : bool :=
  match a with
  | PNone => match b with PNone => true | _ => false end
  | PBool _ | PInt _ =>
      match numeric a, numeric b with
      | Some x, Some y => x =? y
      | _, _ => false
      end
  | PStr s => match b with PStr s' => String.eqb s s' | _ => false end
  | PList la =>
      match b with
      | PList lb =>
          (fix eq_list (la lb : list pyval) {struct la} : bool :=
             match la, lb with
             | [], [] => true
             | x :: la', y :: lb' => py_eq x y && eq_list la' lb'
             | _, _ => false
             end) la lb
      | _ => false
      end
  | PDict da =>
      match b with
      | PDict db =>
          (List.length da =? List.length db)%nat
          && (fix eq_items (da : dict) : bool :=
                match da with
                | [] => true
                | (k, x) :: da' =>
                    match dict_lookup k db with
                    | Some y => py_eq x y && eq_items da'
                    | None => false
                    end
                end) da
      | _ => false
      end
  end.

(** [a > b]: numbers with numbers, strings with strings, lists with lists
    (by the first pair of elements that differ); every other pair raises
    TypeError. *)
Fixpoint py_gt (a b : pyval) {struct a} : res bool :=
  match a with
  | PBool _ | PInt _ =>
      match numeric a, numeric b with
      | Some x, Some y => Ok (y <? x)
      | _, _ => Raised
      end
  | PStr s => match b with PStr s' => Ok (String.ltb s' s) | _ => Raised end
  | PList la =>
      match b with
      | PList lb =>
          (fix gt_list (la lb : list pyval) {struct la} : res bool :=
             match la, lb with
             | [], _ => Ok false
             | _ :: _, [] => Ok true
             | x :: la', y :: lb' =>
                 if py_eq x y then gt_list la' lb' else py_gt x y
             end) la lb
      | _ => Raised
      end
  | _ => Raised
  end.

(** [max(vs)] of a sequence that is not empty: the first of the largest
    elements; an element is compared with the running maximum as it comes. *)
Fixpoint py_max_from (m : pyval) (vs : list pyval) : res pyval :=
  match vs with
  | [] => Ok m
  | v :: vs' =>
      (gt <- py_gt v m ;; py_max_from (if gt then v else m) vs')%res
  end.

Definition py_max (vs : list pyval) : res pyval :=
  match vs with
  | [] => Raised
  | v :: vs' => py_max_from v vs'
  end.

(** [a + 1] as the program uses it; [str + int] and the like raise. *)
Definition py_add_int (a : pyval) (k : Z) : res pyval :=
  match numeric a with
  | Some x => Ok (PInt (x + k))
  | None => Raised
  end.

(** Decimal text of an integer, as [str(n)] and the f-strings print it. *)
Definition string_of_Z (n : Z) : string :=
  NilZero.string_of_int (Z.to_int n).

(** Text of a value inside an f-string, [str(v)].  The text of a list or a
    dictionary is Python's [repr] of it, which the interpreter supplies. *)
Definition py_str (container_repr : pyval -> string) (v : pyval) : string :=
  match v with
  | PNone => "None"
  | PBool true => "True"
  | PBool false => "False"
  | PInt n => string_of_Z n
  | PStr s => s
  | _ => container_repr v
  end.

(** ** What the program takes from Python's library

    [json.dumps(v, indent=2)], [json.loads(s)] ([None] when it raises) and
    [repr] of containers.  The two laws are the contract of the [json]
    module on this value domain: what it reads is a Python object, and it
    reads back what it wrote. *)
Class PyLib : Type := {
  json_dumps : pyval -> string;
  json_loads : string -> option pyval;
  container_repr : pyval -> string;
  json_loads_wf : forall s v, json_loads s = Some v -> wf v = true;
  json_loads_dumps : forall v, wf v = true -> json_loads (json_dumps v) = Some v
}.

(** ** The todo file and the monad of the tools *)

Definition file := option string.

Definition M (A : Type) : Type := file -> res A * file.

Definition ret {A} (a : A) : M A := fun f => (Ok a, f).

Definition bind {A B} (m : M A) (k : A -> M B) : M B :=
  fun f =>
    match m f with
    | (Ok a, f') => k a f'
    | (Raised, f') => (Raised, f')
    end.

(** A pure Python expression inside a tool. *)
Definition lift {A} (r : res A) : M A := fun f => (r, f).

Declare Scope tool_scope.
Delimit Scope tool_scope with tool.
Notation "x <- m ;; k" := (bind m (fun x => k))
  (at level 61, m at next level, right associativity) : tool_scope.
Notation "m ;;; k" := (bind m (fun _ => k))
  (at level 61, right associativity) : tool_scope.

(** [{"success": False, "message": f"Todo with ID {todo_id} not found"}] *)
Definition not_found (todo_id : Z) : pyval :=
  PDict [("success", PBool false);
         ("message", PStr ("Todo with ID " ++ string_of_Z todo_id ++ " not found"))].

(** [next((t for t in todos if t['id'] == todo_id), None)] over the elements
    of [todos]: the first match with its position, found without looking at
    the elements behind it. *)
Fixpoint find_by_id (todo_id : Z) (i : nat) (ts : list pyval)
  : res (option (nat * pyval)) :=
  match ts with
  | [] => Ok None
  | t :: ts' =>
      (v <- py_getitem t "id" ;;
       if py_eq v (PInt todo_id) then Ok (Some (i, t))
       else find_by_id todo_id (S i) ts')%res
  end.

(** [[t for t in todos if t['id'] != todo_id]] *)
Fixpoint without_id (todo_id : Z) (ts : list pyval) : res (list pyval) :=
  match ts with
  | [] => Ok []
  | t :: ts' =>
      (v <- py_getitem t "id" ;;
       rest <- without_id todo_id ts' ;;
       Ok (if negb (py_eq v (PInt todo_id)) then t :: rest else rest))%res
  end.

Fixpoint list_set {A} (i : nat) (x : A) (l : list A) : list A :=
  match l, i with
  | [], _ => []
  | _ :: l', O => x :: l'
  | y :: l', S i' => y :: list_set i' x l'
  end.

(** The variable [todo] of a tool is the very object at position [i] of the
    list [todos] ([json.load] builds every element afresh, so it is at no
    other position): what [todo[key] = x] changes is seen through [todos]. *)
Definition write_back (todos : pyval) (i : nat) (todo : pyval) : pyval :=
  match todos with
  | PList l => PList (list_set i todo l)
  | _ => todos
  end.

(** The messages of a conversation: the class of the object and its
    [content] attribute. *)
Inductive message_class : Type :=
| HumanMessage
| AIMessage
| SystemMessage
| ToolMessage.

Record message : Type := {
  msg_class : message_class;
  content : pyval
}.

Section Program.
Context {lib : PyLib}.

(** *** Database functions, [todo_graph.py] *)

Definition load_todos : M pyval :=
  fun f =>
    match f with
    | Some s =>
        match json_loads s with
        | Some v => (Ok v, f)
        | None => (Ok (PList []), f)
        end
    | None => (Ok (PList []), f)
    end.

Definition save_todos (todos : pyval) : M unit :=
  fun _ => (Ok tt, Some (json_dumps todos)).

Definition get_next_id (todos : pyval) : res pyval :=
  if negb (truthy todos) then Ok (PInt 1)
  else
    (items <- py_iter todos ;;
     ids <- res_map (fun todo => py_get todo "id" (PInt 0)) items ;;
     m <- py_max ids ;;
     py_add_int m 1)%res.

(** What [load_todos] sees in the file. *)
Definition store_of (f : file) : pyval :=
  match f with
  | Some s =>
      match json_loads s with
      | Some v => v
      | None => PList []
      end
  | None => PList []
  end.

(** *** The tools *)

(** [now] is the text [datetime.now().isoformat()] gives at the call. *)
Definition create_todo_tool (text now : string) : M pyval :=
  (todos <- load_todos ;;
   next_id <- lift (get_next_id todos) ;;
   let new_todo :=
     PDict [("id", next_id); ("text", PStr text);
            ("completed", PBool false); ("created_at", PStr now)] in
   todos <- lift (py_append todos new_todo) ;;
   save_todos todos ;;;
   ret (PDict [("success", PBool true); ("todo", new_todo);
               ("message", PStr ("Created todo: " ++ text))]))%tool.

Definition delete_todo_tool (todo_id : Z) : M pyval :=
  (todos <- load_todos ;;
   items <- lift (py_iter todos) ;;
   found <- lift (find_by_id todo_id 0 items) ;;
   match found with
   | None => ret (not_found todo_id)
   | Some (_, todo) =>
       if negb (truthy todo) then ret (not_found todo_id)
       else
         items <- lift (py_iter todos) ;;
         kept <- lift (without_id todo_id items) ;;
         save_todos (PList kept) ;;;
         text <- lift (py_getitem todo "text") ;;
         ret (PDict [("success", PBool true);
                     ("message",
                      PStr ("Deleted todo: " ++ py_str container_repr text))])
   end)%tool.

Definition update_todo_tool (todo_id : Z) (new_text : string) : M pyval :=
  (todos <- load_todos ;;
   items <- lift (py_iter todos) ;;
   found <- lift (find_by_id todo_id 0 items) ;;
   match found with
   | None => ret (not_found todo_id)
   | Some (i, todo) =>
       if negb (truthy todo) then ret (not_found todo_id)
       else
         old_text <- lift (py_getitem todo "text") ;;
         todo <- lift (py_setitem todo "text" (PStr new_text)) ;;
         save_todos (write_back todos i todo) ;;;
         ret (PDict [("success", PBool true);
                     ("message",
                      PStr ("Updated todo " ++ string_of_Z todo_id ++ " from '"
                            ++ py_str container_repr old_text ++ "' to '"
                            ++ new_text ++ "'"))])
   end)%tool.

Definition complete_todo_tool (todo_id : Z) : M pyval :=
  (todos <- load_todos ;;
   items <- lift (py_iter todos) ;;
   found <- lift (find_by_id todo_id 0 items) ;;
   match found with
   | None => ret (not_found todo_id)
   | Some (i, todo) =>
       if negb (truthy todo) then ret (not_found todo_id)
       else
         todo <- lift (py_setitem todo "completed" (PBool true)) ;;
         save_todos (write_back todos i todo) ;;;
         text <- lift (py_getitem todo "text") ;;
         ret (PDict [("success", PBool true);
                     ("message",
                      PStr ("Marked todo as completed: "
                            ++ py_str container_repr text))])
   end)%tool.

Definition delete_all_todos_tool : M pyval :=
  (save_todos (PList []) ;;;
   ret (PDict [("success", PBool true);
               ("message", PStr "All todos deleted")]))%tool.

Definition list_todos_tool : M pyval :=
  (todos <- load_todos ;;
   count <- lift (py_len todos) ;;
   ret (PDict [("success", PBool true); ("todos", todos);
               ("count", count)]))%tool.

(** *** The tools as the commands of a session *)

Inductive command : Type :=
| Create (text now : string)
| Delete (todo_id : Z)
| Update (todo_id : Z) (new_text : string)
| Complete (todo_id : Z)
| DeleteAll
| ListAll.

Definition run_tool (c : command) : M pyval :=
  match c with
  | Create text now => create_todo_tool text now
  | Delete todo_id => delete_todo_tool todo_id
  | Update todo_id new_text => update_todo_tool todo_id new_text
  | Complete todo_id => complete_todo_tool todo_id
  | DeleteAll => delete_all_todos_tool
  | ListAll => list_todos_tool
  end.

(** A session runs its tool calls one after the other on the file; a call
    that raises leaves the file as it was at the raise and the next call goes
    on from there.  The trace pairs each command with its outcome. *)
Fixpoint run_session (cs : list command) (f : file)
  : list (command * res pyval) * file :=
  match cs with
  | [] => ([], f)
  | c :: cs' =>
      let (r, f') := run_tool c f in
      let (trace, f'') := run_session cs' f' in
      ((c, r) :: trace, f'')
  end.

(** *** The result of a turn, [process_command_with_graph]

    [graph.invoke] is the language model at work; what the function does
    with the messages of the final state is below.  Every message object
    has the attribute [content], so [hasattr(final_message, 'content')]
    holds; [final_state["messages"][-1]] raises on an empty list. *)

Definition scan_tool_result (content : pyval) : option pyval :=
  match content with
  | PDict _ => Some content
  | PStr s =>
      match json_loads s with
      | Some (PDict d) => Some (PDict d)
      | Some _ => None
      | None => Some (PDict [("success", PBool true); ("message", PStr s)])
      end
  | _ => None
  end.

(** The loop over [reversed(final_state["messages"])]: [Some r] when it
    leaves by [break] with [result = r]. *)
Fixpoint scan_messages (reversed : list message) : option pyval :=
  match reversed with
  | [] => None
  | msg :: older =>
      match msg_class msg with
      | ToolMessage =>
          match scan_tool_result (content msg) with
          | Some r => Some r
          | None => scan_messages older
          end
      | _ => scan_messages older
      end
  end.

Definition process_command_with_graph (final_messages : list message)
  : res pyval :=
  let result :=
    match scan_messages (rev final_messages) with
    | Some r => r
    | None => PDict [("success", PBool false); ("message", PStr "No result")]
    end in
  (success <- py_get result "success" PNone ;;
   if negb (truthy success) then
     match rev final_messages with
     | [] => Raised
     | final_message :: _ =>
         match content final_message with
         | PStr s => Ok (PDict [("success", PBool true); ("message", PStr s)])
         | c =>
             Ok (PDict [("success", PBool true);
                        ("message", PStr (py_str container_repr c))])
         end
     end
   else Ok result)%res.

End Program.

(** *** The same database functions in [backend.py] *)

Module Backend.
Section Backend.
Context {lib : PyLib}.

Definition load_todos : M pyval :=
  fun f =>
    match f with
    | Some s =>
        match json_loads s with
        | Some v => (Ok v, f)
        | None => (Ok (PList []), f)
        end
    | None => (Ok (PList []), f)
    end.

Definition get_next_id (todos : pyval) : res pyval :=
  if negb (truthy todos) then Ok (PInt 1)
  else
    (items <- py_iter todos ;;
     ids <- res_map (fun todo => py_get todo "id" (PInt 0)) items ;;
     m <- py_max ids ;;
     py_add_int m 1)%res.

End Backend.
End Backend.

(** ** Items

    [class Todo(BaseModel)] of [backend.py]; the tools keep an item as the
    dictionary [to_dict] builds, with the keys in the order
    [create_todo_tool] writes them. *)
Record Todo : Type := {
  id : Z;
  text : string;
  completed : bool;
  created_at : string
}.

Definition to_dict (t : Todo) : pyval :=
  PDict [("id", PInt (id t)); ("text", PStr (text t));
         ("completed", PBool (completed t));
         ("created_at", PStr (created_at t))].

(** An item of the store: a dictionary that has the four fields with their
    types (other keys may come with them). *)
Definition is_item (v : pyval) : bool :=
  wf v
  && match v with
     | PDict d =>
         match dict_lookup "id" d, dict_lookup "text" d,
               dict_lookup "completed" d, dict_lookup "created_at" d with
         | Some (PInt _), Some (PStr _), Some (PBool _), Some (PStr _) => true
         | _, _, _, _ => false
         end
     | _ => false
     end.

(** The id of an item. *)
Definition item_id (v : pyval) : option Z :=
  match v with
  | PDict d =>
      match dict_lookup "id" d with
      | Some (PInt n) => Some n
      | _ => None
      end
  | _ => None
  end.

Fixpoint item_ids (l : list pyval) : list Z :=
  match l with
  | [] => []
  | t :: l' =>
      match item_id t with
      | Some n => n :: item_ids l'
      | None => item_ids l'
      end
  end.

(** The id a successful [create_todo_tool] reports, [result["todo"]["id"]]. *)
Definition created_id (r : res pyval) : option Z :=
  match r with
  | Ok (PDict d) =>
      match dict_lookup "todo" d with
      | Some t => item_id t
      | None => None
      end
  | _ => None
  end.

(** The ids a session assigned, in the order of its creates. *)
Fixpoint assigned_ids (trace : list (command * res pyval)) : list Z :=
  match trace with
  | [] => []
  | (Create _ _, r) :: trace' =>
      match created_id r with
      | Some n => n :: assigned_ids trace'
      | None => assigned_ids trace'
      end
  | _ :: trace' => assigned_ids trace'
  end.

(** An element that is a dictionary with an integer under ["id"]. *)
Definition has_int_id (t : pyval) : bool :=
  match item_id t with
  | Some _ => true
  | None => false
  end.

(** What [get_next_id] computes from the ids of the items. *)
Definition next_id_of (ids : list Z) : Z :=
  match ids with
  | [] => 1
  | n :: ns => fold_left Z.max ns n + 1
  end.

(** The item [create_todo_tool] appends. *)
Definition new_item (l : list pyval) (text now : string) : Todo :=
  {| id := next_id_of (item_ids l); text := text;
     completed := false; created_at := now |}.

(** The items that stay when [todo_id] is deleted. *)
Definition drop_id (todo_id : Z) (l : list pyval) : list pyval :=
  filter (fun t =>
            match item_id t with
            | Some n => negb (n =? todo_id)
            | None => true
            end) l.

(** Some element of the store is a dictionary whose id is a number that is
    at least [n]. *)
Definition id_floor (n : Z) (v : pyval) : Prop :=
  exists l,
    v = PList l
    /\ Exists (fun t =>
                 exists d x m,
                   t = PDict d /\ dict_lookup "id" d = Some x
                   /\ numeric x = Some m /\ n <= m) l.

(** Every id a session assigned is strictly greater than every id it
    assigned before. *)
Definition ids_strictly_increase (trace : list (command * res pyval)) : Prop :=
  StronglySorted Z.lt (assigned_ids trace).

(** The number under ["id"] of an element that is a dictionary. *)
Definition id_number (t : pyval) : option Z :=
  match t with
  | PDict d =>
      match dict_lookup "id" d with
      | Some x => numeric x
      | None => None
      end
  | _ => None
  end.

(** An element of the store has the id [n], as [t["id"] == n] tests it. *)
Definition holds_id (n : Z) (store : pyval) : bool :=
  match store with
  | PList l =>
      existsb (fun t => match id_number t with
                        | Some m => m =? n
                        | None => false
                        end) l
  | _ => false
  end.

(** An element of the store has an id above [n]. *)
Definition holds_above (n : Z) (store : pyval) : bool :=
  match store with
  | PList l =>
      existsb (fun t => match id_number t with
                        | Some m => n <? m
                        | None => false
                        end) l
  | _ => false
  end.

(** A command that leaves the highest id of the store in the store: every
    command but [delete_all_todos_tool] and the [delete_todo_tool] of an id
    that the store holds with no id above it. *)
Definition spares_highest (c : command) (store : pyval) : bool :=
  match c with
  | Delete todo_id => negb (holds_id todo_id store) || holds_above todo_id store
  | DeleteAll => false
  | _ => true
  end.

Definition is_create (c : command) : bool :=
  match c with
  | Create _ _ => true
  | _ => false
  end.

(** Every command of the session that stands between two creates spares the
    highest id of the store it is run on.  [created] tells that a create
    stands before the commands [cs]; [f] is the file they start from. *)
Fixpoint removals_spare_highest {lib : PyLib} (created : bool)
    (cs : list command) (f : file) : bool :=
  match cs with
  | [] => true
  | c :: cs' =>
      (negb created || negb (existsb is_create cs')
       || spares_highest c (store_of f))
      && removals_spare_highest (created || is_create c) cs'
           (snd (run_tool c f))
  end.

(** The wrapped text of the final message. *)
Definition wrapped (s : string) : pyval :=
  PDict [("success", PBool true); ("message", PStr s)].

(** [bool(result.get("success"))] of a result dictionary. *)
Definition success_of (r : pyval) : bool :=
  match r with
  | PDict d =>
      match dict_lookup "success" d with
      | Some v => truthy v
      | None => false
      end
  | _ => false
  end.

(** ** A reference [json] module

    [json.dumps(v, indent=2)] (with Python's default [ensure_ascii]) and
    [json.loads], written out for the value domain of this file, with strings
    over the code points 0 to 255.  Number literals with a fraction or an
    exponent, [NaN] and [Infinity] denote floats and are not read. *)
Module RefJson.
Local Open Scope string_scope.

Definition dquote : ascii := "034"%char.
Definition backslash : ascii := "092"%char.
Definition newline : ascii := "010"%char.

Definition is_ws (c : ascii) : bool :=
  match N_of_ascii c with
  | 32%N | 9%N | 10%N | 13%N => true
  | _ => false
  end.

Definition is_digit (c : ascii) : bool :=
  ((48 <=? N_of_ascii c) && (N_of_ascii c <=? 57))%N.

(** *** Writing *)

Definition hex_digit (n : N) : ascii :=
  if (n <? 10)%N then ascii_of_N (48 + n) else ascii_of_N (87 + n).

Definition escape_char (c : ascii) : string :=
  let n := N_of_ascii c in
  match n with
  | 34%N => String backslash (String dquote "")
  | 92%N => String backslash (String backslash "")
  | 10%N => String backslash "n"
  | 13%N => String backslash "r"
  | 9%N => String backslash "t"
  | 8%N => String backslash "b"
  | 12%N => String backslash "f"
  | _ =>
      if ((32 <=? n) && (n <=? 126))%N then String c ""
      else String backslash
             (String "u" (String "0" (String "0"
                (String (hex_digit (n / 16)) (String (hex_digit (n mod 16)) "")))))
  end.

Fixpoint escape (s : string) : string :=
  match s with
  | EmptyString => ""
  | String c s' => escape_char c ++ escape s'
  end.

Definition quote (s : string) : string :=
  String dquote (escape s ++ String dquote "").

Fixpoint spaces (n : nat) : string :=
  match n with
  | O => ""
  | S n' => String " " (spaces n')
  end.

(** A line break and the indentation of nesting level [lvl]. *)
Definition nl (lvl : nat) : string := String newline (spaces (2 * lvl)).

Fixpoint dumps_at (lvl : nat) (v : pyval) : string :=
  match v with
  | PNone => "null"
  | PBool true => "true"
  | PBool false => "false"
  | PInt n => string_of_Z n
  | PStr s => quote s
  | PList [] => "[]"
  | PList (x :: l) =>
      "[" ++ nl (S lvl) ++ dumps_at (S lvl) x ++
      (fix elems (l : list pyval) : string :=
         match l with
         | [] => nl lvl ++ "]"
         | y :: l' => "," ++ nl (S lvl) ++ dumps_at (S lvl) y ++ elems l'
         end) l
  | PDict [] => "{}"
  | PDict ((k, x) :: d) =>
      "{" ++ nl (S lvl) ++ quote k ++ ": " ++ dumps_at (S lvl) x ++
      (fix members (d : list (string * pyval)) : string :=
         match d with
         | [] => nl lvl ++ "}"
         | (k', y) :: d' =>
             "," ++ nl (S lvl) ++ quote k' ++ ": " ++ dumps_at (S lvl) y
             ++ members d'
         end) d
  end.

Definition dumps (v : pyval) : string := dumps_at 0 v.

(** *** Reading *)

Fixpoint skip_ws (s : string) : string :=
  match s with
  | EmptyString => ""
  | String c s' => if is_ws c then skip_ws s' else s
  end.

Fixpoint strip_prefix (p s : string) : option string :=
  match p with
  | EmptyString => Some s
  | String a p' =>
      match s with
      | EmptyString => None
      | String b s' => if Ascii.eqb a b then strip_prefix p' s' else None
      end
  end.

Definition hex_value (c : ascii) : option N :=
  let n := N_of_ascii c in
  if ((48 <=? n) && (n <=? 57))%N then Some (n - 48)%N
  else if ((97 <=? n) && (n <=? 102))%N then Some (n - 87)%N
  else if ((65 <=? n) && (n <=? 70))%N then Some (n - 55)%N
  else None.

Definition hex4 (a b c d : ascii) : option N :=
  match hex_value a, hex_value b, hex_value c, hex_value d with
  | Some x, Some y, Some z, Some w => Some (((x * 16 + y) * 16 + z) * 16 + w)%N
  | _, _, _, _ => None
  end.

Definition unescape (e : ascii) : option ascii :=
  match N_of_ascii e with
  | 34%N => Some dquote
  | 92%N => Some backslash
  | 47%N => Some "/"%char
  | 98%N => Some "008"%char
  | 102%N => Some "012"%char
  | 110%N => Some "010"%char
  | 114%N => Some "013"%char
  | 116%N => Some "009"%char
  | _ => None
  end.

Definition cons_char (c : ascii) (r : option (string * string))
  : option (string * string) :=
  match r with
  | Some (s, rest) => Some (String c s, rest)
  | None => None
  end.

(** The characters of a string literal, from behind its opening quote up to
    the closing one. *)
Fixpoint scan_string (s : string) : option (string * string) :=
  match s with
  | EmptyString => None
  | String c s' =>
      if Ascii.eqb c dquote then Some ("", s')
      else if Ascii.eqb c backslash then
        match s' with
        | EmptyString => None
        | String e s'' =>
            if Ascii.eqb e "u" then
              match s'' with
              | String h1 (String h2 (String h3 (String h4 s5))) =>
                  match hex4 h1 h2 h3 h4 with
                  | Some n =>
                      if (n <? 256)%N then cons_char (ascii_of_N n) (scan_string s5)
                      else None
                  | None => None
                  end
              | _ => None
              end
            else
              match unescape e with
              | Some c' => cons_char c' (scan_string s'')
              | None => None
              end
        end
      else if (N_of_ascii c <? 32)%N then None
      else cons_char c (scan_string s')
  end.

Fixpoint span_digits (s : string) : string * string :=
  match s with
  | EmptyString => ("", "")
  | String c s' =>
      if is_digit c then let (ds, rest) := span_digits s' in (String c ds, rest)
      else ("", s)
  end.

Definition starts_float (s : string) : bool :=
  match s with
  | String c _ => Ascii.eqb c "." || Ascii.eqb c "e" || Ascii.eqb c "E"
  | EmptyString => false
  end.

Definition scan_nat (s : string) : option (Z * string) :=
  let (ds, rest) := span_digits s in
  match ds with
  | EmptyString => None
  | String "0" (String _ _) => None
  | _ =>
      if starts_float rest then None
      else
        match NilEmpty.uint_of_string ds with
        | Some u => Some (Z.of_uint u, rest)
        | None => None
        end
  end.

Definition scan_int (s : string) : option (Z * string) :=
  match s with
  | String "-" s' =>
      match scan_nat s' with
      | Some (n, rest) => Some (- n, rest)
      | None => None
      end
  | _ => scan_nat s
  end.

(** [dict(pairs)]: a key read twice keeps its first place and its last
    value. *)
Definition dict_of_pairs (pairs : list (string * pyval)) : dict :=
  fold_left (fun d kv => dict_set (fst kv) (snd kv) d) pairs [].

(** The next character, when it is [c]. *)
Definition expect (c : ascii) (s : string) : option string :=
  match s with
  | String c' r => if Ascii.eqb c c' then Some r else None
  | EmptyString => None
  end.

Fixpoint parse_value (fuel : nat) (s : string) {struct fuel}
  : option (pyval * string) :=
  match fuel with
  | O => None
  | S fuel' =>
      match s with
      | EmptyString => None
      | String c r =>
          if Ascii.eqb c "n" then
            match strip_prefix "ull" r with
            | Some r' => Some (PNone, r')
            | None => None
            end
          else if Ascii.eqb c "t" then
            match strip_prefix "rue" r with
            | Some r' => Some (PBool true, r')
            | None => None
            end
          else if Ascii.eqb c "f" then
            match strip_prefix "alse" r with
            | Some r' => Some (PBool false, r')
            | None => None
            end
          else if Ascii.eqb c dquote then
            match scan_string r with
            | Some (k, r') => Some (PStr k, r')
            | None => None
            end
          else if Ascii.eqb c "[" then
            match expect "]" (skip_ws r) with
            | Some r' => Some (PList [], r')
            | None =>
                match parse_elems fuel' (skip_ws r) with
                | Some (l, r') => Some (PList l, r')
                | None => None
                end
            end
          else if Ascii.eqb c "{" then
            match expect "}" (skip_ws r) with
            | Some r' => Some (PDict [], r')
            | None =>
                match parse_members fuel' (skip_ws r) with
                | Some (pairs, r') => Some (PDict (dict_of_pairs pairs), r')
                | None => None
                end
            end
          else
            match scan_int s with
            | Some (n, r') => Some (PInt n, r')
            | None => None
            end
      end
  end

with parse_elems (fuel : nat) (s : string) {struct fuel}
  : option (list pyval * string) :=
  match fuel with
  | O => None
  | S fuel' =>
      match parse_value fuel' s with
      | Some (v, r) =>
          match expect "]" (skip_ws r) with
          | Some r' => Some ([v], r')
          | None =>
              match expect "," (skip_ws r) with
              | Some r' =>
                  match parse_elems fuel' (skip_ws r') with
                  | Some (l, r'') => Some (v :: l, r'')
                  | None => None
                  end
              | None => None
              end
          end
      | None => None
      end
  end

with parse_members (fuel : nat) (s : string) {struct fuel}
  : option (list (string * pyval) * string) :=
  match fuel with
  | O => None
  | S fuel' =>
      match expect dquote s with
      | Some r =>
          match scan_string r with
          | Some (k, r1) =>
              match expect ":" (skip_ws r1) with
              | Some r2 =>
                  match parse_value fuel' (skip_ws r2) with
                  | Some (v, r3) =>
                      match expect "}" (skip_ws r3) with
                      | Some r4 => Some ([(k, v)], r4)
                      | None =>
                          match expect "," (skip_ws r3) with
                          | Some r4 =>
                              match parse_members fuel' (skip_ws r4) with
                              | Some (pairs, r5) => Some ((k, v) :: pairs, r5)
                              | None => None
                              end
                          | None => None
                          end
                      end
                  | None => None
                  end
              | None => None
              end
          | None => None
          end
      | None => None
      end
  end.

Definition loads (s : string) : option pyval :=
  match parse_value (S (String.length s)) (skip_ws s) with
  | Some (v, r) =>
      match skip_ws r with
      | EmptyString => Some v
      | _ => None
      end
  | None => None
  end.

(** Where Python prints [repr] of a list or a dictionary the reference
    module prints its JSON text; no run below prints a container. *)
Definition repr (v : pyval) : string := dumps v.

(** What one call of [parse_value] on the text of [v] needs as fuel. *)
Fixpoint need (v : pyval) : nat :=
  match v with
  | PList l => S (fold_right (fun x n => S (need x + n)) O l)
  | PDict d => S (fold_right (fun kv n => S (need (snd kv) + n)) O d)
  | _ => 1
  end.

Fixpoint elems_tail (lvl : nat) (l : list pyval) : string :=
  match l with
  | [] => nl lvl ++ "]"
  | y :: l' => "," ++ nl (S lvl) ++ dumps_at (S lvl) y ++ elems_tail lvl l'
  end.

Fixpoint members_tail (lvl : nat) (d : list (string * pyval)) : string :=
  match d with
  | [] => nl lvl ++ "}"
  | (k, y) :: d' =>
      "," ++ nl (S lvl) ++ quote k ++ ": " ++ dumps_at (S lvl) y
      ++ members_tail lvl d'
  end.

(** What may stand behind a number: no digit and no start of a fraction or
    an exponent. *)
Definition follows_number (rest : string) : bool :=
  match rest with
  | EmptyString => true
  | String c _ => negb (is_digit c) && negb (starts_float rest)
  end.

(** A text that starts with a character of a value. *)
Definition starts_value (s : string) : bool :=
  match s with
  | EmptyString => false
  | String c _ =>
      negb (is_ws c) && negb (Ascii.eqb "]" c) && negb (Ascii.eqb "}" c)
  end.

(** The text of [v], whatever stands behind it, is read back as [v]. *)
Definition reads_back (v : pyval) : Prop :=
  forall lvl rest fuel,
    wf v = true -> (need v <= fuel)%nat -> follows_number rest = true ->
    parse_value fuel (dumps_at lvl v ++ rest)%string = Some (v, rest).

Definition need_elems (l : list pyval) : nat :=
  fold_right (fun x n => S (need x + n)) O l.

Definition need_members (d : list (string * pyval)) : nat :=
  fold_right (fun kv n => S (need (snd kv) + n)) O d.

End RefJson.

(** ** Sample data for the runs with the reference module *)

Definition milk : Todo :=
  {| id := 1; text := "milk"; completed := false;
     created_at := "2024-01-01T10:00:00" |}.

Definition eggs : Todo :=
  {| id := 3; text := "eggs"; completed := true;
     created_at := "2024-01-02T09:30:00" |}.

(** The file that holds the one item [milk]. *)
Definition milk_file : file := Some (RefJson.dumps (PList [to_dict milk])).

Definition quoted (s : string) : string :=
  String RefJson.dquote (s ++ String RefJson.dquote "").

(** The content of the tool message of [delete_todo_tool(99)] on a store
    without the id 99:
    [{"success": false, "message": "Todo with ID 99 not found"}]. *)
Definition not_found_99_text : string :=
  "{" ++ quoted "success" ++ ": false, " ++ quoted "message" ++ ": "
  ++ quoted "Todo with ID 99 not found" ++ "}".

(** The messages of a turn "Delete todo 99" on [milk_file]: the command, the
    tool call of the model, the result of the tool, the closing answer of
    the model. *)
Definition turn_99 : list message :=
  [ {| msg_class := HumanMessage; content := PStr "Delete todo 99" |};
    {| msg_class := AIMessage; content := PStr "" |};
    {| msg_class := ToolMessage; content := PStr not_found_99_text |};
    {| msg_class := AIMessage;
       content := PStr "I could not find a todo with ID 99." |} ].

(** The number [get_next_id] takes for an element: the numeric value under
    ["id"], 0 when a dictionary has no such key, none for anything else. *)
Definition id_or_zero (t : pyval) : option Z :=
  match t with
  | PDict d =>
      match dict_lookup "id" d with
      | Some x => numeric x
      | None => Some 0
      end
  | _ => None
  end.

(** A message at which the loop of [process_command_with_graph] stops: a
    tool message whose content gives a result. *)
Definition gives_result {lib : PyLib} (m : message) : bool :=
  match msg_class m with
  | ToolMessage =>
      match scan_tool_result (content m) with
      | Some _ => true
      | None => false
      end
  | _ => false
  end.

(** ** The input of the agent, [call_agent] of [todo_graph.py]

    What [call_agent] hands to [agent.invoke]: the messages of the state,
    behind a system message with the current todos when the state holds one
    message and the store is not empty.  The text of the todos is built
    before that test, on every call. *)

Definition line_break : string := String "010" "".

Section Agent.
Context {lib : PyLib}.

(** [f"ID {t['id']}: {t['text']} ({'completed' if t.get('completed') else
    'pending'})"] *)
Definition todo_line (t : pyval) : res string :=
  (i <- py_getitem t "id" ;;
   x <- py_getitem t "text" ;;
   c <- py_get t "completed" PNone ;;
   Ok ("ID " ++ py_str container_repr i ++ ": " ++ py_str container_repr x
       ++ " (" ++ (if truthy c then "completed" else "pending") ++ ")")%string)%res.

Definition todos_context (todos : pyval) : res string :=
  (items <- py_iter todos ;;
   lines <- res_map todo_line items ;;
   Ok (String.concat line_break lines))%res.

Definition system_prompt (context : string) : string :=
  ("You are a helpful todo assistant. Current todos:" ++ line_break
   ++ context ++ line_break ++ line_break
   ++ "When the user asks about todos by text (not ID), find the matching ID from the list above."
   ++ line_break ++ "Always use the appropriate tool to perform actions.")%string.

(** The line of the context for an item with the fields [n], [s], [b]. *)
Definition item_line (n : Z) (s : string) (b : bool) : string :=
  ("ID " ++ string_of_Z n ++ ": " ++ s ++ " ("
   ++ (if b then "completed" else "pending") ++ ")")%string.

Definition call_agent_input (messages : list message) : M (list message) :=
  (todos <- load_todos ;;
   context <- lift (todos_context todos) ;;
   ret (if (List.length messages =? 1)%nat && truthy todos
        then {| msg_class := SystemMessage;
                content := PStr (system_prompt context) |} :: messages
        else messages))%tool.

End Agent.

(** ** The REST handlers of [backend.py]

    A handler returns its value or raises [HTTPException(status_code=404)];
    any other exception is the outcome [Raised] of the monad. *)

Inductive http (A : Type) : Type :=
| Response (a : A)
| HTTPException (status_code : Z).
Arguments Response {A} a.
Arguments HTTPException {A} status_code.

Module Api.
Section Api.
Context {lib : PyLib}.

Definition save_todos (todos : pyval) : M unit :=
  fun _ => (Ok tt, Some (json_dumps todos)).

Definition get_todos : M (http pyval) :=
  (todos <- Backend.load_todos ;; ret (Response todos))%tool.

Definition create_todo (text now : string) : M (http pyval) :=
  (todos <- Backend.load_todos ;;
   next_id <- lift (Backend.get_next_id todos) ;;
   let new_todo :=
     PDict [("id", next_id); ("text", PStr text);
            ("completed", PBool false); ("created_at", PStr now)] in
   todos <- lift (py_append todos new_todo) ;;
   save_todos todos ;;;
   ret (Response new_todo))%tool.

Definition get_todo (todo_id : Z) : M (http pyval) :=
  (todos <- Backend.load_todos ;;
   items <- lift (py_iter todos) ;;
   found <- lift (find_by_id todo_id 0 items) ;;
   match found with
   | None => ret (HTTPException 404)
   | Some (_, todo) =>
       if negb (truthy todo) then ret (HTTPException 404)
       else ret (Response todo)
   end)%tool.

(** [todo_update.text] and [todo_update.completed] are [None] when the body
    of the request leaves them out. *)
Definition update_todo (todo_id : Z) (text : option string)
    (completed : option bool) : M (http pyval) :=
  (todos <- Backend.load_todos ;;
   items <- lift (py_iter todos) ;;
   found <- lift (find_by_id todo_id 0 items) ;;
   match found with
   | None => ret (HTTPException 404)
   | Some (i, todo) =>
       if negb (truthy todo) then ret (HTTPException 404)
       else
         todo <- lift (match text with
                       | Some s => py_setitem todo "text" (PStr s)
                       | None => Ok todo
                       end) ;;
         todo <- lift (match completed with
                       | Some b => py_setitem todo "completed" (PBool b)
                       | None => Ok todo
                       end) ;;
         save_todos (write_back todos i todo) ;;;
         ret (Response todo)
   end)%tool.

Definition delete_todo (todo_id : Z) : M (http pyval) :=
  (todos <- Backend.load_todos ;;
   items <- lift (py_iter todos) ;;
   found <- lift (find_by_id todo_id 0 items) ;;
   match found with
   | None => ret (HTTPException 404)
   | Some (_, todo) =>
       if negb (truthy todo) then ret (HTTPException 404)
       else
         items <- lift (py_iter todos) ;;
         kept <- lift (without_id todo_id items) ;;
         save_todos (PList kept) ;;;
         ret (Response (PDict [("message", PStr "Todo deleted successfully")]))
   end)%tool.

Definition delete_all_todos : M (http pyval) :=
  (save_todos (PList []) ;;;
   ret (Response (PDict [("message",
                          PStr "All todos deleted successfully")])))%tool.

End Api.

(** The dictionary [PUT /todos/{id}] leaves for the item [d]. *)
Definition put_fields (text : option string) (completed : option bool)
    (d : dict) : dict :=
  let d1 := match text with
            | Some s => dict_set "text" (PStr s) d
            | None => d
            end in
  match completed with
  | Some b => dict_set "completed" (PBool b) d1
  | None => d1
  end.

(** *** The label of a command, [process_command]

    The handler calls [process_command_with_graph] and labels its result
    under [try]; [except Exception as e] answers with the error envelope,
    which carries the text [str(e)].  [outcome] is the outcome of an
    expression under that [try]: its value, or the exception with its
    text. *)

Inductive outcome (A : Type) : Type :=
| Returns (a : A)
| Raises (str_e : string).
Arguments Returns {A} a.
Arguments Raises {A} str_e.

Definition outcome_bind {A B} (r : outcome A) (k : A -> outcome B)
  : outcome B :=
  match r with
  | Returns a => k a
  | Raises str_e => Raises str_e
  end.

Declare Scope try_scope.
Delimit Scope try_scope with try.
Notation "x <- r ;; k" := (outcome_bind r (fun x => k))
  (at level 61, r at next level, right associativity) : try_scope.

(** [type(v).__name__] *)
Definition type_name (v : pyval) : string :=
  match v with
  | PNone => "NoneType"
  | PBool _ => "bool"
  | PInt _ => "int"
  | PStr _ => "str"
  | PList _ => "list"
  | PDict _ => "dict"
  end.

(** The text of the [AttributeError] for a method the value does not have:
    ['NoneType' object has no attribute 'lower']. *)
Definition no_attribute (v : pyval) (attr : string) : string :=
  "'" ++ type_name v ++ "' object has no attribute '" ++ attr ++ "'".

(** [c.lower()] on the code points 0 to 255. *)
Definition lower_char (c : ascii) : ascii :=
  let n := N_of_ascii c in
  if (((65 <=? n) && (n <=? 90))
      || ((192 <=? n) && (n <=? 222) && negb (n =? 215)))%N
  then ascii_of_N (n + 32)
  else c.

Fixpoint lower (s : string) : string :=
  match s with
  | EmptyString => ""
  | String c s' => String (lower_char c) (lower s')
  end.

(** [needle in hay] on strings. *)
Fixpoint contains (needle hay : string) : bool :=
  String.prefix needle hay
  || match hay with
     | EmptyString => false
     | String _ hay' => contains needle hay'
     end.

(** [d.get(key, default)] of a dictionary. *)
Definition dict_get (d : dict) (key : string) (default : pyval) : pyval :=
  match dict_lookup key d with
  | Some x => x
  | None => default
  end.

(** [v.get(key, default)]: only dictionaries have the method. *)
Definition get (v : pyval) (key : string) (default : pyval) : outcome pyval :=
  match v with
  | PDict d => Returns (dict_get d key default)
  | _ => Raises (no_attribute v "get")
  end.

(** [v.lower()]: only strings have the method. *)
Definition lower_of (v : pyval) : outcome string :=
  match v with
  | PStr s => Returns (lower s)
  | _ => Raises (no_attribute v "lower")
  end.

(** The [if]/[elif] chain: the action and the text of the todo.  It is
    reached after [result.get("success")], so with a [result] that is a
    dictionary; [result] below is that dictionary.  [result["todo"]] is
    read where ["todo" in result] holds. *)
Definition classify (result : dict) (message_lower : string)
  : outcome (pyval * pyval) :=
  if contains "created" message_lower || contains "create" message_lower then
    match dict_lookup "todo" result with
    | Some todo =>
        (todo_text <- get todo "text" PNone ;;
         Returns (PStr "create", todo_text))%try
    | None => Returns (PStr "create", PNone)
    end
  else if contains "deleted" message_lower && contains "all" message_lower then
    Returns (PStr "delete_all", PNone)
  else if contains "deleted" message_lower then Returns (PStr "delete", PNone)
  else if contains "updated" message_lower then Returns (PStr "update", PNone)
  else if contains "completed" message_lower then
    Returns (PStr "complete", PNone)
  else
    Returns (if mem_string "todos" (map fst result) then PStr "list" else PNone,
             PNone).

(** The body of the [try] from the result of the turn on.  The first
    [result.get] raises unless [result] is a dictionary. *)
Definition try_body (result : pyval) : outcome pyval :=
  match result with
  | PDict d =>
      (labels <-
         (if truthy (dict_get d "success" PNone) then
            message_lower <- lower_of (dict_get d "message" (PStr "")) ;;
            classify d message_lower
          else Returns (PNone, PNone)) ;;
       Returns (PDict [("action", fst labels); ("todo_id", PNone);
                       ("todo_text", snd labels); ("result", result);
                       ("message", dict_get d "message" (PStr ""))]))%try
  | _ => Raises (no_attribute result "get")
  end.

(** The answer of the [except] branch for an exception with the text
    [str_e]. *)
Definition error_answer (str_e : string) : pyval :=
  PDict [("action", PNone); ("todo_id", PNone); ("todo_text", PNone);
         ("result",
          PDict [("success", PBool false);
                 ("message", PStr ("Error processing command: " ++ str_e))]);
         ("message", PStr ("Error: " ++ str_e))].

(** The handler.  [turn] is what the calls of [get_process_command_function]
    and [process_command_with_graph] gave: the result of the turn, or the
    exception one of them raised. *)
Definition process_command (turn : outcome pyval) : pyval :=
  match (result <- turn ;; try_body result)%try with
  | Returns answer => answer
  | Raises str_e => error_answer str_e
  end.

(** The label in the answer for the result of a turn,
    [process_command(...)["action"]]. *)
Definition action_of (result : pyval) : res pyval :=
  py_getitem (process_command (Returns result)) "action".

(** The results of the tools that name the text of an item. *)
Definition deleted_result (text : string) : pyval :=
  PDict [("success", PBool true);
         ("message", PStr ("Deleted todo: " ++ text))].

Definition updated_result (todo_id : Z) (old_text new_text : string) : pyval :=
  PDict [("success", PBool true);
         ("message",
          PStr ("Updated todo " ++ string_of_Z todo_id ++ " from '"
                ++ old_text ++ "' to '" ++ new_text ++ "'"))].

Definition completed_result (text : string) : pyval :=
  PDict [("success", PBool true);
         ("message", PStr ("Marked todo as completed: " ++ text))].

End Api.

(** A file whose one element has an id and no text. *)
Definition no_text_file : file :=
  Some (RefJson.dumps (PList [PDict [("id", PInt 7)]])).

(** The text of an error as a tool message carries it. *)
Definition tool_error_text : string := "Error: the tool could not be called".

(** * Facts *)

(** ** Strings *)

Lemma sapp_assoc (a b c : string) : ((a ++ b) ++ c = a ++ (b ++ c))%string.
Proof. induction a; simpl; congruence. Qed.

Lemma sapp_length (a b : string) :
  String.length (a ++ b)%string = (String.length a + String.length b)%nat.
Proof. induction a; simpl; congruence. Qed.

Lemma mem_string_In k ks : mem_string k ks = true <-> In k ks.
Proof.
  induction ks as [|k' ks IH]; simpl.
  - split; [discriminate | tauto].
  - rewrite orb_true_iff, IH, String.eqb_eq. split; intros [H|H]; auto.
Qed.

Lemma nodup_strings_NoDup ks : nodup_strings ks = true <-> NoDup ks.
Proof.
  induction ks as [|k ks IH]; simpl.
  - split; [constructor | reflexivity].
  - rewrite andb_true_iff, negb_true_iff, IH. split.
    + intros [H1 H2]. constructor; [|assumption].
      rewrite <- mem_string_In. congruence.
    + intros H. inversion H; subst. split; [|assumption].
      destruct (mem_string k ks) eqn:E; [|reflexivity].
      apply mem_string_In in E. contradiction.
Qed.

(** ** Dictionaries *)

Lemma dict_lookup_set_same k v d : dict_lookup k (dict_set k v d) = Some v.
Proof.
  induction d as [|[k' v'] d IH]; simpl.
  - now rewrite String.eqb_refl.
  - destruct (String.eqb k k') eqn:E; simpl; rewrite ?String.eqb_refl, ?E; auto.
Qed.

Lemma dict_lookup_set_other k k' v d :
  k' <> k -> dict_lookup k' (dict_set k v d) = dict_lookup k' d.
Proof.
  intros Hne. induction d as [|[k0 v0] d IH]; simpl.
  - apply String.eqb_neq in Hne. now rewrite Hne.
  - destruct (String.eqb k k0) eqn:E; simpl.
    + apply String.eqb_eq in E. subst k0.
      apply String.eqb_neq in Hne. now rewrite Hne.
    + now rewrite IH.
Qed.

Lemma dict_set_keys_present k v d :
  In k (map fst d) -> map fst (dict_set k v d) = map fst d.
Proof.
  induction d as [|[k0 v0] d IH]; simpl; [tauto|].
  intros H. destruct (String.eqb k k0) eqn:E; simpl.
  - apply String.eqb_eq in E. now subst.
  - f_equal. apply IH. destruct H as [H|H]; [|assumption].
    subst. now rewrite String.eqb_refl in E.
Qed.

Lemma dict_set_keys_absent k v d :
  ~ In k (map fst d) -> dict_set k v d = (d ++ [(k, v)])%list.
Proof.
  induction d as [|[k0 v0] d IH]; simpl; [reflexivity|].
  intros H. destruct (String.eqb k k0) eqn:E.
  - apply String.eqb_eq in E. subst. tauto.
  - f_equal. apply IH. tauto.
Qed.

Lemma dict_lookup_In k d :
  (exists v, dict_lookup k d = Some v) <-> In k (map fst d).
Proof.
  induction d as [|[k0 v0] d IH]; simpl.
  - split; [intros [v H]; discriminate | tauto].
  - destruct (String.eqb k k0) eqn:E.
    + apply String.eqb_eq in E. subst. split; eauto.
    + rewrite IH. apply String.eqb_neq in E. split; [tauto|].
      intros [H|H]; [congruence | assumption].
Qed.

Lemma dict_set_nodup k v d :
  nodup_strings (map fst d) = true ->
  nodup_strings (map fst (dict_set k v d)) = true.
Proof.
  intros H. destruct (in_dec string_dec k (map fst d)) as [Hin|Hout].
  - now rewrite dict_set_keys_present.
  - rewrite dict_set_keys_absent by assumption.
    rewrite map_app. simpl. apply nodup_strings_NoDup.
    apply nodup_strings_NoDup in H.
    apply NoDup_app; [assumption | repeat constructor; simpl; tauto |].
    intros x Hx [Hk|[]]. subst. contradiction.
Qed.

Lemma dict_set_wf_vals k v d :
  wf v = true ->
  forallb (fun kv => wf (snd kv)) d = true ->
  forallb (fun kv => wf (snd kv)) (dict_set k v d) = true.
Proof.
  intros Hv. induction d as [|[k0 v0] d IH]; simpl.
  - now rewrite Hv.
  - rewrite andb_true_iff. intros [H0 Hd].
    destruct (String.eqb k k0); simpl; rewrite ?Hv, ?H0; simpl; auto.
Qed.

Lemma wf_dict_set k v d :
  wf (PDict d) = true -> wf v = true -> wf (PDict (dict_set k v d)) = true.
Proof.
  simpl. rewrite !andb_true_iff. intros [H1 H2] Hv. split.
  - now apply dict_set_nodup.
  - now apply dict_set_wf_vals.
Qed.

(** ** The reference [json] module reads back what it writes *)

Import RefJson.

Lemma skip_ws_spaces n s : skip_ws (spaces n ++ s)%string = skip_ws s.
Proof. induction n; simpl; auto. Qed.

Lemma skip_ws_nl lvl s : skip_ws (nl lvl ++ s)%string = skip_ws s.
Proof. unfold nl. simpl. apply skip_ws_spaces. Qed.

Lemma scan_escape_char c tail :
  scan_string (escape_char c ++ tail)%string = cons_char c (scan_string tail).
Proof.
  destruct c as [[] [] [] [] [] [] [] []]; reflexivity.
Qed.

Lemma scan_string_escape s rest :
  scan_string (escape s ++ String dquote rest)%string = Some (s, rest).
Proof.
  induction s as [|c s IH]; simpl.
  - reflexivity.
  - rewrite sapp_assoc, scan_escape_char, IH. reflexivity.
Qed.

Lemma scan_string_quote s rest :
  exists body, (quote s ++ rest)%string = String dquote body
               /\ scan_string body = Some (s, rest).
Proof.
  exists (escape s ++ String dquote rest)%string. split.
  - unfold quote. simpl. now rewrite sapp_assoc.
  - apply scan_string_escape.
Qed.

(** Numbers. *)

#[local] Arguments is_digit : simpl never.
#[local] Arguments starts_float : simpl never.

Lemma span_digits_uint d rest :
  follows_number rest = true ->
  span_digits (NilEmpty.string_of_uint d ++ rest)%string
  = (NilEmpty.string_of_uint d, rest).
Proof.
  intros Hrest. induction d; simpl; try (rewrite IHd; reflexivity).
  destruct rest as [|c rest]; [reflexivity|].
  simpl in *. apply andb_true_iff in Hrest. destruct Hrest as [H _].
  apply negb_true_iff in H. now rewrite H.
Qed.

Lemma unorm_head_zero u u' : Decimal.unorm u = Decimal.D0 u' -> u' = Decimal.Nil.
Proof.
  induction u; simpl; intros H; try discriminate; auto.
  now inversion H.
Qed.

Lemma pos_uint_head p :
  match Pos.to_uint p with
  | Decimal.Nil | Decimal.D0 _ => False
  | _ => True
  end.
Proof.
  pose proof (Unsigned.to_uint_nonnil p) as Hnil.
  pose proof (Unsigned.to_uint_nonzero p) as Hz.
  pose proof (Unsigned.to_of (Pos.to_uint p)) as Hn.
  rewrite Unsigned.of_to in Hn. simpl in Hn.
  destruct (Pos.to_uint p) eqn:E; auto.
  symmetry in Hn. apply unorm_head_zero in Hn. subst. now apply Hz.
Qed.

Lemma scan_nat_pos p rest :
  follows_number rest = true ->
  scan_nat (NilEmpty.string_of_uint (Pos.to_uint p) ++ rest)%string
  = Some (Z.pos p, rest).
Proof.
  intros Hrest. unfold scan_nat. rewrite span_digits_uint by assumption.
  assert (Hf : starts_float rest = false).
  { destruct rest; [reflexivity|]. simpl in Hrest.
    apply andb_true_iff in Hrest. destruct Hrest as [_ H].
    now apply negb_true_iff in H. }
  pose proof (pos_uint_head p) as Hh.
  assert (Hval : NilEmpty.uint_of_string
                   (NilEmpty.string_of_uint (Pos.to_uint p))
                 = Some (Pos.to_uint p)) by apply NilEmpty.usu.
  assert (Hz : Z.of_uint (Pos.to_uint p) = Z.pos p).
  { unfold Z.of_uint. now rewrite Unsigned.of_to. }
  destruct (Pos.to_uint p) eqn:E; try contradiction;
    simpl NilEmpty.string_of_uint in *; cbv iota beta;
    rewrite Hf, Hval, Hz; reflexivity.
Qed.

Lemma scan_int_string_of_Z n rest :
  follows_number rest = true ->
  scan_int (string_of_Z n ++ rest)%string = Some (n, rest).
Proof.
  intros Hrest. unfold string_of_Z. destruct n as [|p|p]; simpl.
  - change (scan_nat (NilEmpty.string_of_uint (Decimal.D0 Decimal.Nil) ++ rest)%string
            = Some (0, rest)).
    unfold scan_nat. rewrite span_digits_uint by assumption. simpl.
    replace (starts_float rest) with false; [reflexivity|].
    destruct rest; [reflexivity|]. simpl in Hrest.
    apply andb_true_iff in Hrest. destruct Hrest as [_ H].
    apply negb_true_iff in H. now rewrite H.
  - unfold NilZero.string_of_uint.
    pose proof (pos_uint_head p) as Hh.
    pose proof (scan_nat_pos p rest Hrest) as Hs.
    destruct (Pos.to_uint p) eqn:E; try contradiction;
      simpl in *; rewrite Hs; reflexivity.
  - unfold NilZero.string_of_uint.
    pose proof (pos_uint_head p) as Hh.
    pose proof (scan_nat_pos p rest Hrest) as Hs.
    destruct (Pos.to_uint p) eqn:E; try contradiction;
      simpl in *; rewrite Hs; reflexivity.
Qed.

Lemma skip_ws_starts s : starts_value s = true -> skip_ws s = s.
Proof.
  destruct s as [|c s]; unfold starts_value; [reflexivity|].
  rewrite !andb_true_iff, !negb_true_iff. intros [[H _] _]. simpl. now rewrite H.
Qed.

Lemma expect_close_starts c s :
  c = "]"%char \/ c = "}"%char -> starts_value s = true -> expect c s = None.
Proof.
  destruct s as [|c' s]; unfold expect, starts_value; [reflexivity|].
  rewrite !andb_true_iff, !negb_true_iff.
  intros [->| ->] [[_ H1] H2]; now rewrite ?H1, ?H2.
Qed.

Lemma string_of_Z_starts n rest :
  starts_value (string_of_Z n ++ rest)%string = true.
Proof.
  unfold string_of_Z. destruct n as [|p|p]; simpl; try reflexivity;
    unfold NilZero.string_of_uint; pose proof (pos_uint_head p) as Hh;
    destruct (Pos.to_uint p); try contradiction; reflexivity.
Qed.

Lemma dumps_at_starts v lvl rest :
  starts_value (dumps_at lvl v ++ rest)%string = true.
Proof.
  destruct v as [|[]|n|s|[|x l]|[|[k x] d]]; try reflexivity.
  apply string_of_Z_starts.
Qed.

Section Unfold.
#[local] Arguments nl : simpl never.
#[local] Arguments quote : simpl never.
#[local] Arguments String.append : simpl never.

Lemma dumps_at_list lvl x l :
  dumps_at lvl (PList (x :: l))
  = ("[" ++ nl (S lvl) ++ dumps_at (S lvl) x ++ elems_tail lvl l)%string.
Proof.
  simpl. do 3 f_equal.
  induction l as [|y l IH]; simpl; [reflexivity|]. now rewrite IH.
Qed.

Lemma dumps_at_dict lvl k x d :
  dumps_at lvl (PDict ((k, x) :: d))
  = ("{" ++ nl (S lvl) ++ quote k ++ ": " ++ dumps_at (S lvl) x
     ++ members_tail lvl d)%string.
Proof.
  simpl. do 5 f_equal.
  induction d as [|[k' y] d IH]; simpl; [reflexivity|]. now rewrite IH.
Qed.
End Unfold.

Lemma skip_ws_char c s : is_ws c = false -> skip_ws (String c s) = String c s.
Proof. intros H. simpl. now rewrite H. Qed.

Lemma expect_same c s : expect c (String c s) = Some s.
Proof. simpl. now rewrite Ascii.eqb_refl. Qed.

Lemma parse_value_list fuel r :
  parse_value (S fuel) (String "[" r)
  = match expect "]" (skip_ws r) with
    | Some r' => Some (PList [], r')
    | None =>
        match parse_elems fuel (skip_ws r) with
        | Some (l, r') => Some (PList l, r')
        | None => None
        end
    end.
Proof. reflexivity. Qed.

Lemma parse_value_dict fuel r :
  parse_value (S fuel) (String "{" r)
  = match expect "}" (skip_ws r) with
    | Some r' => Some (PDict [], r')
    | None =>
        match parse_members fuel (skip_ws r) with
        | Some (pairs, r') => Some (PDict (dict_of_pairs pairs), r')
        | None => None
        end
    end.
Proof. reflexivity. Qed.

Lemma parse_value_string fuel r :
  parse_value (S fuel) (String dquote r)
  = match scan_string r with
    | Some (k, r') => Some (PStr k, r')
    | None => None
    end.
Proof. reflexivity. Qed.

Lemma parse_value_number fuel c r :
  c = "-"%char \/ is_digit c = true ->
  parse_value (S fuel) (String c r)
  = match scan_int (String c r) with
    | Some (n, r') => Some (PInt n, r')
    | None => None
    end.
Proof.
  intros [->|H]; [reflexivity|].
  destruct c as [[] [] [] [] [] [] [] []]; try discriminate H; reflexivity.
Qed.

Lemma string_of_Z_head n rest :
  exists c s, (string_of_Z n ++ rest)%string = String c s
              /\ (c = "-"%char \/ is_digit c = true).
Proof.
  unfold string_of_Z. destruct n as [|p|p]; simpl.
  - eexists _, _. split; [reflexivity | now right].
  - unfold NilZero.string_of_uint. pose proof (pos_uint_head p) as Hh.
    destruct (Pos.to_uint p); try contradiction; simpl;
      eexists _, _; (split; [reflexivity | now right]).
  - eexists _, _. split; [reflexivity | now left].
Qed.

Lemma parse_value_int fuel n rest :
  follows_number rest = true ->
  parse_value (S fuel) (string_of_Z n ++ rest)%string = Some (PInt n, rest).
Proof.
  intros Hrest. destruct (string_of_Z_head n rest) as (c & s & E & Hc).
  pose proof (scan_int_string_of_Z n rest Hrest) as Hs.
  rewrite E in *. rewrite parse_value_number by assumption. now rewrite Hs.
Qed.

Lemma follows_elems_tail lvl l rest :
  follows_number (elems_tail lvl l ++ rest)%string = true.
Proof. destruct l; reflexivity. Qed.

Lemma follows_members_tail lvl d rest :
  follows_number (members_tail lvl d ++ rest)%string = true.
Proof. destruct d as [|[k y] d]; reflexivity. Qed.

Lemma parse_elems_reads l :
  Forall reads_back l ->
  forall x lvl rest fuel,
    reads_back x -> wf x = true -> forallb wf l = true ->
    (S (need x) + need_elems l <= fuel)%nat ->
    parse_elems fuel (dumps_at (S lvl) x ++ elems_tail lvl l ++ rest)%string
    = Some (x :: l, rest).
Proof.
  induction 1 as [|y l Hy Hl IH]; intros x lvl rest fuel Hx Wx Wl Hfuel;
    (destruct fuel as [|fuel]; [simpl in Hfuel; lia|]);
    cbn [parse_elems].
  - rewrite (Hx (S lvl) _ fuel Wx); [| simpl in Hfuel; lia | reflexivity].
    cbn [elems_tail]. rewrite sapp_assoc, skip_ws_nl.
    change ("]" ++ rest)%string with (String "]" rest).
    rewrite skip_ws_char by reflexivity. now rewrite expect_same.
  - simpl in Wl. apply andb_true_iff in Wl. destruct Wl as [Wy Wl].
    rewrite (Hx (S lvl) _ fuel Wx);
      [| simpl in Hfuel; lia | apply (follows_elems_tail lvl (y :: l))].
    cbn [elems_tail]. rewrite !sapp_assoc.
    change ("," ++ nl (S lvl) ++ dumps_at (S lvl) y ++ elems_tail lvl l ++ rest)%string
      with (String "," (nl (S lvl) ++ dumps_at (S lvl) y ++ elems_tail lvl l ++ rest)%string).
    rewrite skip_ws_char by reflexivity.
    replace (expect "]" (String "," (nl (S lvl) ++ dumps_at (S lvl) y ++ elems_tail lvl l ++ rest)%string))
      with (@None string) by reflexivity.
    rewrite expect_same, skip_ws_nl.
    rewrite skip_ws_starts by apply dumps_at_starts.
    rewrite (IH y lvl rest fuel Hy Wy Wl); [reflexivity|].
    simpl in Hfuel. unfold need_elems in *. simpl in Hfuel. lia.
Qed.

Lemma parse_members_step fuel k x lvl tail :
  reads_back x -> wf x = true -> (need x <= fuel)%nat ->
  follows_number tail = true ->
  parse_members (S fuel) (quote k ++ ": " ++ dumps_at (S lvl) x ++ tail)%string
  = match expect "}" (skip_ws tail) with
    | Some r => Some ([(k, x)], r)
    | None =>
        match expect "," (skip_ws tail) with
        | Some r =>
            match parse_members fuel (skip_ws r) with
            | Some (pairs, r') => Some ((k, x) :: pairs, r')
            | None => None
            end
        | None => None
        end
    end.
Proof.
  intros Hx Wx Hfuel Htail. cbn [parse_members].
  destruct (scan_string_quote k (": " ++ dumps_at (S lvl) x ++ tail)%string)
    as (body & -> & Hbody).
  rewrite expect_same, Hbody.
  change (": " ++ dumps_at (S lvl) x ++ tail)%string
    with (String ":" (String " " (dumps_at (S lvl) x ++ tail)%string)).
  rewrite (skip_ws_char ":") by reflexivity.
  rewrite expect_same.
  change (skip_ws (String " " (dumps_at (S lvl) x ++ tail)%string))
    with (skip_ws (dumps_at (S lvl) x ++ tail)%string).
  rewrite skip_ws_starts by apply dumps_at_starts.
  now rewrite (Hx (S lvl) tail fuel Wx Hfuel Htail).
Qed.

Lemma parse_members_reads d :
  Forall (fun kv => reads_back (snd kv)) d ->
  forall k x lvl rest fuel,
    reads_back x -> wf x = true ->
    forallb (fun kv => wf (snd kv)) d = true ->
    (S (need x) + need_members d <= fuel)%nat ->
    parse_members fuel
      (quote k ++ ": " ++ dumps_at (S lvl) x ++ members_tail lvl d ++ rest)%string
    = Some ((k, x) :: d, rest).
Proof.
  induction 1 as [|[k' y] d Hy Hd IH]; intros k x lvl rest fuel Hx Wx Wd Hfuel;
    (destruct fuel as [|fuel]; [simpl in Hfuel; lia|]).
  - rewrite parse_members_step;
      [| assumption | assumption | simpl in Hfuel; lia | reflexivity].
    cbn [members_tail]. rewrite sapp_assoc, skip_ws_nl.
    change ("}" ++ rest)%string with (String "}" rest).
    rewrite skip_ws_char by reflexivity. now rewrite expect_same.
  - simpl in Wd. apply andb_true_iff in Wd. destruct Wd as [Wy Wd].
    simpl in Hy.
    rewrite parse_members_step;
      [| assumption | assumption | simpl in Hfuel; lia
       | apply (follows_members_tail lvl ((k', y) :: d))].
    cbn [members_tail]. rewrite !sapp_assoc.
    change ("," ++ nl (S lvl) ++ quote k' ++ ": " ++ dumps_at (S lvl) y
            ++ members_tail lvl d ++ rest)%string
      with (String "," (nl (S lvl) ++ quote k' ++ ": " ++ dumps_at (S lvl) y
            ++ members_tail lvl d ++ rest)%string).
    rewrite skip_ws_char by reflexivity.
    replace (expect "}" (String "," (nl (S lvl) ++ quote k' ++ ": "
               ++ dumps_at (S lvl) y ++ members_tail lvl d ++ rest)%string))
      with (@None string) by reflexivity.
    rewrite expect_same, skip_ws_nl.
    assert (Hq : forall s, skip_ws (quote k' ++ s)%string = (quote k' ++ s)%string)
      by (intros s; reflexivity).
    rewrite Hq.
    rewrite (IH k' y lvl rest fuel Hy Wy Wd); [reflexivity|].
    simpl in Hfuel. unfold need_members in *. simpl in Hfuel. lia.
Qed.

Lemma dict_of_pairs_from acc d :
  NoDup (map fst (acc ++ d)%list) ->
  fold_left (fun d kv => dict_set (fst kv) (snd kv) d) d acc = (acc ++ d)%list.
Proof.
  revert acc. induction d as [|[k v] d IH]; intros acc Hnd; simpl.
  - now rewrite List.app_nil_r.
  - rewrite dict_set_keys_absent.
    + rewrite IH; rewrite <- List.app_assoc; [reflexivity | exact Hnd].
    + rewrite map_app in Hnd. simpl in Hnd.
      apply NoDup_remove_2 in Hnd. intros Hin. apply Hnd.
      apply in_or_app. now left.
Qed.

Lemma dict_of_pairs_nodup d :
  nodup_strings (map fst d) = true -> dict_of_pairs d = d.
Proof.
  intros H. apply nodup_strings_NoDup in H.
  unfold dict_of_pairs. now rewrite dict_of_pairs_from.
Qed.

Lemma need_fold_list l : need (PList l) = S (need_elems l).
Proof. reflexivity. Qed.

Lemma need_fold_dict d : need (PDict d) = S (need_members d).
Proof. reflexivity. Qed.

Theorem reads_back_all v : reads_back v.
Proof.
  induction v as [| b | n | s | l IH | d IH] using pyval_ind;
    intros lvl rest fuel Wv Hfuel Hrest;
    (destruct fuel as [|fuel]; [simpl in Hfuel; lia|]).
  - reflexivity.
  - destruct b; reflexivity.
  - now apply parse_value_int.
  - destruct (scan_string_quote s rest) as (body & E & Hbody).
    cbn [dumps_at]. rewrite E, parse_value_string, Hbody. reflexivity.
  - destruct l as [|x l]; [reflexivity|].
    rewrite dumps_at_list, !sapp_assoc.
    change ("[" ++ ?s)%string with (String "[" s).
    rewrite parse_value_list, skip_ws_nl.
    rewrite skip_ws_starts by apply dumps_at_starts.
    rewrite expect_close_starts by (auto; apply dumps_at_starts).
    inversion IH as [|? ? Hx Hl]; subst.
    simpl in Wv. apply andb_true_iff in Wv. destruct Wv as [Wx Wl].
    rewrite (parse_elems_reads l Hl x lvl rest fuel Hx Wx Wl); [reflexivity|].
    rewrite need_fold_list in Hfuel. unfold need_elems in *. simpl in Hfuel. lia.
  - destruct d as [|[k x] d]; [reflexivity|].
    rewrite dumps_at_dict, !sapp_assoc.
    change ("{" ++ ?s)%string with (String "{" s).
    rewrite parse_value_dict, skip_ws_nl.
    assert (Hq : forall s, starts_value (quote k ++ s)%string = true)
      by (intros s0; reflexivity).
    rewrite skip_ws_starts by apply Hq.
    rewrite expect_close_starts by (auto; apply Hq).
    inversion IH as [|? ? Hx Hd]; subst. simpl in Hx.
    cbn [wf] in Wv. apply andb_true_iff in Wv. destruct Wv as [Wk Wd].
    pose proof Wd as Wd'. simpl in Wd'. apply andb_true_iff in Wd'.
    destruct Wd' as [Wx Wd'].
    rewrite (parse_members_reads d Hd k x lvl rest fuel Hx Wx Wd').
    + now rewrite dict_of_pairs_nodup.
    + rewrite need_fold_dict in Hfuel. unfold need_members in *.
      simpl in Hfuel. lia.
Qed.

Lemma sapp_nil_r (s : string) : (s ++ "")%string = s.
Proof. induction s; simpl; congruence. Qed.

Lemma spaces_length n : String.length (spaces n) = n.
Proof. induction n; simpl; congruence. Qed.

Lemma nl_length lvl : String.length (nl lvl) = S (2 * lvl).
Proof. unfold nl. cbn [String.length]. now rewrite spaces_length. Qed.

Lemma need_le_length v : forall lvl, (need v <= S (String.length (dumps_at lvl v)))%nat.
Proof.
  induction v as [| b | n | s | l IH | d IH] using pyval_ind; intros lvl;
    try (simpl; lia).
  - destruct l as [|x l]; [simpl; lia|].
    inversion IH as [|? ? Hx Hl]; subst.
    rewrite dumps_at_list, need_fold_list.
    assert (Ht : (need_elems l <= String.length (elems_tail lvl l))%nat).
    { clear Hx IH. induction Hl as [|y l Hy Hl IHl]; simpl.
      - lia.
      - rewrite !sapp_length. specialize (Hy (S lvl)). lia. }
    unfold need_elems in *. simpl fold_right.
    rewrite !sapp_length, nl_length. change (String.length "[") with 1%nat.
    specialize (Hx (S lvl)). lia.
  - destruct d as [|[k x] d]; [simpl; lia|].
    inversion IH as [|? ? Hx Hd]; subst. simpl in Hx.
    rewrite dumps_at_dict, need_fold_dict.
    assert (Ht : (need_members d <= String.length (members_tail lvl d))%nat).
    { clear Hx IH. unfold need_members.
      induction Hd as [|[k' y] d Hy Hd IHd];
        cbn [members_tail fold_right snd]; [lia|].
      rewrite !sapp_length. specialize (Hy (S lvl)). cbn [snd] in Hy.
      rewrite nl_length. change (String.length ",") with 1%nat. lia. }
    unfold need_members in *. simpl fold_right.
    rewrite !sapp_length, nl_length. change (String.length "{") with 1%nat.
    specialize (Hx (S lvl)). lia.
Qed.

Theorem loads_dumps v : wf v = true -> loads (dumps v) = Some v.
Proof.
  intros Wv. unfold loads, dumps.
  rewrite skip_ws_starts
    by (rewrite <- (sapp_nil_r (dumps_at 0 v)); apply dumps_at_starts).
  rewrite <- (sapp_nil_r (dumps_at 0 v)) at 2.
  rewrite reads_back_all; auto. apply need_le_length.
Qed.

(** What the reference module reads is a Python object. *)

Lemma dict_of_pairs_wf pairs :
  forallb (fun kv => wf (snd kv)) pairs = true ->
  wf (PDict (dict_of_pairs pairs)) = true.
Proof.
  unfold dict_of_pairs.
  assert (H : forall acc, wf (PDict acc) = true ->
            forallb (fun kv => wf (snd kv)) pairs = true ->
            wf (PDict (fold_left (fun d kv => dict_set (fst kv) (snd kv) d)
                         pairs acc)) = true).
  { induction pairs as [|[k v] pairs IH]; intros acc Hacc Hp; simpl in *.
    - exact Hacc.
    - apply andb_true_iff in Hp. destruct Hp as [Hv Hp].
      apply IH; [|assumption]. now apply wf_dict_set. }
  apply H. reflexivity.
Qed.

Lemma parse_wf fuel :
  (forall s v r, parse_value fuel s = Some (v, r) -> wf v = true)
  /\ (forall s l r, parse_elems fuel s = Some (l, r) -> forallb wf l = true)
  /\ (forall s d r, parse_members fuel s = Some (d, r) ->
        forallb (fun kv => wf (snd kv)) d = true).
Proof.
  induction fuel as [|fuel (IHv & IHe & IHm)];
    [repeat split; intros; discriminate|].
  repeat split.
  - intros s v r. cbn [parse_value].
    destruct s as [|c s0]; [discriminate|].
    repeat match goal with
           | |- context [if ?b then _ else _] => destruct b
           | |- context [match ?x with _ => _ end] => destruct x eqn:?
           end;
      try discriminate; intros H; inversion H; subst; try reflexivity.
    + cbn [wf]. eapply IHe; eassumption.
    + apply dict_of_pairs_wf. eapply IHm; eassumption.
  - intros s l r. cbn [parse_elems].
    repeat match goal with
           | |- context [match ?x with _ => _ end] => destruct x eqn:?
           end;
      try discriminate; intros H; inversion H; subst; simpl.
    + erewrite IHv by eassumption. reflexivity.
    + erewrite IHv by eassumption. erewrite IHe by eassumption. reflexivity.
  - intros s d r. cbn [parse_members].
    repeat match goal with
           | |- context [match ?x with _ => _ end] => destruct x eqn:?
           end;
      try discriminate; intros H; inversion H; subst; simpl.
    + erewrite IHv by eassumption. reflexivity.
    + erewrite IHv by eassumption. erewrite IHm by eassumption. reflexivity.
Qed.

Theorem loads_wf s v : loads s = Some v -> wf v = true.
Proof.
  unfold loads.
  destruct (parse_value (S (String.length s)) (skip_ws s)) as [[v' r]|] eqn:E;
    [|discriminate].
  destruct (skip_ws r); [|discriminate].
  intros H. inversion H; subst.
  eapply (proj1 (parse_wf _)); eassumption.
Qed.

(** The reference module as the library of the program. *)
#[export] Instance ref_lib : PyLib := {|
  json_dumps := dumps;
  json_loads := loads;
  container_repr := repr;
  json_loads_wf := loads_wf;
  json_loads_dumps := loads_dumps
|}.

(** ** The store behind the file *)

Section Store.
Context {lib : PyLib}.

Lemma load_todos_eq f : load_todos f = (Ok (store_of f), f).
Proof.
  destruct f as [s|]; simpl; [destruct (json_loads s)|]; reflexivity.
Qed.

Lemma store_of_wf f : wf (store_of f) = true.
Proof.
  destruct f as [s|]; simpl; [|reflexivity].
  destruct (json_loads s) eqn:E; [|reflexivity].
  eapply json_loads_wf; eassumption.
Qed.

Lemma store_of_saved v : wf v = true -> store_of (Some (json_dumps v)) = v.
Proof. intros H. simpl. now rewrite json_loads_dumps. Qed.

End Store.

(** ** Items and their ids *)

Lemma is_item_inv t :
  is_item t = true ->
  exists d n s b c,
    t = PDict d /\ wf (PDict d) = true
    /\ dict_lookup "id" d = Some (PInt n)
    /\ dict_lookup "text" d = Some (PStr s)
    /\ dict_lookup "completed" d = Some (PBool b)
    /\ dict_lookup "created_at" d = Some (PStr c).
Proof.
  unfold is_item. rewrite andb_true_iff. intros [W H]. revert H.
  destruct t as [| | | | |d]; try discriminate.
  destruct (dict_lookup "id" d) as [[| |n| | |]|] eqn:E1; try discriminate.
  destruct (dict_lookup "text" d) as [[| | |s| |]|] eqn:E2; try discriminate.
  destruct (dict_lookup "completed" d) as [[|b| | | |]|] eqn:E3;
    try discriminate.
  destruct (dict_lookup "created_at" d) as [[| | |c| |]|] eqn:E4;
    try discriminate.
  intros _. exists d, n, s, b, c. repeat split; auto.
Qed.

Lemma is_item_id t :
  is_item t = true -> exists n, item_id t = Some n.
Proof.
  intros H. destruct (is_item_inv t H) as (d & n & s & b & c & -> & _ & Hid & _).
  exists n. simpl. now rewrite Hid.
Qed.

Lemma is_item_wf t : is_item t = true -> wf t = true.
Proof. unfold is_item. rewrite andb_true_iff. tauto. Qed.

Lemma is_item_truthy t : is_item t = true -> truthy t = true.
Proof.
  intros H. destruct (is_item_inv t H) as (d & n & s & b & c & -> & _ & Hid & _).
  destruct d; [discriminate | reflexivity].
Qed.

Lemma items_wf l : forallb is_item l = true -> wf (PList l) = true.
Proof.
  simpl. induction l as [|t l IH]; simpl; [reflexivity|].
  rewrite !andb_true_iff. intros [Ht Hl]. split; auto using is_item_wf.
Qed.

Lemma to_dict_is_item t : is_item (to_dict t) = true.
Proof. reflexivity. Qed.

Lemma item_getitem_id t n :
  is_item t = true -> item_id t = Some n -> py_getitem t "id" = Ok (PInt n).
Proof.
  intros H. destruct (is_item_inv t H) as (d & m & s & b & c & -> & _ & Hid & _).
  simpl. rewrite Hid. now intros [= ->].
Qed.

Lemma find_by_id_absent todo_id l : forall i,
  forallb is_item l = true -> ~ In todo_id (item_ids l) ->
  find_by_id todo_id i l = Ok None.
Proof.
  induction l as [|t l IH]; intros i Hl Hout; simpl; [reflexivity|].
  simpl in Hl. apply andb_true_iff in Hl. destruct Hl as [Ht Hl].
  destruct (is_item_id t Ht) as [n Hn]. simpl in Hout. rewrite Hn in Hout.
  rewrite (item_getitem_id t n Ht Hn). simpl.
  destruct (n =? todo_id) eqn:E.
  - apply Z.eqb_eq in E. subst. simpl in Hout. tauto.
  - apply IH; [assumption|]. simpl in Hout. tauto.
Qed.

Lemma find_by_id_present todo_id l1 t l2 : forall i,
  forallb is_item l1 = true -> is_item t = true ->
  ~ In todo_id (item_ids l1) -> item_id t = Some todo_id ->
  find_by_id todo_id i (l1 ++ t :: l2) = Ok (Some ((i + List.length l1)%nat, t)).
Proof.
  induction l1 as [|t1 l1 IH]; intros i Hl Ht Hout Hid; simpl.
  - rewrite (item_getitem_id t todo_id Ht Hid). simpl.
    rewrite Z.eqb_refl. now rewrite Nat.add_0_r.
  - simpl in Hl. apply andb_true_iff in Hl. destruct Hl as [H1 Hl].
    destruct (is_item_id t1 H1) as [n Hn]. simpl in Hout. rewrite Hn in Hout.
    rewrite (item_getitem_id t1 n H1 Hn). simpl.
    destruct (n =? todo_id) eqn:E.
    + apply Z.eqb_eq in E. subst. simpl in Hout. tauto.
    + rewrite IH; auto; [| simpl in Hout; tauto].
      now rewrite Nat.add_succ_r.
Qed.

Lemma in_ids_split todo_id l :
  In todo_id (item_ids l) ->
  exists l1 t l2,
    l = l1 ++ t :: l2 /\ item_id t = Some todo_id
    /\ ~ In todo_id (item_ids l1).
Proof.
  induction l as [|t l IH]; simpl; [tauto|].
  destruct (item_id t) as [n|] eqn:En.
  - destruct (Z.eq_dec n todo_id) as [->|Hne].
    + intros _. exists [], t, l. simpl. auto.
    + intros [H|H]; [contradiction|].
      destruct (IH H) as (l1 & t' & l2 & -> & Hid & Hout).
      exists (t :: l1), t', l2. simpl. rewrite En. simpl.
      repeat split; auto. intros [?|?]; auto.
  - intros H. destruct (IH H) as (l1 & t' & l2 & -> & Hid & Hout).
    exists (t :: l1), t', l2. simpl. rewrite En. auto.
Qed.

Lemma without_id_items todo_id l :
  forallb is_item l = true -> without_id todo_id l = Ok (drop_id todo_id l).
Proof.
  induction l as [|t l IH]; intros Hl; simpl; [reflexivity|].
  simpl in Hl. apply andb_true_iff in Hl. destruct Hl as [Ht Hl].
  destruct (is_item_id t Ht) as [n Hn].
  rewrite (item_getitem_id t n Ht Hn). simpl. rewrite (IH Hl). simpl.
  rewrite Hn. reflexivity.
Qed.

Lemma list_set_middle {A} (l1 : list A) x y l2 :
  list_set (List.length l1) x (l1 ++ y :: l2) = l1 ++ x :: l2.
Proof. induction l1 as [|a l1 IH]; simpl; [reflexivity|]. now rewrite IH. Qed.

Lemma item_ids_app l1 l2 : item_ids (l1 ++ l2) = item_ids l1 ++ item_ids l2.
Proof.
  induction l1 as [|t l1 IH]; simpl; [reflexivity|].
  destruct (item_id t); simpl; now rewrite IH.
Qed.

Lemma forallb_items_app l1 l2 :
  forallb is_item (l1 ++ l2) = forallb is_item l1 && forallb is_item l2.
Proof. apply forallb_app. Qed.

Lemma drop_id_items todo_id l :
  forallb is_item l = true -> forallb is_item (drop_id todo_id l) = true.
Proof.
  induction l as [|t l IH]; simpl; [reflexivity|].
  rewrite andb_true_iff. intros [Ht Hl].
  destruct (match item_id t with Some n => negb (n =? todo_id) | None => true end);
    simpl; rewrite ?Ht; auto.
Qed.

Lemma drop_id_ids todo_id l :
  item_ids (drop_id todo_id l) = filter (fun n => negb (n =? todo_id)) (item_ids l).
Proof.
  induction l as [|t l IH]; simpl; [reflexivity|].
  destruct (item_id t) as [n|] eqn:En; simpl.
  - destruct (negb (n =? todo_id)); simpl; rewrite ?En, IH; reflexivity.
  - rewrite En. exact IH.
Qed.

Lemma drop_id_absent todo_id l : ~ In todo_id (item_ids (drop_id todo_id l)).
Proof.
  rewrite drop_id_ids. intros H. apply filter_In in H. destruct H as [_ H].
  now rewrite Z.eqb_refl in H.
Qed.

Lemma drop_id_unknown todo_id l :
  ~ In todo_id (item_ids l) -> drop_id todo_id l = l.
Proof.
  induction l as [|t l IH]; simpl; [reflexivity|].
  destruct (item_id t) as [n|] eqn:En.
  - simpl. intros Hout. destruct (n =? todo_id) eqn:E.
    + apply Z.eqb_eq in E. subst. tauto.
    + simpl. f_equal. apply IH. tauto.
  - intros Hout. f_equal. now apply IH.
Qed.

Lemma drop_id_app todo_id l1 l2 :
  drop_id todo_id (l1 ++ l2) = drop_id todo_id l1 ++ drop_id todo_id l2.
Proof. unfold drop_id. apply filter_app. Qed.

(** ** The next id *)

Lemma is_item_has_int_id t : is_item t = true -> has_int_id t = true.
Proof.
  intros H. destruct (is_item_id t H) as [n Hn]. unfold has_int_id.
  now rewrite Hn.
Qed.

Lemma items_have_int_id l :
  forallb is_item l = true -> forallb has_int_id l = true.
Proof.
  induction l as [|t l IH]; simpl; [reflexivity|].
  rewrite !andb_true_iff. intros [Ht Hl]. auto using is_item_has_int_id.
Qed.

Lemma res_map_ids l :
  forallb has_int_id l = true ->
  res_map (fun todo => py_get todo "id" (PInt 0)) l
  = Ok (map PInt (item_ids l)).
Proof.
  induction l as [|t l IH]; simpl; [reflexivity|].
  rewrite andb_true_iff. intros [Ht Hl]. rewrite (IH Hl).
  unfold has_int_id in Ht. destruct t as [| | | | |d]; try discriminate.
  simpl in *. destruct (dict_lookup "id" d) as [[| |n| | |]|]; try discriminate.
  reflexivity.
Qed.

Lemma py_max_from_ints ns : forall m,
  py_max_from (PInt m) (map PInt ns) = Ok (PInt (fold_left Z.max ns m)).
Proof.
  induction ns as [|n ns IH]; intros m; simpl; [reflexivity|].
  destruct (m <? n) eqn:E.
  - rewrite IH. do 3 f_equal. apply Z.ltb_lt in E. lia.
  - rewrite IH. do 3 f_equal. apply Z.ltb_ge in E. lia.
Qed.

Lemma fold_max_bounds ns : forall m,
  In (fold_left Z.max ns m) (m :: ns)
  /\ forall x, In x (m :: ns) -> x <= fold_left Z.max ns m.
Proof.
  induction ns as [|n ns IH]; intros m; simpl.
  - split; [auto|]. intros x [<-|[]]. lia.
  - destruct (IH (Z.max m n)) as [Hin Hle]. split.
    + destruct Hin as [Hin|Hin]; [|now right; right].
      destruct (Z.max_spec m n) as [[_ E]|[_ E]]; rewrite E in Hin |- *;
        [right; left | left]; exact Hin.
    + intros x [<-|[<-|Hx]].
      * specialize (Hle (Z.max m n) (or_introl eq_refl)). lia.
      * specialize (Hle (Z.max m n) (or_introl eq_refl)). lia.
      * apply Hle. simpl. auto.
Qed.

Lemma next_id_of_above ids x : In x ids -> x < next_id_of ids.
Proof.
  destruct ids as [|n ns]; simpl; [tauto|]. intros H.
  destruct (fold_max_bounds ns n) as [_ Hle]. specialize (Hle x H). lia.
Qed.

Lemma item_ids_nonempty t l :
  has_int_id t = true -> exists n, item_ids (t :: l) = n :: item_ids l.
Proof.
  unfold has_int_id. simpl. destruct (item_id t) as [n|]; [|discriminate].
  eauto.
Qed.

Section NextId.
Context {lib : PyLib}.

Lemma get_next_id_ints l :
  forallb has_int_id l = true ->
  get_next_id (PList l) = Ok (PInt (next_id_of (item_ids l))).
Proof.
  intros Hl. unfold get_next_id. destruct l as [|t l]; [reflexivity|].
  cbn [truthy negb py_iter res_bind]. rewrite (res_map_ids _ Hl).
  cbn [res_bind]. pose proof Hl as Hl'. simpl in Hl'.
  apply andb_true_iff in Hl'. destruct Hl' as [Ht _].
  destruct (item_ids_nonempty t l Ht) as [n ->].
  cbn [map py_max]. rewrite py_max_from_ints. reflexivity.
Qed.

Lemma backend_get_next_id_eq todos :
  Backend.get_next_id todos = get_next_id todos.
Proof. reflexivity. Qed.

Lemma backend_load_todos_eq f : Backend.load_todos f = load_todos f.
Proof. reflexivity. Qed.

End NextId.

(** ** The tools on a store of items *)

Section Tools.
Context {lib : PyLib}.

Lemma create_items f l text now :
  store_of f = PList l -> forallb is_item l = true ->
  create_todo_tool text now f
  = (Ok (PDict [("success", PBool true);
                ("todo", to_dict (new_item l text now));
                ("message", PStr ("Created todo: " ++ text))]),
     Some (json_dumps (PList (l ++ [to_dict (new_item l text now)])))).
Proof.
  intros Hs Hl. unfold create_todo_tool, bind, lift, ret, save_todos.
  rewrite load_todos_eq, Hs.
  rewrite (get_next_id_ints l (items_have_int_id l Hl)). reflexivity.
Qed.

Lemma delete_absent f l todo_id :
  store_of f = PList l -> forallb is_item l = true ->
  ~ In todo_id (item_ids l) ->
  delete_todo_tool todo_id f = (Ok (not_found todo_id), f).
Proof.
  intros Hs Hl Hout. unfold delete_todo_tool, bind, lift, ret.
  rewrite load_todos_eq, Hs. cbn [py_iter].
  now rewrite (find_by_id_absent todo_id l 0%nat Hl Hout).
Qed.

Lemma items_split_wf l1 t l2 :
  forallb is_item (l1 ++ t :: l2) = true ->
  forallb is_item l1 = true /\ is_item t = true /\ forallb is_item l2 = true.
Proof.
  rewrite forallb_items_app. simpl. rewrite !andb_true_iff. tauto.
Qed.

Lemma delete_present f l1 d l2 todo_id :
  store_of f = PList (l1 ++ PDict d :: l2) ->
  forallb is_item (l1 ++ PDict d :: l2) = true ->
  item_id (PDict d) = Some todo_id -> ~ In todo_id (item_ids l1) ->
  exists text,
    dict_lookup "text" d = Some (PStr text)
    /\ delete_todo_tool todo_id f
       = (Ok (PDict [("success", PBool true);
                     ("message", PStr ("Deleted todo: " ++ text))]),
          Some (json_dumps (PList (drop_id todo_id (l1 ++ PDict d :: l2))))).
Proof.
  intros Hs Hl Hid Hout.
  destruct (items_split_wf _ _ _ Hl) as (H1 & Ht & H2).
  destruct (is_item_inv _ Ht) as (d' & n & s & b & c & E & _ & _ & Htext & _).
  inversion E; subst d'. exists s. split; [assumption|].
  unfold delete_todo_tool, bind, lift, ret, save_todos.
  rewrite load_todos_eq, Hs. cbn [py_iter].
  rewrite (find_by_id_present todo_id l1 (PDict d) l2 0%nat H1 Ht Hout Hid).
  rewrite (is_item_truthy _ Ht). cbn [negb].
  rewrite (without_id_items todo_id _ Hl).
  cbn [py_getitem]. rewrite Htext. reflexivity.
Qed.

Lemma update_absent f l todo_id new_text :
  store_of f = PList l -> forallb is_item l = true ->
  ~ In todo_id (item_ids l) ->
  update_todo_tool todo_id new_text f = (Ok (not_found todo_id), f).
Proof.
  intros Hs Hl Hout. unfold update_todo_tool, bind, lift, ret.
  rewrite load_todos_eq, Hs. cbn [py_iter].
  now rewrite (find_by_id_absent todo_id l 0%nat Hl Hout).
Qed.

Lemma update_present f l1 d l2 todo_id new_text :
  store_of f = PList (l1 ++ PDict d :: l2) ->
  forallb is_item (l1 ++ PDict d :: l2) = true ->
  item_id (PDict d) = Some todo_id -> ~ In todo_id (item_ids l1) ->
  exists old_text,
    dict_lookup "text" d = Some (PStr old_text)
    /\ update_todo_tool todo_id new_text f
       = (Ok (PDict [("success", PBool true);
                     ("message",
                      PStr ("Updated todo " ++ string_of_Z todo_id ++ " from '"
                            ++ old_text ++ "' to '" ++ new_text ++ "'"))]),
          Some (json_dumps
                  (PList (l1 ++ PDict (dict_set "text" (PStr new_text) d)
                             :: l2)))).
Proof.
  intros Hs Hl Hid Hout.
  destruct (items_split_wf _ _ _ Hl) as (H1 & Ht & H2).
  destruct (is_item_inv _ Ht) as (d' & n & s & b & c & E & _ & _ & Htext & _).
  inversion E; subst d'. exists s. split; [assumption|].
  unfold update_todo_tool, bind, lift, ret, save_todos.
  rewrite load_todos_eq, Hs. cbn [py_iter].
  rewrite (find_by_id_present todo_id l1 (PDict d) l2 0%nat H1 Ht Hout Hid).
  rewrite (is_item_truthy _ Ht). cbn [negb py_getitem py_setitem].
  rewrite Htext. cbn [write_back Nat.add]. rewrite list_set_middle.
  reflexivity.
Qed.

Lemma complete_absent f l todo_id :
  store_of f = PList l -> forallb is_item l = true ->
  ~ In todo_id (item_ids l) ->
  complete_todo_tool todo_id f = (Ok (not_found todo_id), f).
Proof.
  intros Hs Hl Hout. unfold complete_todo_tool, bind, lift, ret.
  rewrite load_todos_eq, Hs. cbn [py_iter].
  now rewrite (find_by_id_absent todo_id l 0%nat Hl Hout).
Qed.

Lemma complete_present f l1 d l2 todo_id :
  store_of f = PList (l1 ++ PDict d :: l2) ->
  forallb is_item (l1 ++ PDict d :: l2) = true ->
  item_id (PDict d) = Some todo_id -> ~ In todo_id (item_ids l1) ->
  exists text,
    dict_lookup "text" d = Some (PStr text)
    /\ complete_todo_tool todo_id f
       = (Ok (PDict [("success", PBool true);
                     ("message", PStr ("Marked todo as completed: " ++ text))]),
          Some (json_dumps
                  (PList (l1 ++ PDict (dict_set "completed" (PBool true) d)
                             :: l2)))).
Proof.
  intros Hs Hl Hid Hout.
  destruct (items_split_wf _ _ _ Hl) as (H1 & Ht & H2).
  destruct (is_item_inv _ Ht) as (d' & n & s & b & c & E & _ & _ & Htext & _).
  inversion E; subst d'. exists s. split; [assumption|].
  unfold complete_todo_tool, bind, lift, ret, save_todos.
  rewrite load_todos_eq, Hs. cbn [py_iter].
  rewrite (find_by_id_present todo_id l1 (PDict d) l2 0%nat H1 Ht Hout Hid).
  rewrite (is_item_truthy _ Ht). cbn [negb py_getitem py_setitem].
  rewrite dict_lookup_set_other by discriminate.
  rewrite Htext. cbn [write_back Nat.add]. rewrite list_set_middle.
  reflexivity.
Qed.

(** Setting a field other than the id keeps an item an item, with its id. *)
Lemma set_field_item d k v :
  is_item (PDict d) = true -> wf v = true ->
  (k = "text" /\ (exists s, v = PStr s)
   \/ k = "completed" /\ (exists b, v = PBool b)) ->
  is_item (PDict (dict_set k v d)) = true
  /\ item_id (PDict (dict_set k v d)) = item_id (PDict d).
Proof.
  intros Hi Wv Hk.
  destruct (is_item_inv _ Hi) as (d' & n & s & b & c & E & W & Hid & Ht & Hc & Ha).
  inversion E; subst d'. split.
  - unfold is_item. rewrite (wf_dict_set k v d W Wv). cbn [andb].
    destruct Hk as [[-> [s' ->]]|[-> [b' ->]]].
    + rewrite dict_lookup_set_same.
      rewrite !dict_lookup_set_other by discriminate.
      now rewrite Hid, Hc, Ha.
    + rewrite dict_lookup_set_same.
      rewrite !dict_lookup_set_other by discriminate.
      now rewrite Hid, Ht, Ha.
  - simpl. destruct Hk as [[-> _]|[-> _]];
      now rewrite dict_lookup_set_other by discriminate.
Qed.

End Tools.

(** * The claims *)

Section Claims.
Context {lib : PyLib}.

Lemma present_item l todo_id :
  forallb is_item l = true -> In todo_id (item_ids l) ->
  exists l1 d l2,
    l = l1 ++ PDict d :: l2 /\ item_id (PDict d) = Some todo_id
    /\ ~ In todo_id (item_ids l1).
Proof.
  intros Hl Hin. destruct (in_ids_split todo_id l Hin) as (l1 & t & l2 & E & Hid & Hout).
  subst l. destruct (items_split_wf _ _ _ Hl) as (_ & Ht & _).
  destruct (is_item_inv _ Ht) as (d & n & s & b & c & -> & _).
  exists l1, d, l2. auto.
Qed.

Lemma replace_item_ids l1 t t' l2 :
  item_id t' = item_id t ->
  item_ids (l1 ++ t' :: l2) = item_ids (l1 ++ t :: l2).
Proof. intros H. rewrite !item_ids_app. simpl. now rewrite H. Qed.

Lemma replace_item_items l1 t t' l2 :
  forallb is_item (l1 ++ t :: l2) = true -> is_item t' = true ->
  forallb is_item (l1 ++ t' :: l2) = true.
Proof.
  rewrite !forallb_items_app. simpl. rewrite !andb_true_iff.
  intros (H1 & _ & H2) Ht. auto.
Qed.

Lemma list_items f l :
  store_of f = PList l ->
  list_todos_tool f
  = (Ok (PDict [("success", PBool true); ("todos", PList l);
                ("count", PInt (Z.of_nat (List.length l)))]), f).
Proof.
  intros Hs. unfold list_todos_tool, bind, lift, ret.
  rewrite load_todos_eq, Hs. reflexivity.
Qed.

(** C3. [get_next_id] (in [todo_graph.py] and in [backend.py]) returns 1 for
    the empty list; for a list of items that is not empty it returns [m + 1]
    where [m] is the largest of their ids. *)
Theorem get_next_id_max_plus_one (l : list pyval) :
  forallb has_int_id l = true ->
  (l = [] ->
   get_next_id (PList l) = Ok (PInt 1)
   /\ Backend.get_next_id (PList l) = Ok (PInt 1))
  /\ (l <> [] ->
      exists m,
        In m (item_ids l)
        /\ (forall x, In x (item_ids l) -> x <= m)
        /\ get_next_id (PList l) = Ok (PInt (m + 1))
        /\ Backend.get_next_id (PList l) = Ok (PInt (m + 1))).
Proof.
  intros Hl. split.
  - intros ->. split; reflexivity.
  - intros Hne. pose proof (get_next_id_ints l Hl) as Hnext.
    destruct l as [|t l]; [contradiction|].
    simpl in Hl. apply andb_true_iff in Hl. destruct Hl as [Ht _].
    destruct (item_ids_nonempty t l Ht) as [n E]. rewrite E in *.
    cbn [next_id_of] in Hnext.
    destruct (fold_max_bounds (item_ids l) n) as [Hin Hle].
    exists (fold_left Z.max (item_ids l) n).
    repeat split; [exact Hin | exact Hle | exact Hnext | exact Hnext].
Qed.

(** C4. On a store of items that has no item with the id, [update_todo_tool]
    and [complete_todo_tool] return the result with [success] false and
    leave the file as it is. *)
Theorem update_complete_unknown_id (f : file) (l : list pyval)
    (todo_id : Z) (new_text : string) :
  store_of f = PList l -> forallb is_item l = true ->
  ~ In todo_id (item_ids l) ->
  update_todo_tool todo_id new_text f = (Ok (not_found todo_id), f)
  /\ complete_todo_tool todo_id f = (Ok (not_found todo_id), f)
  /\ py_getitem (not_found todo_id) "success" = Ok (PBool false).
Proof.
  intros Hs Hl Hout. repeat split.
  - now apply update_absent with l.
  - now apply complete_absent with l.
Qed.

(** C5. On a store of items that has an item with the id, [delete_todo_tool]
    succeeds, and called again with the same id it returns the result with
    [success] false (and writes nothing). *)
Theorem delete_twice (f : file) (l : list pyval) (todo_id : Z) :
  store_of f = PList l -> forallb is_item l = true ->
  In todo_id (item_ids l) ->
  let (r1, f1) := delete_todo_tool todo_id f in
  (exists text,
     r1 = Ok (PDict [("success", PBool true);
                     ("message", PStr ("Deleted todo: " ++ text))]))
  /\ delete_todo_tool todo_id f1 = (Ok (not_found todo_id), f1)
  /\ py_getitem (not_found todo_id) "success" = Ok (PBool false).
Proof.
  intros Hs Hl Hin.
  destruct (present_item l todo_id Hl Hin) as (l1 & d & l2 & -> & Hid & Hout).
  destruct (delete_present f l1 d l2 todo_id Hs Hl Hid Hout) as (text & _ & ->).
  split; [eauto|]. split; [|reflexivity].
  apply delete_absent with (drop_id todo_id (l1 ++ PDict d :: l2)).
  - apply store_of_saved, items_wf, drop_id_items, Hl.
  - apply drop_id_items, Hl.
  - apply drop_id_absent.
Qed.

(** C6. Whatever the file holds, [delete_all_todos_tool] followed by
    [list_todos_tool] gives the empty sequence of todos and the count 0. *)
Theorem delete_all_then_list (f : file) :
  let (r1, f1) := delete_all_todos_tool f in
  r1 = Ok (PDict [("success", PBool true);
                  ("message", PStr "All todos deleted")])
  /\ list_todos_tool f1
     = (Ok (PDict [("success", PBool true); ("todos", PList []);
                   ("count", PInt 0)]), f1).
Proof.
  unfold delete_all_todos_tool, bind, ret, save_todos. split; [reflexivity|].
  apply (list_items _ []). now apply store_of_saved.
Qed.

(** C7. Saving what was loaded changes nothing that [load_todos] sees: after
    [save_todos(load_todos())] the file loads to the same value as before,
    whatever the file held; and a sequence of items with the fields id,
    text, completed and created_at is read back from its serialization
    field by field, by every [json] module that keeps its contract and by
    the reference module in particular. *)
Theorem save_load_round_trip (f : file) (items : list Todo) :
  (let (r, f1) := load_todos f in
   match r with
   | Ok todos =>
       let (_, f2) := save_todos todos f1 in
       load_todos f2 = (Ok todos, f2)
   | Raised => False
   end)
  /\ json_loads (json_dumps (PList (map to_dict items)))
     = Some (PList (map to_dict items))
  /\ RefJson.loads (RefJson.dumps (PList (map to_dict items)))
     = Some (PList (map to_dict items)).
Proof.
  assert (Hitems : wf (PList (map to_dict items)) = true).
  { apply items_wf.
    induction items as [|t items IH]; cbn [map forallb]; [reflexivity|].
    rewrite to_dict_is_item. exact IH. }
  split; [|split].
  - rewrite load_todos_eq. unfold save_todos. rewrite load_todos_eq.
    now rewrite store_of_saved by apply store_of_wf.
  - now apply json_loads_dumps.
  - now apply loads_dumps.
Qed.

(** C8. [load_todos] (in [todo_graph.py] and in [backend.py]) returns what
    the file parses to when the file exists and parses, and the empty list,
    without raising, when the file is absent or does not parse; it never
    writes. *)
Theorem load_todos_recovers (f : file) :
  (forall s v,
     f = Some s -> json_loads s = Some v ->
     load_todos f = (Ok v, f) /\ Backend.load_todos f = (Ok v, f))
  /\ (f = None \/ (exists s, f = Some s /\ json_loads s = None) ->
      load_todos f = (Ok (PList []), f)
      /\ Backend.load_todos f = (Ok (PList []), f)).
Proof.
  split.
  - intros s v -> Hv. unfold Backend.load_todos, load_todos. now rewrite Hv.
  - intros [->|(s & -> & Hs)]; unfold Backend.load_todos, load_todos;
      rewrite ?Hs; auto.
Qed.

(** C9. On a store of items whose ids are pairwise distinct, each of the six
    tools leaves a store of items whose ids are pairwise distinct. *)
Theorem tools_keep_ids_distinct (f : file) (l : list pyval) (c : command) :
  store_of f = PList l -> forallb is_item l = true -> NoDup (item_ids l) ->
  exists l',
    store_of (snd (run_tool c f)) = PList l'
    /\ forallb is_item l' = true /\ NoDup (item_ids l').
Proof.
  intros Hs Hl Hnd. destruct c as [text now|todo_id|todo_id new_text|todo_id| |];
    cbn [run_tool].
  - rewrite (create_items f l text now Hs Hl). cbn [snd].
    exists (l ++ [to_dict (new_item l text now)]).
    assert (Hl' : forallb is_item (l ++ [to_dict (new_item l text now)]) = true).
    { rewrite forallb_items_app, Hl. reflexivity. }
    repeat split; [now apply store_of_saved, items_wf | assumption |].
    rewrite item_ids_app. cbn [item_ids to_dict item_id dict_lookup String.eqb].
    simpl. apply NoDup_app; [assumption | repeat constructor; simpl; tauto |].
    intros x Hx [<-|[]]. apply next_id_of_above in Hx. lia.
  - destruct (in_dec Z.eq_dec todo_id (item_ids l)) as [Hin|Hout].
    + destruct (present_item l todo_id Hl Hin) as (l1 & d & l2 & -> & Hid & Hout).
      destruct (delete_present f l1 d l2 todo_id Hs Hl Hid Hout) as (text & _ & ->).
      cbn [snd]. exists (drop_id todo_id (l1 ++ PDict d :: l2)).
      repeat split.
      * apply store_of_saved, items_wf, drop_id_items, Hl.
      * apply drop_id_items, Hl.
      * rewrite drop_id_ids. now apply NoDup_filter.
    + rewrite (delete_absent f l todo_id Hs Hl Hout). eauto.
  - destruct (in_dec Z.eq_dec todo_id (item_ids l)) as [Hin|Hout].
    + destruct (present_item l todo_id Hl Hin) as (l1 & d & l2 & -> & Hid & Hout).
      destruct (update_present f l1 d l2 todo_id new_text Hs Hl Hid Hout)
        as (old & _ & ->).
      cbn [snd]. destruct (items_split_wf _ _ _ Hl) as (_ & Ht & _).
      destruct (set_field_item d "text" (PStr new_text) Ht eq_refl) as [Hi Hsame];
        [left; eauto|].
      exists (l1 ++ PDict (dict_set "text" (PStr new_text) d) :: l2).
      pose proof (replace_item_items _ _ _ _ Hl Hi) as Hl'.
      repeat split; [now apply store_of_saved, items_wf | assumption |].
      now rewrite (replace_item_ids l1 (PDict d)).
    + rewrite (update_absent f l todo_id new_text Hs Hl Hout). eauto.
  - destruct (in_dec Z.eq_dec todo_id (item_ids l)) as [Hin|Hout].
    + destruct (present_item l todo_id Hl Hin) as (l1 & d & l2 & -> & Hid & Hout).
      destruct (complete_present f l1 d l2 todo_id Hs Hl Hid Hout)
        as (old & _ & ->).
      cbn [snd]. destruct (items_split_wf _ _ _ Hl) as (_ & Ht & _).
      destruct (set_field_item d "completed" (PBool true) Ht eq_refl)
        as [Hi Hsame]; [right; eauto|].
      exists (l1 ++ PDict (dict_set "completed" (PBool true) d) :: l2).
      pose proof (replace_item_items _ _ _ _ Hl Hi) as Hl'.
      repeat split; [now apply store_of_saved, items_wf | assumption |].
      now rewrite (replace_item_ids l1 (PDict d)).
    + rewrite (complete_absent f l todo_id Hs Hl Hout). eauto.
  - exists []. repeat split; [|constructor].
    unfold delete_all_todos_tool, bind, ret, save_todos. cbn [snd].
    now apply store_of_saved.
  - rewrite (list_items f l Hs). eauto.
Qed.

(** C10. On a store of items that has an item with the id,
    [update_todo_tool] rewrites the text of the first such item and nothing
    else: the item keeps its keys in their order and the value of every key
    but ["text"], and the items before and behind it stay as they are, in
    their order. *)
Theorem update_changes_text_only (f : file) (l : list pyval)
    (todo_id : Z) (new_text : string) :
  store_of f = PList l -> forallb is_item l = true ->
  In todo_id (item_ids l) ->
  exists l1 d d' l2,
    l = l1 ++ PDict d :: l2
    /\ item_id (PDict d) = Some todo_id
    /\ ~ In todo_id (item_ids l1)
    /\ store_of (snd (update_todo_tool todo_id new_text f))
       = PList (l1 ++ PDict d' :: l2)
    /\ dict_lookup "text" d' = Some (PStr new_text)
    /\ (forall k, k <> "text" -> dict_lookup k d' = dict_lookup k d)
    /\ map fst d' = map fst d.
Proof.
  intros Hs Hl Hin.
  destruct (present_item l todo_id Hl Hin) as (l1 & d & l2 & -> & Hid & Hout).
  destruct (update_present f l1 d l2 todo_id new_text Hs Hl Hid Hout)
    as (old & Hold & ->).
  destruct (items_split_wf _ _ _ Hl) as (_ & Ht & _).
  destruct (set_field_item d "text" (PStr new_text) Ht eq_refl) as [Hi _];
    [left; eauto|].
  exists l1, d, (dict_set "text" (PStr new_text) d), l2.
  repeat split; auto.
  - cbn [snd]. apply store_of_saved, items_wf.
    apply (replace_item_items _ _ _ _ Hl Hi).
  - apply dict_lookup_set_same.
  - intros k Hk. now apply dict_lookup_set_other.
  - apply dict_set_keys_present. apply dict_lookup_In. eauto.
Qed.

End Claims.

(** ** Ids across a session, on any file *)

Lemma py_gt_numeric v m g :
  py_gt v m = Ok g ->
  numeric v <> None \/ numeric m <> None ->
  exists a b, numeric m = Some a /\ numeric v = Some b /\ g = (a <? b).
Proof.
  intros Hg Hn.
  destruct v as [|bv|nv|sv|lv|dv]; try discriminate Hg;
    try (destruct m as [|bm|nm|sm|lm|dm]; try discriminate Hg;
         simpl in Hn; try (exfalso; destruct Hn; congruence);
         simpl in Hg; inversion Hg; subst;
         eexists _, _; repeat split; reflexivity).
Qed.

Lemma py_max_from_bounds vs : forall m0 mx k,
  py_max_from m0 vs = Ok mx -> numeric mx = Some k ->
  (forall a, numeric m0 = Some a -> a <= k)
  /\ (forall v b, In v vs -> numeric v = Some b -> b <= k).
Proof.
  induction vs as [|v vs IH]; intros m0 mx k Hmax Hk; simpl in Hmax.
  - inversion Hmax; subst. split; [|intros v b []].
    intros a Ha. rewrite Ha in Hk. inversion Hk. lia.
  - destruct (py_gt v m0) as [g|] eqn:Eg; [|discriminate]. simpl in Hmax.
    destruct (IH _ _ _ Hmax Hk) as [H0 Hrest]. split.
    + intros a Ha.
      destruct (py_gt_numeric v m0 g Eg) as (a' & b & Ea & Eb & ->);
        [right; congruence|].
      rewrite Ha in Ea. inversion Ea; subst a'.
      destruct (a <? b) eqn:E.
      * specialize (H0 b Eb). apply Z.ltb_lt in E. lia.
      * now apply H0.
    + intros w b [<-|Hin] Hb; [|eauto].
      destruct (py_gt_numeric v m0 g Eg) as (a & b' & Ea & Eb & ->);
        [left; congruence|].
      rewrite Hb in Eb. inversion Eb; subst b'.
      destruct (a <? b) eqn:E.
      * now apply H0.
      * specialize (H0 a Ea). apply Z.ltb_ge in E. lia.
Qed.

Lemma res_map_get_ids l : forall ids,
  res_map (fun todo => py_get todo "id" (PInt 0)) l = Ok ids ->
  forall t d x, In t l -> t = PDict d -> dict_lookup "id" d = Some x ->
                In x ids.
Proof.
  induction l as [|t0 l IH]; intros ids Hmap t d x Hin Ht Hx; [destruct Hin|].
  simpl in Hmap.
  destruct (py_get t0 "id" (PInt 0)) as [v0|] eqn:E0; [|discriminate].
  simpl in Hmap.
  destruct (res_map (fun todo => py_get todo "id" (PInt 0)) l) as [ids'|] eqn:E1;
    [|discriminate].
  simpl in Hmap. inversion Hmap; subst ids. destruct Hin as [<-|Hin].
  - subst t0. simpl in E0. rewrite Hx in E0. inversion E0. now left.
  - right. eapply IH; eauto.
Qed.

Section Session.
Context {lib : PyLib}.

(** A successful [get_next_id] gives an integer above every numeric id in
    the list. *)
Lemma get_next_id_above l r :
  get_next_id (PList l) = Ok r ->
  exists n,
    r = PInt n
    /\ forall t d x m,
         In t l -> t = PDict d -> dict_lookup "id" d = Some x ->
         numeric x = Some m -> m < n.
Proof.
  unfold get_next_id. destruct l as [|t0 l].
  - simpl. intros H. inversion H. exists 1. split; [reflexivity|].
    intros t d x m [].
  - cbn [truthy negb py_iter res_bind].
    destruct (res_map (fun todo => py_get todo "id" (PInt 0)) (t0 :: l))
      as [ids|] eqn:Eids; [|discriminate].
    cbn [res_bind].
    destruct (py_max ids) as [mx|] eqn:Emax; [|discriminate].
    cbn [res_bind]. unfold py_add_int.
    destruct (numeric mx) as [k|] eqn:Ek; [|discriminate].
    intros H. inversion H; subst r. exists (k + 1). split; [reflexivity|].
    intros t d x m Hin Ht Hx Hm.
    pose proof (res_map_get_ids _ _ Eids t d x Hin Ht Hx) as Hxin.
    destruct ids as [|v vs]; [destruct Hxin|]. simpl in Emax.
    destruct (py_max_from_bounds vs v mx k Emax Ek) as [H0 Hrest].
    destruct Hxin as [->|Hxin].
    + specialize (H0 m Hm). lia.
    + specialize (Hrest x m Hxin Hm). lia.
Qed.

(** What a call of [create_todo_tool] can do, whatever the file holds. *)
Lemma create_outcome text now f :
  (create_todo_tool text now f = (Raised, f))
  \/ exists l n,
       store_of f = PList l
       /\ get_next_id (PList l) = Ok (PInt n)
       /\ create_todo_tool text now f
          = (Ok (PDict [("success", PBool true);
                        ("todo", to_dict {| id := n; text := text;
                                            completed := false;
                                            created_at := now |});
                        ("message", PStr ("Created todo: " ++ text))]),
             Some (json_dumps
                     (PList (l ++ [to_dict {| id := n; text := text;
                                              completed := false;
                                              created_at := now |}])))).
Proof.
  unfold create_todo_tool, bind, lift, ret, save_todos.
  rewrite load_todos_eq.
  destruct (get_next_id (store_of f)) as [r|] eqn:En; [|now left].
  destruct (store_of f) as [| | | |l|] eqn:Es; try (now left).
  destruct (get_next_id_above l r En) as (n & -> & _).
  right. exists l, n. auto.
Qed.

Lemma id_floor_app n l l' :
  id_floor n (PList l) -> id_floor n (PList (l ++ l')).
Proof.
  intros (l0 & E & H). inversion E; subst l0.
  exists (l ++ l'). split; [reflexivity|]. apply Exists_app. now left.
Qed.

Lemma id_floor_set n l1 d l2 k v :
  k <> "id" ->
  id_floor n (PList (l1 ++ PDict d :: l2)) ->
  id_floor n (PList (l1 ++ PDict (dict_set k v d) :: l2)).
Proof.
  intros Hk (l0 & E & H). inversion E; subst l0.
  eexists. split; [reflexivity|].
  apply Exists_app in H. apply Exists_app. destruct H as [H|H]; [now left|].
  right. inversion H as [? ? Hhere|? ? Hlater]; subst.
  - apply Exists_cons_hd.
    destruct Hhere as (d0 & x & m & Ht & Hx & Hm & Hnm). inversion Ht; subst d0.
    exists (dict_set k v d), x, m. repeat split; auto.
    rewrite dict_lookup_set_other; auto.
  - now apply Exists_cons_tl.
Qed.

Lemma wf_list_app l l' :
  wf (PList (l ++ l')) = wf (PList l) && wf (PList l').
Proof. simpl. apply forallb_app. Qed.

(** The first create after a floor [n] gives an id above [n] and leaves that
    id as the new floor. *)
Lemma create_above_floor text now f n r f' :
  id_floor n (store_of f) ->
  create_todo_tool text now f = (Ok r, f') ->
  exists m,
    created_id (Ok r) = Some m /\ n < m /\ id_floor m (store_of f').
Proof.
  intros Hfloor Hc.
  destruct (create_outcome text now f) as [E|(l & m & Es & En & E)];
    rewrite E in Hc; [discriminate|].
  inversion Hc; subst r f'. exists m. split; [reflexivity|].
  destruct (get_next_id_above l _ En) as (m' & Em & Habove).
  inversion Em; subst m'. rewrite Es in Hfloor.
  destruct Hfloor as (l0 & El & Hex). inversion El; subst l0.
  split.
  - apply Exists_exists in Hex.
    destruct Hex as (t & Hin & d & x & k & Ht & Hx & Hk & Hnk).
    specialize (Habove t d x k Hin Ht Hx Hk). lia.
  - rewrite store_of_saved.
    + eexists. split; [reflexivity|]. apply Exists_app. right.
      apply Exists_cons_hd. eexists _, (PInt m), m.
      repeat split; try reflexivity; try lia.
    + rewrite wf_list_app, <- Es, store_of_wf. reflexivity.
Qed.

Lemma create_gives_floor text now f r f' :
  create_todo_tool text now f = (Ok r, f') ->
  exists m, created_id (Ok r) = Some m /\ id_floor m (store_of f').
Proof.
  intros Hc.
  destruct (create_outcome text now f) as [E|(l & m & Es & En & E)];
    rewrite E in Hc; [discriminate|].
  inversion Hc; subst r f'. exists m. split; [reflexivity|].
  rewrite store_of_saved.
  - eexists. split; [reflexivity|]. apply Exists_app. right.
    apply Exists_cons_hd. eexists _, (PInt m), m.
    repeat split; try reflexivity; try lia.
  - rewrite wf_list_app, <- Es, store_of_wf. reflexivity.
Qed.

Lemma find_by_id_found todo_id ts : forall i j t,
  find_by_id todo_id i ts = Ok (Some (j, t)) ->
  exists l1 l2 d,
    ts = l1 ++ t :: l2 /\ j = (i + List.length l1)%nat /\ t = PDict d.
Proof.
  induction ts as [|t0 ts IH]; intros i j t H; simpl in H; [discriminate|].
  destruct (py_getitem t0 "id") as [v|] eqn:Ev; [|discriminate]. simpl in H.
  destruct (py_eq v (PInt todo_id)).
  - inversion H; subst. exists [], ts.
    destruct t as [| | | | |d]; try discriminate Ev.
    exists d. simpl. rewrite Nat.add_0_r. auto.
  - destruct (IH _ _ _ H) as (l1 & l2 & d & -> & -> & ->).
    exists (t0 :: l1), l2, d. simpl. rewrite Nat.add_succ_r. auto.
Qed.

Lemma wf_list_cons x l : wf (PList (x :: l)) = wf x && wf (PList l).
Proof. reflexivity. Qed.

Lemma wf_set_in_list l1 d l2 k v :
  wf (PList (l1 ++ PDict d :: l2)) = true -> wf v = true ->
  wf (PList (l1 ++ PDict (dict_set k v d) :: l2)) = true.
Proof.
  rewrite !wf_list_app, !wf_list_cons, !andb_true_iff.
  intros (H1 & Hd & H2) Hv. repeat split; auto.
  now apply (wf_dict_set k v d).
Qed.

End Session.

Section SessionFloor.
Context {lib : PyLib}.

Lemma update_keeps_floor n todo_id new_text f :
  id_floor n (store_of f) ->
  id_floor n (store_of (snd (update_todo_tool todo_id new_text f))).
Proof.
  intros Hfloor. pose proof Hfloor as (l & Es & _).
  unfold update_todo_tool, bind, lift, ret, save_todos.
  rewrite load_todos_eq, Es. cbn [py_iter].
  destruct (find_by_id todo_id 0 l) as [[[i todo]|]|] eqn:Ef;
    cbn [snd]; try (exact Hfloor).
  destruct (find_by_id_found _ _ _ _ _ Ef) as (l1 & l2 & d & -> & -> & ->).
  destruct (truthy (PDict d)); cbn [negb snd];
    [|exact Hfloor].
  cbn [py_getitem]. destruct (dict_lookup "text" d) as [old|];
    cbn [snd]; [|exact Hfloor].
  cbn [py_setitem write_back Nat.add snd]. rewrite list_set_middle.
  rewrite store_of_saved.
  - apply id_floor_set; [discriminate|]. now rewrite <- Es.
  - apply wf_set_in_list; [|reflexivity]. rewrite <- Es. apply store_of_wf.
Qed.

Lemma complete_keeps_floor n todo_id f :
  id_floor n (store_of f) ->
  id_floor n (store_of (snd (complete_todo_tool todo_id f))).
Proof.
  intros Hfloor. pose proof Hfloor as (l & Es & _).
  unfold complete_todo_tool, bind, lift, ret, save_todos.
  rewrite load_todos_eq, Es. cbn [py_iter].
  destruct (find_by_id todo_id 0 l) as [[[i todo]|]|] eqn:Ef;
    cbn [snd]; try (exact Hfloor).
  destruct (find_by_id_found _ _ _ _ _ Ef) as (l1 & l2 & d & -> & -> & ->).
  destruct (truthy (PDict d)); cbn [negb snd];
    [|exact Hfloor].
  cbn [py_setitem write_back Nat.add]. rewrite list_set_middle.
  assert (Hnew : id_floor n
            (store_of (Some (json_dumps
               (PList (l1 ++ PDict (dict_set "completed" (PBool true) d)
                          :: l2)))))).
  { rewrite store_of_saved.
    - apply id_floor_set; [discriminate|]. now rewrite <- Es.
    - apply wf_set_in_list; [|reflexivity]. rewrite <- Es. apply store_of_wf. }
  destruct (py_getitem (PDict (dict_set "completed" (PBool true) d)) "text");
    cbn [snd]; exact Hnew.
Qed.

Lemma py_eq_number x n :
  py_eq x (PInt n)
  = match numeric x with
    | Some m => m =? n
    | None => false
    end.
Proof. destruct x as [|b|m|s|l|d]; reflexivity. Qed.

Lemma find_by_id_holds todo_id l : forall i j t,
  find_by_id todo_id i l = Ok (Some (j, t)) ->
  holds_id todo_id (PList l) = true.
Proof.
  induction l as [|t0 l IH]; intros i j t H; cbn [find_by_id] in H;
    [discriminate|].
  cbn [holds_id existsb].
  destruct t0 as [| | | | |d]; try discriminate H.
  cbn [py_getitem id_number] in *.
  destruct (dict_lookup "id" d) as [x|]; [|discriminate H].
  cbn [res_bind] in H. rewrite py_eq_number in H.
  destruct (numeric x) as [m|].
  - destruct (m =? todo_id); [reflexivity|]. cbn [orb]. eapply IH, H.
  - cbn [orb]. eapply IH, H.
Qed.

Lemma without_id_keeps todo_id l : forall kept t m,
  without_id todo_id l = Ok kept ->
  In t l -> id_number t = Some m -> m <> todo_id -> In t kept.
Proof.
  induction l as [|t0 l IH]; intros kept t m H Hin Hm Hne; [destruct Hin|].
  cbn [without_id] in H.
  destruct (py_getitem t0 "id") as [x|] eqn:Ex; [|discriminate H].
  cbn [res_bind] in H.
  destruct (without_id todo_id l) as [rest|] eqn:Er; [|discriminate H].
  cbn [res_bind] in H. inversion H; subst kept. clear H.
  destruct Hin as [<-|Hin].
  - destruct t0 as [| | | | |d]; try discriminate Ex.
    cbn [py_getitem id_number] in *.
    destruct (dict_lookup "id" d) as [y|]; [|discriminate Ex].
    inversion Ex; subst y. rewrite py_eq_number, Hm.
    apply Z.eqb_neq in Hne. rewrite Hne. now left.
  - destruct (negb (py_eq x (PInt todo_id))); [right|]; eapply IH; eauto.
Qed.

Lemma without_id_wf todo_id l : forall kept,
  without_id todo_id l = Ok kept ->
  wf (PList l) = true -> wf (PList kept) = true.
Proof.
  induction l as [|t0 l IH]; intros kept H W; cbn [without_id] in H.
  - inversion H. reflexivity.
  - destruct (py_getitem t0 "id") as [x|]; [|discriminate H].
    cbn [res_bind] in H.
    destruct (without_id todo_id l) as [rest|]; [|discriminate H].
    cbn [res_bind] in H. inversion H; subst kept. clear H.
    rewrite wf_list_cons in W. apply andb_true_iff in W. destruct W as [W0 W].
    destruct (negb (py_eq x (PInt todo_id))); [rewrite wf_list_cons, W0|];
      now apply IH.
Qed.

Lemma id_floor_number n l :
  id_floor n (PList l)
  <-> exists t m, In t l /\ id_number t = Some m /\ n <= m.
Proof.
  split.
  - intros (l0 & E & Hex). inversion E; subst l0.
    apply Exists_exists in Hex.
    destruct Hex as (t & Hin & d & x & m & -> & Hx & Hm & Hnm).
    exists (PDict d), m. cbn [id_number]. rewrite Hx. auto.
  - intros (t & m & Hin & Hm & Hnm). exists l. split; [reflexivity|].
    apply Exists_exists. exists t. split; [assumption|].
    destruct t as [| | | | |d]; try discriminate Hm. cbn [id_number] in Hm.
    destruct (dict_lookup "id" d) as [x|] eqn:Ex; [|discriminate Hm].
    exists d, x, m. auto.
Qed.

(** A delete that finds nothing, or that is run on a store with an id above
    its own, leaves in the store an id at least as high as any before. *)
Lemma delete_keeps_floor n todo_id f :
  negb (holds_id todo_id (store_of f)) || holds_above todo_id (store_of f)
  = true ->
  id_floor n (store_of f) ->
  id_floor n (store_of (snd (delete_todo_tool todo_id f))).
Proof.
  intros Hsp Hfloor. pose proof Hfloor as (l & Es & _).
  unfold delete_todo_tool, bind, lift, ret, save_todos.
  rewrite load_todos_eq. rewrite Es in *. cbn [py_iter].
  destruct (find_by_id todo_id 0 l) as [[[i todo]|]|] eqn:Ef;
    cbn [snd]; try (rewrite Es; exact Hfloor).
  rewrite (find_by_id_holds _ _ _ _ _ Ef) in Hsp. cbn [negb orb] in Hsp.
  destruct (truthy todo); cbn [negb snd]; [|rewrite Es; exact Hfloor].
  destruct (without_id todo_id l) as [kept|] eqn:Ek;
    cbn [snd]; [|rewrite Es; exact Hfloor].
  assert (Hnew : id_floor n (store_of (Some (json_dumps (PList kept))))).
  { rewrite store_of_saved.
    - apply id_floor_number. apply id_floor_number in Hfloor.
      destruct Hfloor as (t & m & Hin & Hm & Hnm).
      destruct (Z.eq_dec m todo_id) as [->|Hne].
      + cbn [holds_above] in Hsp. apply existsb_exists in Hsp.
        destruct Hsp as (t' & Hin' & Ht').
        destruct (id_number t') as [m'|] eqn:Em'; [|discriminate Ht'].
        apply Z.ltb_lt in Ht'. exists t', m'.
        split; [|split; [exact Em' | lia]].
        apply (without_id_keeps todo_id l kept t' m' Ek Hin' Em'). lia.
      + exists t, m. split; [|split; assumption].
        now apply (without_id_keeps todo_id l kept t m Ek Hin Hm).
    - apply (without_id_wf todo_id l kept Ek). rewrite <- Es.
      apply store_of_wf. }
  destruct (py_getitem todo "text"); cbn [snd]; exact Hnew.
Qed.

Lemma tool_keeps_floor c n f :
  spares_highest c (store_of f) = true ->
  id_floor n (store_of f) ->
  id_floor n (store_of (snd (run_tool c f))).
Proof.
  intros Hc Hfloor.
  destruct c as [text now|todo_id|todo_id new_text|todo_id| |];
    try discriminate Hc; cbn [run_tool].
  - destruct (create_outcome text now f) as [E|(l & m & Es & En & E)];
      rewrite E; cbn [snd]; [assumption|].
    rewrite store_of_saved.
    + apply id_floor_app. now rewrite <- Es.
    + rewrite wf_list_app, <- Es, store_of_wf. reflexivity.
  - now apply delete_keeps_floor.
  - now apply update_keeps_floor.
  - now apply complete_keeps_floor.
  - unfold list_todos_tool, bind, lift, ret. rewrite load_todos_eq.
    destruct (py_len (store_of f)); cbn [snd]; assumption.
Qed.

Lemma create_raised_keeps_file text now f f' :
  create_todo_tool text now f = (Raised, f') -> f' = f.
Proof.
  intros H.
  destruct (create_outcome text now f) as [E|(l & m & _ & _ & E)];
    rewrite E in H; inversion H; reflexivity.
Qed.

Lemma assigned_ids_other c r trace :
  is_create c = false ->
  assigned_ids ((c, r) :: trace) = assigned_ids trace.
Proof. destruct c; try reflexivity. discriminate. Qed.

Lemma no_create_no_ids cs : forall f,
  existsb is_create cs = false -> assigned_ids (fst (run_session cs f)) = [].
Proof.
  induction cs as [|c cs IH]; intros f H; [reflexivity|].
  cbn [existsb] in H. apply orb_false_iff in H. destruct H as [Hc Hcs].
  cbn [run_session]. destruct (run_tool c f) as [r f'].
  specialize (IH f' Hcs). destruct (run_session cs f') as [trace f''].
  cbn [fst] in *. now rewrite assigned_ids_other.
Qed.

Lemma removals_spare_highest_before cs : forall f,
  removals_spare_highest true cs f = true ->
  removals_spare_highest false cs f = true.
Proof.
  induction cs as [|c cs IH]; intros f H; [reflexivity|].
  cbn [removals_spare_highest negb orb] in *.
  apply andb_true_iff in H. destruct H as [_ H].
  destruct (is_create c); [exact H | now apply IH].
Qed.

(** With an id [n] in the store, the ids a session assigns are above [n] and
    increase, as long as the commands before its last create spare the
    highest id. *)
Lemma session_above_floor cs : forall f n,
  id_floor n (store_of f) ->
  removals_spare_highest true cs f = true ->
  Forall (fun m => n < m) (assigned_ids (fst (run_session cs f)))
  /\ StronglySorted Z.lt (assigned_ids (fst (run_session cs f))).
Proof.
  induction cs as [|c cs IH]; intros f n Hfloor Hcs.
  - simpl. split; constructor.
  - destruct (existsb is_create (c :: cs)) eqn:Ecreate;
      [|rewrite (no_create_no_ids _ f Ecreate); split; constructor].
    cbn [removals_spare_highest negb orb] in Hcs.
    apply andb_true_iff in Hcs. destruct Hcs as [Hc Hcs].
    cbn [run_session]. cbn [existsb] in Ecreate.
    destruct (run_tool c f) as [r f'] eqn:Er. cbn [snd] in Hcs.
    destruct (run_session cs f') as [trace f''] eqn:Et. cbn [fst].
    assert (Htrace : trace = fst (run_session cs f')) by now rewrite Et.
    destruct (is_create c) eqn:Ec.
    + destruct c as [text now| | | | |]; try discriminate Ec.
      cbn [run_tool] in Er. cbn [assigned_ids].
      destruct r as [r|].
      * destruct (create_above_floor text now f n r f' Hfloor Er)
          as (m & -> & Hnm & Hfloor').
        destruct (IH f' m Hfloor' Hcs) as [Hall Hsorted].
        rewrite <- Htrace in *. split.
        -- constructor; [assumption|].
           eapply Forall_impl; [|exact Hall]. intros a Ha. simpl in Ha. lia.
        -- now constructor.
      * cbn [created_id]. apply create_raised_keeps_file in Er. subst f'.
        rewrite Htrace. now apply IH.
    + rewrite assigned_ids_other by assumption. rewrite Htrace.
      cbn [orb] in Ecreate. rewrite Ecreate in Hc. cbn [negb orb] in Hc.
      apply IH; [|assumption].
      pose proof (tool_keeps_floor c n f Hc Hfloor) as Hkeep.
      now rewrite Er in Hkeep.
Qed.

Lemma session_sorted cs : forall f,
  removals_spare_highest false cs f = true ->
  StronglySorted Z.lt (assigned_ids (fst (run_session cs f))).
Proof.
  induction cs as [|c cs IH]; intros f Hcs.
  - simpl. constructor.
  - cbn [removals_spare_highest negb orb] in Hcs. cbn [run_session].
    destruct (run_tool c f) as [r f'] eqn:Er. cbn [snd] in Hcs.
    destruct (run_session cs f') as [trace f''] eqn:Et. cbn [fst].
    assert (Htrace : trace = fst (run_session cs f')) by now rewrite Et.
    destruct (is_create c) eqn:Ec.
    + destruct c as [text now| | | | |]; try discriminate Ec.
      cbn [run_tool] in Er. cbn [assigned_ids].
      destruct r as [r|].
      * destruct (create_gives_floor text now f r f' Er) as (m & -> & Hfloor').
        destruct (session_above_floor cs f' m Hfloor' Hcs) as [Hall Hsorted].
        rewrite <- Htrace in *. now constructor.
      * cbn [created_id]. rewrite Htrace.
        now apply IH, removals_spare_highest_before.
    + rewrite assigned_ids_other by assumption. rewrite Htrace. now apply IH.
Qed.

(** The session create, delete of the id just assigned, create, on a store
    of items: both creates are given the same id. *)
Lemma delete_of_new_id_repeats f l text1 now1 text2 now2 :
  store_of f = PList l -> forallb is_item l = true ->
  assigned_ids
    (fst (run_session
            [Create text1 now1; Delete (next_id_of (item_ids l));
             Create text2 now2] f))
  = [next_id_of (item_ids l); next_id_of (item_ids l)].
Proof.
  intros Hs Hl. set (n := next_id_of (item_ids l)).
  assert (Hout : ~ In n (item_ids l)).
  { intros Hin. pose proof (next_id_of_above _ _ Hin). unfold n in *. lia. }
  assert (Hl1 : forallb is_item (l ++ [to_dict (new_item l text1 now1)]) = true).
  { rewrite forallb_items_app, Hl. reflexivity. }
  assert (Hs1 : store_of (Some (json_dumps
                  (PList (l ++ [to_dict (new_item l text1 now1)]))))
                = PList (l ++ [to_dict (new_item l text1 now1)])).
  { apply store_of_saved. now apply items_wf. }
  destruct (delete_present _ l _ [] n Hs1 Hl1 eq_refl Hout) as (t & _ & Hdel).
  assert (Hdrop : drop_id n (l ++ [to_dict (new_item l text1 now1)]) = l).
  { rewrite drop_id_app, (drop_id_unknown n l Hout). cbn [drop_id filter].
    cbn [to_dict new_item item_id dict_lookup String.eqb Ascii.eqb Bool.eqb
         id]. fold n. rewrite Z.eqb_refl. cbn [negb]. apply List.app_nil_r. }
  match type of Hdel with
  | context [drop_id n ?x] =>
      change x with (l ++ [to_dict (new_item l text1 now1)]) in Hdel
  end.
  rewrite Hdrop in Hdel.
  assert (Hs2 : store_of (Some (json_dumps (PList l))) = PList l).
  { apply store_of_saved. now apply items_wf. }
  cbn [run_session run_tool].
  rewrite (create_items f l text1 now1 Hs Hl), Hdel.
  rewrite (create_items _ l text2 now2 Hs2 Hl).
  reflexivity.
Qed.

(** C2, amended.  Whatever the file held at the start of the session: when
    every command that stands between two creates spares the highest id of
    the store (so no [delete_all_todos_tool] there, and no
    [delete_todo_tool] of an id that the store holds with no id above it;
    deletes of other items or of unknown ids, updates, completions and
    listings are free), every id [create_todo_tool] assigns is strictly
    greater than every id it assigned before, so none is assigned twice.
    In every session the id assigned at a create is strictly greater than
    the id of every item in the store at that moment.  The delete of the
    highest id between two creates does break the property: on every store
    of items, create, delete of the id just assigned, create gives that id
    twice. *)
Theorem ids_increase_while_highest_stays (cs : list command) (f : file) :
  (removals_spare_highest false cs f = true ->
   ids_strictly_increase (fst (run_session cs f)))
  /\ (forall text now r f',
        create_todo_tool text now f = (Ok r, f') ->
        exists l n,
          store_of f = PList l /\ created_id (Ok r) = Some n
          /\ forall x, In x (item_ids l) -> x < n)
  /\ (forall l text1 now1 text2 now2,
        store_of f = PList l -> forallb is_item l = true ->
        assigned_ids
          (fst (run_session
                  [Create text1 now1; Delete (next_id_of (item_ids l));
                   Create text2 now2] f))
        = [next_id_of (item_ids l); next_id_of (item_ids l)]).
Proof.
  split; [now apply session_sorted|]. split.
  - intros text now r f' Hc.
    destruct (create_outcome text now f) as [E|(l & n & Es & En & E)];
      rewrite E in Hc; [discriminate|].
    inversion Hc; subst r f'. exists l, n. repeat split; [assumption|].
    destruct (get_next_id_above l _ En) as (n' & En' & Habove).
    inversion En'; subst n'. intros x Hx.
    destruct (in_ids_split x l Hx) as (l1 & t & l2 & -> & Hid & _).
    destruct t as [| | | | |d]; try discriminate Hid. simpl in Hid.
    destruct (dict_lookup "id" d) as [[| |k| | |]|] eqn:Ed;
      try discriminate Hid.
    inversion Hid; subst k.
    apply (Habove (PDict d) d (PInt x) x); auto.
    apply in_or_app. right. now left.
  - intros l text1 now1 text2 now2. apply delete_of_new_id_repeats.
Qed.

End SessionFloor.

(** ** The result of a turn *)

Section Normalizer.
Context {lib : PyLib}.

Lemma scan_tool_result_dict c r :
  scan_tool_result c = Some r -> exists d, r = PDict d.
Proof.
  unfold scan_tool_result. destruct c as [| | |s| |d]; try discriminate.
  - destruct (json_loads s) as [[| | | | |d]|]; try discriminate;
      intros H; inversion H; eauto.
  - intros H. inversion H. eauto.
Qed.

Lemma scan_messages_dict ms r :
  scan_messages ms = Some r -> exists d, r = PDict d.
Proof.
  induction ms as [|m ms IH]; simpl; [discriminate|].
  destruct (msg_class m); auto.
  destruct (scan_tool_result (content m)) eqn:E; auto.
  intros H. inversion H; subst. eapply scan_tool_result_dict; eauto.
Qed.

(** A tool result that reports success is returned as it is. *)
Lemma successful_tool_result_returned msgs r :
  scan_messages (rev msgs) = Some r -> success_of r = true ->
  process_command_with_graph msgs = Ok r.
Proof.
  intros Hscan Hs. unfold process_command_with_graph. rewrite Hscan.
  destruct (scan_messages_dict _ _ Hscan) as [d ->].
  unfold success_of in Hs. cbn [py_get].
  destruct (dict_lookup "success" d) as [v|]; [|discriminate].
  cbn [res_bind]. now rewrite Hs.
Qed.

(** Without any tool result the text of the final message is wrapped. *)
Lemma no_tool_result_falls_back older s cls :
  scan_messages (rev (older ++ [{| msg_class := cls; content := PStr s |}]))
  = None ->
  process_command_with_graph
    (older ++ [{| msg_class := cls; content := PStr s |}])
  = Ok (wrapped s).
Proof.
  intros Hscan. unfold process_command_with_graph. rewrite Hscan.
  rewrite List.rev_app_distr. reflexivity.
Qed.

(** A tool result that reports a failure is not returned: the text of the
    final message is wrapped, with [success] true, as if there had been no
    tool result. *)
Lemma failed_tool_result_replaced older s cls r :
  scan_messages (rev (older ++ [{| msg_class := cls; content := PStr s |}]))
  = Some r ->
  success_of r = false ->
  process_command_with_graph
    (older ++ [{| msg_class := cls; content := PStr s |}])
  = Ok (wrapped s).
Proof.
  intros Hscan Hs. unfold process_command_with_graph. rewrite Hscan.
  destruct (scan_messages_dict _ _ Hscan) as [d ->].
  unfold success_of in Hs. cbn [py_get].
  destruct (dict_lookup "success" d) as [v|]; cbn [res_bind];
    [rewrite Hs|]; cbn [truthy negb]; rewrite List.rev_app_distr; reflexivity.
Qed.

End Normalizer.

(** ** Runs with the reference [json] module *)

(** C1.  The turn whose only tool result is
    [{success: false, message: "Todo with ID 99 not found"}]: the tool did
    return that result and the loop over the messages finds it, but
    [process_command_with_graph] returns the wrapped final text with
    [success] true instead of it. *)
Theorem not_found_result_is_overwritten :
  delete_todo_tool (lib := ref_lib) 99 milk_file
  = (Ok (not_found 99), milk_file)
  /\ scan_messages (lib := ref_lib) (rev turn_99) = Some (not_found 99)
  /\ process_command_with_graph (lib := ref_lib) turn_99
     = Ok (PDict [("success", PBool true);
                  ("message", PStr "I could not find a todo with ID 99.")])
  /\ process_command_with_graph (lib := ref_lib) turn_99
     <> Ok (not_found 99).
Proof.
  assert (Hscan : scan_messages (lib := ref_lib) (rev turn_99)
                  = Some (not_found 99)) by (vm_compute; reflexivity).
  assert (Hres : process_command_with_graph (lib := ref_lib) turn_99
                 = Ok (wrapped "I could not find a todo with ID 99.")).
  { apply (failed_tool_result_replaced
             [ {| msg_class := HumanMessage; content := PStr "Delete todo 99" |};
               {| msg_class := AIMessage; content := PStr "" |};
               {| msg_class := ToolMessage; content := PStr not_found_99_text |} ]
             "I could not find a todo with ID 99." AIMessage (not_found 99)).
    - exact Hscan.
    - reflexivity. }
  split; [|split; [|split]].
  - vm_compute. reflexivity.
  - exact Hscan.
  - exact Hres.
  - rewrite Hres. discriminate.
Qed.

(** C2 as stated fails: create, delete the item, create again, from an
    absent file; both creates are given the id 1. *)
Lemma create_delete_create_repeats_id :
  assigned_ids
    (fst (run_session (lib := ref_lib)
            [Create "a" "2024-01-01T10:00:00"; Delete 1;
             Create "b" "2024-01-01T10:05:00"] None))
  = [1; 1]
  /\ ~ ids_strictly_increase
         (fst (run_session (lib := ref_lib)
                 [Create "a" "2024-01-01T10:00:00"; Delete 1;
                  Create "b" "2024-01-01T10:05:00"] None)).
Proof.
  assert (E : assigned_ids
                (fst (run_session (lib := ref_lib)
                        [Create "a" "2024-01-01T10:00:00"; Delete 1;
                         Create "b" "2024-01-01T10:05:00"] None))
              = [1; 1]) by (vm_compute; reflexivity).
  split; [exact E|].
  unfold ids_strictly_increase. rewrite E. intros H.
  inversion H as [|? ? _ Hall]; subst. inversion Hall; subst. lia.
Qed.

(** The session of that repeated id does delete the highest id between two
    creates. *)
Example repeating_session_deletes_highest :
  removals_spare_highest (lib := ref_lib) false
    [Create "a" "2024-01-01T10:00:00"; Delete 1;
     Create "b" "2024-01-01T10:05:00"] None
  = false.
Proof. vm_compute. reflexivity. Qed.

Lemma ids_increase_while_highest_stays_witness :
  removals_spare_highest (lib := ref_lib) false
    [DeleteAll; Create "a" "2024-01-01T10:00:00";
     Create "b" "2024-01-01T10:05:00"; Delete 1; Update 2 "c";
     Create "d" "2024-01-01T10:10:00"; Delete 2; Delete 99;
     Create "e" "2024-01-01T10:15:00"; Delete 4] None = true
  /\ ids_strictly_increase
       (fst (run_session (lib := ref_lib)
               [DeleteAll; Create "a" "2024-01-01T10:00:00";
                Create "b" "2024-01-01T10:05:00"; Delete 1; Update 2 "c";
                Create "d" "2024-01-01T10:10:00"; Delete 2; Delete 99;
                Create "e" "2024-01-01T10:15:00"; Delete 4] None))
  /\ (exists l n,
        store_of (lib := ref_lib) milk_file = PList l
        /\ created_id
             (fst (create_todo_tool (lib := ref_lib) "eggs"
                     "2024-01-02T09:30:00" milk_file)) = Some n
        /\ forall x, In x (item_ids l) -> x < n)
  /\ store_of (lib := ref_lib) milk_file = PList [to_dict milk]
  /\ forallb is_item [to_dict milk] = true
  /\ assigned_ids
       (fst (run_session (lib := ref_lib)
               [Create "eggs" "2024-01-02T09:30:00";
                Delete (next_id_of (item_ids [to_dict milk]));
                Create "tea" "2024-01-02T09:35:00"] milk_file))
     = [next_id_of (item_ids [to_dict milk]);
        next_id_of (item_ids [to_dict milk])].
Proof.
  assert (Hs : store_of (lib := ref_lib) milk_file = PList [to_dict milk])
    by (vm_compute; reflexivity).
  split; [vm_compute; reflexivity|]. split; [|split; [|split; [|split]]].
  - apply (proj1 (ids_increase_while_highest_stays (lib := ref_lib)
                    [DeleteAll; Create "a" "2024-01-01T10:00:00";
                     Create "b" "2024-01-01T10:05:00"; Delete 1; Update 2 "c";
                     Create "d" "2024-01-01T10:10:00"; Delete 2; Delete 99;
                     Create "e" "2024-01-01T10:15:00"; Delete 4] None)).
    vm_compute. reflexivity.
  - destruct (create_todo_tool (lib := ref_lib) "eggs" "2024-01-02T09:30:00"
                milk_file) as [r f'] eqn:E.
    assert (Hok : exists r0, r = Ok r0)
      by (vm_compute in E; inversion E; eauto).
    destruct Hok as [r0 ->].
    exact (proj1 (proj2 (ids_increase_while_highest_stays (lib := ref_lib)
                           [] milk_file))
             "eggs" "2024-01-02T09:30:00" r0 f' E).
  - exact Hs.
  - reflexivity.
  - exact (proj2 (proj2 (ids_increase_while_highest_stays (lib := ref_lib)
                           [] milk_file))
             [to_dict milk] "eggs" "2024-01-02T09:30:00" "tea"
             "2024-01-02T09:35:00" Hs eq_refl).
Defined.

Lemma get_next_id_max_plus_one_witness :
  forallb has_int_id [to_dict milk; to_dict eggs] = true
  /\ exists m,
       In m (item_ids [to_dict milk; to_dict eggs])
       /\ (forall x, In x (item_ids [to_dict milk; to_dict eggs]) -> x <= m)
       /\ get_next_id (PList [to_dict milk; to_dict eggs])
          = Ok (PInt (m + 1))
       /\ Backend.get_next_id (PList [to_dict milk; to_dict eggs])
          = Ok (PInt (m + 1)).
Proof.
  split; [reflexivity|].
  apply (get_next_id_max_plus_one [to_dict milk; to_dict eggs] eq_refl).
  discriminate.
Defined.

Lemma update_complete_unknown_id_witness :
  store_of (lib := ref_lib) milk_file = PList [to_dict milk]
  /\ forallb is_item [to_dict milk] = true
  /\ ~ In 99 (item_ids [to_dict milk])
  /\ update_todo_tool (lib := ref_lib) 99 "oat milk" milk_file
     = (Ok (not_found 99), milk_file)
  /\ complete_todo_tool (lib := ref_lib) 99 milk_file
     = (Ok (not_found 99), milk_file)
  /\ py_getitem (not_found 99) "success" = Ok (PBool false).
Proof.
  assert (Hs : store_of (lib := ref_lib) milk_file = PList [to_dict milk])
    by (vm_compute; reflexivity).
  assert (Hout : ~ In 99 (item_ids [to_dict milk]))
    by (simpl; intros [H|[]]; discriminate H).
  split; [exact Hs|]. split; [reflexivity|]. split; [exact Hout|].
  exact (update_complete_unknown_id (lib := ref_lib) milk_file
           [to_dict milk] 99 "oat milk" Hs eq_refl Hout).
Defined.

Lemma delete_twice_witness :
  store_of (lib := ref_lib) milk_file = PList [to_dict milk]
  /\ forallb is_item [to_dict milk] = true
  /\ In 1 (item_ids [to_dict milk])
  /\ (let (r1, f1) := delete_todo_tool (lib := ref_lib) 1 milk_file in
      (exists text,
         r1 = Ok (PDict [("success", PBool true);
                         ("message", PStr ("Deleted todo: " ++ text))]))
      /\ delete_todo_tool (lib := ref_lib) 1 f1 = (Ok (not_found 1), f1)
      /\ py_getitem (not_found 1) "success" = Ok (PBool false)).
Proof.
  assert (Hs : store_of (lib := ref_lib) milk_file = PList [to_dict milk])
    by (vm_compute; reflexivity).
  assert (Hin : In 1 (item_ids [to_dict milk])) by (simpl; auto).
  split; [exact Hs|]. split; [reflexivity|]. split; [exact Hin|].
  exact (delete_twice (lib := ref_lib) milk_file [to_dict milk] 1
           Hs eq_refl Hin).
Defined.

Lemma load_todos_recovers_witness :
  (load_todos (lib := ref_lib) (Some "[]") = (Ok (PList []), Some "[]")
   /\ Backend.load_todos (lib := ref_lib) (Some "[]")
      = (Ok (PList []), Some "[]"))
  /\ (load_todos (lib := ref_lib) (Some "{oops") = (Ok (PList []), Some "{oops")
      /\ Backend.load_todos (lib := ref_lib) (Some "{oops")
         = (Ok (PList []), Some "{oops"))
  /\ (load_todos (lib := ref_lib) None = (Ok (PList []), None)
      /\ Backend.load_todos (lib := ref_lib) None = (Ok (PList []), None)).
Proof.
  split; [|split].
  - apply (proj1 (load_todos_recovers (lib := ref_lib) (Some "[]"))
             "[]" (PList []) eq_refl).
    vm_compute. reflexivity.
  - apply (proj2 (load_todos_recovers (lib := ref_lib) (Some "{oops"))).
    right. exists "{oops". split; [reflexivity|]. vm_compute. reflexivity.
  - apply (proj2 (load_todos_recovers (lib := ref_lib) None)).
    left. reflexivity.
Defined.

Lemma tools_keep_ids_distinct_witness :
  store_of (lib := ref_lib) milk_file = PList [to_dict milk]
  /\ forallb is_item [to_dict milk] = true
  /\ NoDup (item_ids [to_dict milk])
  /\ exists l',
       store_of (lib := ref_lib)
         (snd (run_tool (lib := ref_lib)
                 (Create "eggs" "2024-01-02T09:30:00") milk_file))
       = PList l'
       /\ forallb is_item l' = true /\ NoDup (item_ids l').
Proof.
  assert (Hs : store_of (lib := ref_lib) milk_file = PList [to_dict milk])
    by (vm_compute; reflexivity).
  assert (Hnd : NoDup (item_ids [to_dict milk]))
    by (simpl; constructor; [intros [] | constructor]).
  split; [exact Hs|]. split; [reflexivity|]. split; [exact Hnd|].
  exact (tools_keep_ids_distinct (lib := ref_lib) milk_file [to_dict milk]
           (Create "eggs" "2024-01-02T09:30:00") Hs eq_refl Hnd).
Defined.

Lemma update_changes_text_only_witness :
  store_of (lib := ref_lib) milk_file = PList [to_dict milk]
  /\ forallb is_item [to_dict milk] = true
  /\ In 1 (item_ids [to_dict milk])
  /\ exists l1 d d' l2,
       [to_dict milk] = l1 ++ PDict d :: l2
       /\ item_id (PDict d) = Some 1
       /\ ~ In 1 (item_ids l1)
       /\ store_of (lib := ref_lib)
            (snd (update_todo_tool (lib := ref_lib) 1 "oat milk" milk_file))
          = PList (l1 ++ PDict d' :: l2)
       /\ dict_lookup "text" d' = Some (PStr "oat milk")
       /\ (forall k, k <> "text" -> dict_lookup k d' = dict_lookup k d)
       /\ map fst d' = map fst d.
Proof.
  assert (Hs : store_of (lib := ref_lib) milk_file = PList [to_dict milk])
    by (vm_compute; reflexivity).
  assert (Hin : In 1 (item_ids [to_dict milk])) by (simpl; auto).
  split; [exact Hs|]. split; [reflexivity|]. split; [exact Hin|].
  exact (update_changes_text_only (lib := ref_lib) milk_file [to_dict milk]
           1 "oat milk" Hs eq_refl Hin).
Defined.

(** The scenarios of the specification, run. *)

Example complete_milk :
  complete_todo_tool (lib := ref_lib) 1 milk_file
  = (Ok (PDict [("success", PBool true);
                ("message", PStr "Marked todo as completed: milk")]),
     Some (RefJson.dumps
             (PList [PDict [("id", PInt 1); ("text", PStr "milk");
                            ("completed", PBool true);
                            ("created_at", PStr "2024-01-01T10:00:00")]]))).
Proof. vm_compute. reflexivity. Qed.

Example delete_all_on_empty :
  fst (delete_all_todos_tool (lib := ref_lib) None)
  = Ok (PDict [("success", PBool true); ("message", PStr "All todos deleted")])
  /\ store_of (lib := ref_lib) (snd (delete_all_todos_tool (lib := ref_lib) None))
     = PList [].
Proof. split; vm_compute; reflexivity. Qed.

Example save_load_milk :
  RefJson.loads (RefJson.dumps (PList [to_dict milk; to_dict eggs]))
  = Some (PList [to_dict milk; to_dict eggs]).
Proof. vm_compute. reflexivity. Qed.

(** * More of the code *)

(** ** Lists whose elements have integer ids *)

Lemma has_int_id_getitem t :
  has_int_id t = true ->
  exists n, item_id t = Some n /\ py_getitem t "id" = Ok (PInt n).
Proof.
  unfold has_int_id. destruct t as [| | | | |d]; try discriminate. simpl.
  destruct (dict_lookup "id" d) as [[| |n| | |]|]; try discriminate. eauto.
Qed.

Lemma find_by_id_absent_ids todo_id l : forall i,
  forallb has_int_id l = true -> ~ In todo_id (item_ids l) ->
  find_by_id todo_id i l = Ok None.
Proof.
  induction l as [|t l IH]; intros i Hl Hout; [reflexivity|].
  cbn [forallb] in Hl. apply andb_true_iff in Hl. destruct Hl as [Ht Hl].
  destruct (has_int_id_getitem t Ht) as (n & Hn & Hg).
  cbn [find_by_id item_ids] in *. rewrite Hn in Hout. rewrite Hg. simpl.
  destruct (n =? todo_id) eqn:E.
  - apply Z.eqb_eq in E. subst. simpl in Hout. tauto.
  - apply IH; [assumption|]. simpl in Hout. tauto.
Qed.

Lemma find_by_id_present_ids todo_id l1 t l2 : forall i,
  forallb has_int_id l1 = true -> item_id t = Some todo_id ->
  ~ In todo_id (item_ids l1) ->
  find_by_id todo_id i (l1 ++ t :: l2) = Ok (Some ((i + List.length l1)%nat, t)).
Proof.
  induction l1 as [|t1 l1 IH]; intros i Hl Hid Hout.
  - assert (Ht : has_int_id t = true) by (unfold has_int_id; now rewrite Hid).
    destruct (has_int_id_getitem t Ht) as (n & Hn & Hg).
    rewrite Hid in Hn. inversion Hn; subst n.
    cbn [app find_by_id]. rewrite Hg. simpl. rewrite Z.eqb_refl.
    now rewrite Nat.add_0_r.
  - cbn [forallb] in Hl. apply andb_true_iff in Hl. destruct Hl as [H1 Hl].
    destruct (has_int_id_getitem t1 H1) as (n & Hn & Hg).
    cbn [app find_by_id item_ids] in *. rewrite Hn in Hout. rewrite Hg. simpl.
    destruct (n =? todo_id) eqn:E.
    + apply Z.eqb_eq in E. subst. simpl in Hout. tauto.
    + rewrite IH; auto; [| simpl in Hout; tauto].
      cbn [List.length]. now rewrite Nat.add_succ_r.
Qed.

Lemma without_id_ids todo_id l :
  forallb has_int_id l = true -> without_id todo_id l = Ok (drop_id todo_id l).
Proof.
  induction l as [|t l IH]; intros Hl; [reflexivity|].
  cbn [forallb] in Hl. apply andb_true_iff in Hl. destruct Hl as [Ht Hl].
  destruct (has_int_id_getitem t Ht) as (n & Hn & Hg).
  cbn [without_id]. rewrite Hg. simpl. rewrite (IH Hl). simpl.
  rewrite Hn. reflexivity.
Qed.

Lemma dict_set_again k v d : dict_set k v (dict_set k v d) = dict_set k v d.
Proof.
  induction d as [|[k0 v0] d IH]; simpl.
  - now rewrite String.eqb_refl.
  - destruct (String.eqb k k0) eqn:E; simpl.
    + now rewrite String.eqb_refl.
    + now rewrite E, IH.
Qed.

Lemma dict_set_present_value k v d :
  dict_lookup k d = Some v -> dict_set k v d = d.
Proof.
  induction d as [|[k0 v0] d IH]; simpl; [discriminate|].
  destruct (String.eqb k k0) eqn:E.
  - apply String.eqb_eq in E. subst. now intros [= ->].
  - intros H. now rewrite IH.
Qed.

Lemma dict_set_twice k v v' d :
  dict_set k v' (dict_set k v d) = dict_set k v' d.
Proof.
  induction d as [|[k0 v0] d IH]; simpl.
  - now rewrite String.eqb_refl.
  - destruct (String.eqb k k0) eqn:E; simpl.
    + now rewrite String.eqb_refl.
    + now rewrite E, IH.
Qed.

(** ** The tools of [todo_graph.py], further *)

Section MoreTools.
Context {lib : PyLib}.

(** X1. On a store of items [create_todo_tool] always succeeds: it appends
    one item behind the others, which stay as they are, with the given text
    and timestamp, not completed, under an id above every id of the store,
    and returns that item. *)
Theorem create_appends_item (f : file) (l : list pyval) (text now : string) :
  store_of f = PList l -> forallb is_item l = true ->
  exists n,
    (forall x, In x (item_ids l) -> x < n)
    /\ fst (create_todo_tool text now f)
       = Ok (PDict [("success", PBool true);
                    ("todo", to_dict {| id := n; text := text;
                                        completed := false;
                                        created_at := now |});
                    ("message", PStr ("Created todo: " ++ text))])
    /\ store_of (snd (create_todo_tool text now f))
       = PList (l ++ [to_dict {| id := n; text := text; completed := false;
                                 created_at := now |}]).
Proof.
  intros Hs Hl. exists (next_id_of (item_ids l)).
  rewrite (create_items f l text now Hs Hl). cbn [fst snd].
  split; [intros x Hx; now apply next_id_of_above|].
  split; [reflexivity|].
  apply store_of_saved, items_wf.
  rewrite forallb_items_app, Hl. reflexivity.
Qed.

(** X2. On a store of items, creating an item and then deleting the id the
    create returned leaves the store as it was before the create. *)
Theorem create_then_delete_restores (f : file) (l : list pyval)
    (text now : string) :
  store_of f = PList l -> forallb is_item l = true ->
  exists n,
    created_id (fst (create_todo_tool text now f)) = Some n
    /\ store_of (snd (delete_todo_tool n (snd (create_todo_tool text now f))))
       = PList l.
Proof.
  intros Hs Hl. exists (next_id_of (item_ids l)).
  rewrite (create_items f l text now Hs Hl). cbn [fst snd].
  split; [reflexivity|].
  set (new := new_item l text now).
  assert (Hl' : forallb is_item (l ++ [to_dict new]) = true)
    by (rewrite forallb_items_app, Hl; reflexivity).
  assert (Hout : ~ In (next_id_of (item_ids l)) (item_ids l))
    by (intros Hin; apply next_id_of_above in Hin; lia).
  destruct (delete_present (Some (json_dumps (PList (l ++ [to_dict new]))))
              l [("id", PInt (next_id_of (item_ids l))); ("text", PStr text);
                 ("completed", PBool false); ("created_at", PStr now)]
              [] (next_id_of (item_ids l)))
    as (txt & _ & ->); auto.
  - now apply store_of_saved, items_wf.
  - cbn [snd]. rewrite store_of_saved.
    + f_equal. rewrite drop_id_app, drop_id_unknown by assumption.
      unfold drop_id. simpl. rewrite Z.eqb_refl. simpl. apply List.app_nil_r.
    + apply items_wf, drop_id_items, Hl'.
Qed.

(** X3. On a store of items that has the id, [delete_todo_tool] succeeds,
    names the text of the first item with the id in its message, and saves
    the store without every item of that id: an item stays exactly when its
    id differs, and the items that stay keep their order. *)
Theorem delete_removes_the_id (f : file) (l : list pyval) (todo_id : Z) :
  store_of f = PList l -> forallb is_item l = true ->
  In todo_id (item_ids l) ->
  exists l1 d l2 text,
    l = l1 ++ PDict d :: l2
    /\ ~ In todo_id (item_ids l1)
    /\ item_id (PDict d) = Some todo_id
    /\ dict_lookup "text" d = Some (PStr text)
    /\ fst (delete_todo_tool todo_id f)
       = Ok (PDict [("success", PBool true);
                    ("message", PStr ("Deleted todo: " ++ text))])
    /\ store_of (snd (delete_todo_tool todo_id f))
       = PList (filter (fun t => match item_id t with
                                 | Some n => negb (n =? todo_id)
                                 | None => true
                                 end) l).
Proof.
  intros Hs Hl Hin.
  destruct (present_item l todo_id Hl Hin) as (l1 & d & l2 & -> & Hid & Hout).
  destruct (delete_present f l1 d l2 todo_id Hs Hl Hid Hout) as (text & Ht & ->).
  exists l1, d, l2, text. cbn [fst snd]. repeat split; auto.
  apply store_of_saved, items_wf, drop_id_items, Hl.
Qed.

(** X4. On a store of items without the id, [delete_todo_tool] returns the
    not-found result and does not write the file. *)
Theorem delete_unknown_id (f : file) (l : list pyval) (todo_id : Z) :
  store_of f = PList l -> forallb is_item l = true ->
  ~ In todo_id (item_ids l) ->
  delete_todo_tool todo_id f = (Ok (not_found todo_id), f)
  /\ py_getitem (not_found todo_id) "success" = Ok (PBool false).
Proof.
  intros Hs Hl Hout. split; [|reflexivity]. now apply delete_absent with l.
Qed.

(** X5. On a store of items that has the id, [complete_todo_tool] sets
    ["completed"] to true on the first item with the id and changes nothing
    else: the other keys of the item, the order of its keys, and the items
    before and behind it stay; the message names the text of the item. *)
Theorem complete_sets_flag_only (f : file) (l : list pyval) (todo_id : Z) :
  store_of f = PList l -> forallb is_item l = true ->
  In todo_id (item_ids l) ->
  exists l1 d d' l2 text,
    l = l1 ++ PDict d :: l2
    /\ item_id (PDict d) = Some todo_id
    /\ ~ In todo_id (item_ids l1)
    /\ dict_lookup "text" d = Some (PStr text)
    /\ fst (complete_todo_tool todo_id f)
       = Ok (PDict [("success", PBool true);
                    ("message", PStr ("Marked todo as completed: " ++ text))])
    /\ store_of (snd (complete_todo_tool todo_id f))
       = PList (l1 ++ PDict d' :: l2)
    /\ dict_lookup "completed" d' = Some (PBool true)
    /\ (forall k, k <> "completed" -> dict_lookup k d' = dict_lookup k d)
    /\ map fst d' = map fst d.
Proof.
  intros Hs Hl Hin.
  destruct (present_item l todo_id Hl Hin) as (l1 & d & l2 & -> & Hid & Hout).
  destruct (complete_present f l1 d l2 todo_id Hs Hl Hid Hout)
    as (text & Htext & ->).
  destruct (items_split_wf _ _ _ Hl) as (_ & Ht & _).
  destruct (set_field_item d "completed" (PBool true) Ht eq_refl) as [Hi _];
    [right; eauto|].
  destruct (is_item_inv _ Ht) as (d0 & n & s & b & c & E & _ & _ & _ & Hc & _).
  inversion E; subst d0.
  exists l1, d, (dict_set "completed" (PBool true) d), l2, text.
  cbn [fst snd]. repeat split; auto.
  - apply store_of_saved, items_wf. apply (replace_item_items _ _ _ _ Hl Hi).
  - apply dict_lookup_set_same.
  - intros k Hk. now apply dict_lookup_set_other.
  - apply dict_set_keys_present. apply dict_lookup_In. eauto.
Qed.

(** X6. On a store of items that has the id, completing the id a second
    time gives the same result as the first time and leaves the store as the
    first call left it. *)
Theorem complete_twice (f : file) (l : list pyval) (todo_id : Z) :
  store_of f = PList l -> forallb is_item l = true ->
  In todo_id (item_ids l) ->
  let (r1, f1) := complete_todo_tool todo_id f in
  complete_todo_tool todo_id f1 = (r1, f1).
Proof.
  intros Hs Hl Hin.
  destruct (present_item l todo_id Hl Hin) as (l1 & d & l2 & -> & Hid & Hout).
  destruct (complete_present f l1 d l2 todo_id Hs Hl Hid Hout)
    as (text & Htext & ->).
  destruct (items_split_wf _ _ _ Hl) as (_ & Ht & _).
  destruct (set_field_item d "completed" (PBool true) Ht eq_refl)
    as [Hi Hsame]; [right; eauto|].
  pose proof (replace_item_items _ _ _ _ Hl Hi) as Hl'.
  destruct (complete_present
              (Some (json_dumps
                 (PList (l1 ++ PDict (dict_set "completed" (PBool true) d)
                            :: l2))))
              l1 (dict_set "completed" (PBool true) d) l2 todo_id)
    as (text' & Htext' & ->); auto.
  - now apply store_of_saved, items_wf.
  - now rewrite Hsame.
  - rewrite dict_lookup_set_other in Htext' by discriminate.
    rewrite Htext in Htext'. inversion Htext'; subst text'.
    now rewrite dict_set_again.
Qed.

End MoreTools.

Section ToolEdges.
Context {lib : PyLib}.

Lemma has_int_id_insert l1 d l2 n :
  forallb has_int_id (l1 ++ l2) = true ->
  dict_lookup "id" d = Some (PInt n) ->
  forallb has_int_id (l1 ++ PDict d :: l2) = true
  /\ forallb has_int_id l1 = true
  /\ item_id (PDict d) = Some n
  /\ truthy (PDict d) = true.
Proof.
  rewrite !forallb_app. cbn [forallb]. rewrite !andb_true_iff.
  intros [H1 H2] Hd.
  assert (Hid : item_id (PDict d) = Some n) by (simpl; now rewrite Hd).
  unfold has_int_id. rewrite Hid. repeat split; auto.
  destruct d; [discriminate | reflexivity].
Qed.

(** X7. An element that has the id but no ["text"] key, in a list whose
    other elements have integer ids: [update_todo_tool] raises before it
    writes, so the file stays; [delete_todo_tool] and [complete_todo_tool]
    raise too, but only after [save_todos]: the element is already deleted,
    respectively marked completed, in the file. *)
Theorem missing_text_key (f : file) (l1 l2 : list pyval) (d : dict)
    (todo_id : Z) (new_text : string) :
  store_of f = PList (l1 ++ PDict d :: l2) ->
  forallb has_int_id (l1 ++ l2) = true ->
  ~ In todo_id (item_ids l1) ->
  dict_lookup "id" d = Some (PInt todo_id) ->
  dict_lookup "text" d = None ->
  update_todo_tool todo_id new_text f = (Raised, f)
  /\ delete_todo_tool todo_id f
     = (Raised, Some (json_dumps (PList (drop_id todo_id (l1 ++ l2)))))
  /\ complete_todo_tool todo_id f
     = (Raised,
        Some (json_dumps
                (PList (l1 ++ PDict (dict_set "completed" (PBool true) d)
                           :: l2)))).
Proof.
  intros Hs Hl Hout Hd Htext.
  destruct (has_int_id_insert l1 d l2 todo_id Hl Hd) as (Hall & H1 & Hid & Htr).
  pose proof (find_by_id_present_ids todo_id l1 (PDict d) l2 0%nat H1 Hid Hout)
    as Hfind.
  split; [|split].
  - unfold update_todo_tool, bind, lift, ret. rewrite load_todos_eq, Hs.
    cbn [py_iter]. rewrite Hfind, Htr. cbn [negb py_getitem].
    now rewrite Htext.
  - unfold delete_todo_tool, bind, lift, ret, save_todos.
    rewrite load_todos_eq, Hs. cbn [py_iter]. rewrite Hfind, Htr.
    cbn [negb]. rewrite (without_id_ids todo_id _ Hall).
    cbn [py_getitem]. rewrite Htext. do 4 f_equal.
    rewrite !drop_id_app. f_equal. unfold drop_id at 1. cbn [filter].
    rewrite Hid, Z.eqb_refl. reflexivity.
  - unfold complete_todo_tool, bind, lift, ret, save_todos.
    rewrite load_todos_eq, Hs. cbn [py_iter]. rewrite Hfind, Htr.
    cbn [negb py_setitem py_getitem write_back Nat.add].
    rewrite list_set_middle.
    rewrite dict_lookup_set_other by discriminate. now rewrite Htext.
Qed.

Lemma found_in_list todos items todo_id i t :
  py_iter todos = Ok items ->
  find_by_id todo_id 0 items = Ok (Some (i, t)) ->
  exists l, todos = PList l.
Proof.
  intros Hi Hf.
  destruct (find_by_id_found _ _ _ _ _ Hf) as (l1 & l2 & d & -> & _ & ->).
  assert (Hin : In (PDict d) (l1 ++ PDict d :: l2))
    by (apply in_or_app; right; now left).
  destruct todos as [| | |s|l|d0]; try discriminate Hi; [| eauto |].
  - simpl in Hi. inversion Hi as [E]. rewrite <- E in Hin. exfalso.
    clear - Hin. induction s as [|c s IH]; simpl in Hin; [tauto|].
    destruct Hin as [H|H]; [discriminate | auto].
  - simpl in Hi. inversion Hi as [E]. rewrite <- E in Hin. exfalso.
    apply in_map_iff in Hin. destruct Hin as (kv & H & _). discriminate.
Qed.

(** X8. Whatever the file holds, a tool leaves the file untouched or leaves
    the text of a JSON array in it: no tool writes anything but a list. *)
Theorem tools_write_lists_only (c : command) (f : file) :
  snd (run_tool c f) = f
  \/ exists l, snd (run_tool c f) = Some (json_dumps (PList l)).
Proof.
  destruct c as [text now|todo_id|todo_id new_text|todo_id| |]; cbn [run_tool].
  - destruct (create_outcome text now f) as [E|(l & n & _ & _ & E)];
      rewrite E; cbn [snd]; eauto.
  - unfold delete_todo_tool, bind, lift, ret, save_todos.
    rewrite load_todos_eq.
    destruct (py_iter (store_of f)) as [items|]; cbn [snd]; auto.
    destruct (find_by_id todo_id 0 items) as [[[i todo]|]|]; cbn [snd]; auto.
    destruct (truthy todo); cbn [negb snd]; auto.
    destruct (without_id todo_id items) as [kept|]; cbn [snd]; auto.
    right. exists kept. destruct (py_getitem todo "text"); reflexivity.
  - unfold update_todo_tool, bind, lift, ret, save_todos.
    rewrite load_todos_eq.
    destruct (py_iter (store_of f)) as [items|] eqn:Ei; cbn [snd]; auto.
    destruct (find_by_id todo_id 0 items) as [[[i todo]|]|] eqn:Ef;
      cbn [snd]; auto.
    destruct (found_in_list _ _ _ _ _ Ei Ef) as [l El].
    destruct (truthy todo); cbn [negb snd]; auto.
    destruct (py_getitem todo "text"); cbn [snd]; auto.
    destruct (py_setitem todo "text" (PStr new_text)) as [todo'|];
      cbn [snd]; auto.
    right. rewrite El. cbn [write_back]. eauto.
  - unfold complete_todo_tool, bind, lift, ret, save_todos.
    rewrite load_todos_eq.
    destruct (py_iter (store_of f)) as [items|] eqn:Ei; cbn [snd]; auto.
    destruct (find_by_id todo_id 0 items) as [[[i todo]|]|] eqn:Ef;
      cbn [snd]; auto.
    destruct (found_in_list _ _ _ _ _ Ei Ef) as [l El].
    destruct (truthy todo); cbn [negb snd]; auto.
    destruct (py_setitem todo "completed" (PBool true)) as [todo'|];
      cbn [snd]; auto.
    right. rewrite El. cbn [write_back].
    destruct (py_getitem todo' "text"); cbn [snd]; eauto.
  - right. exists []. reflexivity.
  - left. unfold list_todos_tool, bind, lift, ret. rewrite load_todos_eq.
    destruct (py_len (store_of f)); reflexivity.
Qed.

(** X9. Whatever the file holds, after [delete_all_todos_tool] the next
    [create_todo_tool] succeeds, assigns the id 1 and leaves a store with
    that one item. *)
Theorem create_after_delete_all (f : file) (text now : string) :
  let f1 := snd (delete_all_todos_tool f) in
  fst (create_todo_tool text now f1)
  = Ok (PDict [("success", PBool true);
               ("todo", to_dict {| id := 1; text := text; completed := false;
                                   created_at := now |});
               ("message", PStr ("Created todo: " ++ text))])
  /\ store_of (snd (create_todo_tool text now f1))
     = PList [to_dict {| id := 1; text := text; completed := false;
                         created_at := now |}].
Proof.
  unfold delete_all_todos_tool, bind, ret, save_todos. cbn [snd].
  assert (Hs : store_of (Some (json_dumps (PList []))) = PList [])
    by now apply store_of_saved.
  rewrite (create_items _ [] text now Hs eq_refl). cbn [fst snd].
  split; [reflexivity|]. now apply store_of_saved.
Qed.

End ToolEdges.

(** ** When [get_next_id] raises *)

Lemma py_max_from_all_numeric vs : forall m mx k,
  py_max_from m vs = Ok mx -> numeric mx = Some k ->
  numeric m <> None /\ Forall (fun v => numeric v <> None) vs.
Proof.
  induction vs as [|v vs IH]; intros m mx k Hmax Hk; simpl in Hmax.
  - inversion Hmax; subst. split; [congruence | constructor].
  - destruct (py_gt v m) as [g|] eqn:Eg; [|discriminate]. simpl in Hmax.
    destruct (IH _ _ _ Hmax Hk) as [Hm' Hrest].
    destruct (py_gt_numeric v m g Eg) as (a & b & Ea & Eb & _).
    { destruct g; [left | right]; exact Hm'. }
    split; [congruence|]. constructor; [congruence | assumption].
Qed.

Lemma py_max_from_attained vs : forall m mx,
  py_max_from m vs = Ok mx -> mx = m \/ In mx vs.
Proof.
  induction vs as [|v vs IH]; intros m mx Hmax; simpl in Hmax.
  - inversion Hmax. now left.
  - destruct (py_gt v m) as [g|]; [|discriminate]. simpl in Hmax.
    destruct (IH _ _ Hmax) as [->|Hin]; [|right; now right].
    destruct g; [right; now left | now left].
Qed.

Lemma py_max_from_numeric vs : forall m a,
  numeric m = Some a -> Forall (fun v => numeric v <> None) vs ->
  exists mx k, py_max_from m vs = Ok mx /\ numeric mx = Some k.
Proof.
  induction vs as [|v vs IH]; intros m a Hm Hall; simpl.
  - eauto.
  - inversion Hall as [|? ? Hv Hrest]; subst.
    destruct (numeric v) as [b|] eqn:Eb; [|congruence].
    assert (Hg : py_gt v m = Ok (a <? b)).
    { destruct v as [|bv|nv| | |]; try discriminate Eb;
        destruct m as [|bm|nm| | |]; try discriminate Hm;
        simpl in *; inversion Eb; inversion Hm; reflexivity. }
    rewrite Hg. simpl. destruct (a <? b); eauto.
Qed.

Lemma res_map_id_or_zero l :
  (Exists (fun t => forall d, t <> PDict d) l
   /\ res_map (fun todo => py_get todo "id" (PInt 0)) l = Raised)
  \/ exists vs,
       res_map (fun todo => py_get todo "id" (PInt 0)) l = Ok vs
       /\ map numeric vs = map id_or_zero l.
Proof.
  induction l as [|t l IH]; simpl.
  - right. exists []. auto.
  - destruct t as [| | | | |d];
      try (left; split; [apply Exists_cons_hd; discriminate | reflexivity]).
    simpl. destruct IH as [[Hex Hr]|(vs & Hr & Hn)]; rewrite Hr.
    + left. split; [now apply Exists_cons_tl|].
      destruct (dict_lookup "id" d); reflexivity.
    + right. destruct (dict_lookup "id" d) as [x|]; simpl;
        eexists; (split; [reflexivity|]); simpl; now rewrite Hn.
Qed.

Lemma not_dict_no_id t : (forall d, t <> PDict d) -> id_or_zero t = None.
Proof. destruct t; try reflexivity. intros H. exfalso. now apply (H d). Qed.

Section NextIdEdges.
Context {lib : PyLib}.

(** X10. On a list that is not empty [get_next_id] returns [m + 1], where
    [m] is the largest of the numbers of its elements (the integer or
    boolean under ["id"], 0 for a dictionary without the key): [m] is the
    number of one of the elements and no element has a number above it.
    That is so when every element has such a number; the call raises as
    soon as one element is not a dictionary or has an id that is not a
    number. *)
Theorem get_next_id_or_raise (l : list pyval) :
  l <> [] ->
  (Forall (fun t => id_or_zero t <> None) l ->
   exists m,
     get_next_id (PList l) = Ok (PInt (m + 1))
     /\ (exists t, In t l /\ id_or_zero t = Some m)
     /\ (forall t k, In t l -> id_or_zero t = Some k -> k <= m))
  /\ (Exists (fun t => id_or_zero t = None) l ->
      get_next_id (PList l) = Raised).
Proof.
  intros Hne. destruct l as [|t0 l]; [contradiction|].
  unfold get_next_id. cbn [truthy negb py_iter res_bind].
  destruct (res_map_id_or_zero (t0 :: l)) as [[Hex Hr]|(vs & Hr & Hn)];
    rewrite Hr; cbn [res_bind].
  - split; [|reflexivity]. intros Hall. exfalso.
    apply Exists_exists in Hex. destruct Hex as (t & Hin & Ht).
    rewrite Forall_forall in Hall. apply (Hall t Hin). now apply not_dict_no_id.
  - destruct vs as [|v vs]; [discriminate Hn|].
    cbn [map] in Hn. inversion Hn as [[Hv Hvs]]. cbn [py_max]. split.
    + intros Hall. inversion Hall as [|? ? H0 Hrest]; subst.
      assert (Hnum : Forall (fun v => numeric v <> None) vs).
      { clear - Hvs Hrest. revert l Hvs Hrest.
        induction vs as [|x vs IH]; intros l Hvs Hrest; [constructor|].
        destruct l as [|t l]; [discriminate|]. inversion Hvs.
        inversion Hrest; subst. constructor; [congruence | eauto]. }
      destruct (numeric v) as [a|] eqn:Ea; [|congruence].
      destruct (py_max_from_numeric vs v a Ea Hnum) as (mx & k & Hmax & Hk).
      rewrite Hmax. cbn [res_bind]. unfold py_add_int. rewrite Hk.
      exists k. split; [reflexivity|]. split.
      { assert (Hink : In (Some k) (map id_or_zero (t0 :: l))).
        { cbn [map]. rewrite <- Hv, <- Hvs, <- Hk.
          destruct (py_max_from_attained vs v mx Hmax) as [->|Hin];
            [now left | right; now apply in_map]. }
        apply in_map_iff in Hink. destruct Hink as (t & Ht & Hin). eauto. }
      destruct (py_max_from_bounds vs v mx k Hmax Hk) as [Hb0 Hbs].
      intros t k' [<-|Hin] Hk'.
      * apply Hb0. congruence.
      * assert (Hink : In (Some k') (map numeric vs)).
        { rewrite Hvs, <- Hk'. now apply in_map. }
        apply in_map_iff in Hink. destruct Hink as (x & Hx & Hxin). eauto.
    + intros Hex.
      destruct (py_max_from v vs) as [mx|] eqn:Emax; [|reflexivity].
      cbn [res_bind]. unfold py_add_int.
      destruct (numeric mx) as [k|] eqn:Ek; [|reflexivity]. exfalso.
      destruct (py_max_from_all_numeric vs v mx k Emax Ek) as [Hnv Hnvs].
      apply Exists_exists in Hex. destruct Hex as (t & Hin & Ht).
      destruct Hin as [<-|Hin]; [congruence|].
      assert (Hink : In None (map numeric vs)).
      { rewrite Hvs, <- Ht. now apply in_map. }
      apply in_map_iff in Hink. destruct Hink as (x & Hx & Hxin).
      rewrite Forall_forall in Hnvs. now apply (Hnvs x Hxin).
Qed.

End NextIdEdges.

(** ** The result of a turn, further *)

Section MoreNormalizer.
Context {lib : PyLib}.

Lemma scan_messages_skip newer : forall rest,
  forallb (fun m => negb (gives_result m)) newer = true ->
  scan_messages (rev newer ++ rest) = scan_messages rest.
Proof.
  induction newer as [|a newer IH]; intros rest Hn; [reflexivity|].
  cbn [forallb] in Hn. apply andb_true_iff in Hn. destruct Hn as [Ha Hn].
  cbn [rev]. rewrite <- List.app_assoc. rewrite (IH _ Hn).
  cbn [app scan_messages]. unfold gives_result in Ha.
  destruct (msg_class a); try reflexivity.
  destruct (scan_tool_result (content a)); [discriminate | reflexivity].
Qed.

Lemma scan_messages_last older m newer r :
  msg_class m = ToolMessage -> scan_tool_result (content m) = Some r ->
  forallb (fun m => negb (gives_result m)) newer = true ->
  scan_messages (rev (older ++ m :: newer)) = Some r.
Proof.
  intros Hc Hr Hn. rewrite List.rev_app_distr. cbn [rev].
  rewrite <- List.app_assoc. rewrite (scan_messages_skip newer _ Hn).
  cbn [app scan_messages]. now rewrite Hc, Hr.
Qed.

Lemma scan_messages_none msgs :
  forallb (fun m => negb (gives_result m)) msgs = true ->
  scan_messages (rev msgs) = None.
Proof.
  intros H. rewrite <- (List.app_nil_r (rev msgs)).
  now rewrite (scan_messages_skip msgs [] H).
Qed.

Lemma success_of_wrapped s : success_of (wrapped s) = true.
Proof. reflexivity. Qed.

(** X11. [process_command_with_graph] never returns a result that reports a
    failure: on a state without messages it raises, and on every other state
    it returns a dictionary whose [success] is true in Python's sense. *)
Theorem turn_result_never_fails (msgs : list message) :
  (msgs = [] -> process_command_with_graph msgs = Raised)
  /\ (msgs <> [] ->
      exists r, process_command_with_graph msgs = Ok r
                /\ success_of r = true).
Proof.
  split; [intros ->; reflexivity|]. intros Hne.
  unfold process_command_with_graph.
  assert (Hlast : exists final older, rev msgs = final :: older).
  { destruct (rev msgs) as [|final older] eqn:E; [|eauto].
    apply (f_equal (@rev message)) in E. rewrite rev_involutive in E.
    now subst. }
  destruct Hlast as (final & older & ->).
  assert (Hfall : exists r,
            match content final with
            | PStr s => Ok (PDict [("success", PBool true); ("message", PStr s)])
            | c => Ok (PDict [("success", PBool true);
                              ("message", PStr (py_str container_repr c))])
            end = Ok r /\ success_of r = true)
    by (destruct (content final); eauto).
  destruct (scan_messages (final :: older)) as [r|] eqn:Es.
  - destruct (scan_messages_dict _ _ Es) as [d ->]. cbn [py_get].
    destruct (dict_lookup "success" d) as [v|] eqn:Ev; cbn [res_bind].
    + destruct (truthy v) eqn:Et; cbn [negb]; [|exact Hfall].
      exists (PDict d). split; [reflexivity|]. simpl. now rewrite Ev.
    + exact Hfall.
  - exact Hfall.
Qed.

(** X12. The result of the turn is the result of the last tool message that
    gives one, unchanged, when that result reports success; tool messages
    behind it whose content gives no result (JSON text that is not an
    object, content that is neither a string nor a dictionary) and messages
    of other classes do not count. *)
Theorem last_tool_result_returned (older newer : list message) (m : message)
    (r : pyval) :
  msg_class m = ToolMessage ->
  scan_tool_result (content m) = Some r ->
  forallb (fun m => negb (gives_result m)) newer = true ->
  success_of r = true ->
  process_command_with_graph (older ++ m :: newer) = Ok r.
Proof.
  intros Hc Hr Hn Hs. apply successful_tool_result_returned; [|assumption].
  now apply scan_messages_last.
Qed.

(** X13. A tool message whose content is a text that [json.loads] rejects,
    such as the text of an error, is turned into a success: when it is the
    last tool message that gives a result, the turn returns
    [{success: True, message: <that text>}]. *)
Theorem unparseable_tool_text_is_success (older newer : list message)
    (s : string) :
  json_loads s = None ->
  forallb (fun m => negb (gives_result m)) newer = true ->
  process_command_with_graph
    (older ++ {| msg_class := ToolMessage; content := PStr s |} :: newer)
  = Ok (PDict [("success", PBool true); ("message", PStr s)]).
Proof.
  intros Hs Hn. apply successful_tool_result_returned; [|reflexivity].
  apply scan_messages_last; auto.
  cbn [content scan_tool_result]. now rewrite Hs.
Qed.

(** X14. When no message of the state is a tool message that gives a
    result, the turn returns the text of the final message wrapped as a
    success. *)
Theorem no_tool_result_wraps_final (older : list message)
    (cls : message_class) (s : string) :
  forallb (fun m => negb (gives_result m))
    (older ++ [{| msg_class := cls; content := PStr s |}]) = true ->
  process_command_with_graph
    (older ++ [{| msg_class := cls; content := PStr s |}])
  = Ok (PDict [("success", PBool true); ("message", PStr s)]).
Proof.
  intros H. apply no_tool_result_falls_back. now apply scan_messages_none.
Qed.

End MoreNormalizer.

(** ** The REST handlers and the tools *)

Section ApiFacts.
Context {lib : PyLib}.

(** X15. Whatever the file holds, [POST /todos] and [create_todo_tool]
    do the same to the file, and the handler answers with the item the tool
    reports under ["todo"]; one raises exactly when the other does. *)
Theorem api_create_as_tool (f : file) (text now : string) :
  snd (Api.create_todo text now f) = snd (create_todo_tool text now f)
  /\ match fst (create_todo_tool text now f) with
     | Ok r =>
         exists t,
           py_getitem r "todo" = Ok t
           /\ fst (Api.create_todo text now f) = Ok (Response t)
     | Raised => fst (Api.create_todo text now f) = Raised
     end.
Proof.
  unfold Api.create_todo, create_todo_tool, bind, lift, ret, save_todos,
    Api.save_todos.
  rewrite backend_load_todos_eq, load_todos_eq, backend_get_next_id_eq.
  destruct (get_next_id (store_of f)) as [n|]; cbn [fst snd]; auto.
  destruct (py_append (store_of f) _) as [todos|]; cbn [fst snd]; auto.
  split; [reflexivity|]. eexists. split; reflexivity.
Qed.

(** X16. Whatever the file holds, [DELETE /todos/{id}] and
    [delete_todo_tool] leave the same file, and the handler raises the 404
    exactly when the tool returns its not-found result. *)
Theorem api_delete_as_tool (f : file) (todo_id : Z) :
  snd (Api.delete_todo todo_id f) = snd (delete_todo_tool todo_id f)
  /\ (fst (Api.delete_todo todo_id f) = Ok (HTTPException 404)
      <-> fst (delete_todo_tool todo_id f) = Ok (not_found todo_id)).
Proof.
  unfold Api.delete_todo, delete_todo_tool, bind, lift, ret, save_todos,
    Api.save_todos.
  rewrite backend_load_todos_eq, load_todos_eq.
  destruct (py_iter (store_of f)) as [items|]; cbn [fst snd];
    [|split; [reflexivity | split; discriminate]].
  destruct (find_by_id todo_id 0 items) as [[[i todo]|]|]; cbn [fst snd];
    [| split; [reflexivity | split; reflexivity]
     | split; [reflexivity | split; discriminate]].
  destruct (truthy todo); cbn [negb fst snd];
    [|split; [reflexivity | split; reflexivity]].
  destruct (without_id todo_id items) as [kept|]; cbn [fst snd];
    [|split; [reflexivity | split; discriminate]].
  destruct (py_getitem todo "text"); cbn [fst snd];
    (split; [reflexivity | split; discriminate]).
Qed.

(** X17. [GET /todos/{id}] never writes the file; on a store of items it
    answers with the first item that has the id and raises the 404 when no
    item has it. *)
Theorem api_get_todo_finds_first (f : file) (l : list pyval) (todo_id : Z) :
  snd (Api.get_todo todo_id f) = f
  /\ (store_of f = PList l -> forallb is_item l = true ->
      (~ In todo_id (item_ids l) ->
       fst (Api.get_todo todo_id f) = Ok (HTTPException 404))
      /\ (forall l1 t l2,
            l = l1 ++ t :: l2 -> item_id t = Some todo_id ->
            ~ In todo_id (item_ids l1) ->
            fst (Api.get_todo todo_id f) = Ok (Response t))).
Proof.
  split.
  - unfold Api.get_todo, bind, lift, ret.
    rewrite backend_load_todos_eq, load_todos_eq.
    destruct (py_iter (store_of f)) as [items|]; cbn [snd]; auto.
    destruct (find_by_id todo_id 0 items) as [[[i todo]|]|]; cbn [snd]; auto.
    destruct (truthy todo); reflexivity.
  - intros Hs Hl. unfold Api.get_todo, bind, lift, ret.
    rewrite backend_load_todos_eq, load_todos_eq, Hs. cbn [py_iter]. split.
    + intros Hout. now rewrite (find_by_id_absent todo_id l 0%nat Hl Hout).
    + intros l1 t l2 -> Hid Hout.
      destruct (items_split_wf _ _ _ Hl) as (H1 & Ht & _).
      rewrite (find_by_id_present todo_id l1 t l2 0%nat H1 Ht Hout Hid).
      now rewrite (is_item_truthy _ Ht).
Qed.

Lemma put_fields_item text completed d :
  is_item (PDict d) = true ->
  is_item (PDict (Api.put_fields text completed d)) = true
  /\ item_id (PDict (Api.put_fields text completed d)) = item_id (PDict d).
Proof.
  intros Hd. unfold Api.put_fields.
  assert (H1 : is_item (PDict match text with
                              | Some s => dict_set "text" (PStr s) d
                              | None => d
                              end) = true
               /\ item_id (PDict match text with
                                 | Some s => dict_set "text" (PStr s) d
                                 | None => d
                                 end) = item_id (PDict d)).
  { destruct text as [s|]; [|auto].
    apply set_field_item; auto. left. eauto. }
  destruct H1 as [Hi Hid]. destruct completed as [b|]; [|auto].
  destruct (set_field_item _ "completed" (PBool b) Hi eq_refl) as [Hi' Hid'];
    [right; eauto|].
  split; [assumption | exact (eq_trans Hid' Hid)].
Qed.

Lemma api_update_present f l1 d l2 todo_id text completed :
  store_of f = PList (l1 ++ PDict d :: l2) ->
  forallb is_item (l1 ++ PDict d :: l2) = true ->
  item_id (PDict d) = Some todo_id -> ~ In todo_id (item_ids l1) ->
  Api.update_todo todo_id text completed f
  = (Ok (Response (PDict (Api.put_fields text completed d))),
     Some (json_dumps
             (PList (l1 ++ PDict (Api.put_fields text completed d) :: l2)))).
Proof.
  intros Hs Hl Hid Hout.
  destruct (items_split_wf _ _ _ Hl) as (H1 & Ht & H2).
  unfold Api.update_todo, bind, lift, ret, Api.save_todos.
  rewrite backend_load_todos_eq, load_todos_eq, Hs. cbn [py_iter].
  rewrite (find_by_id_present todo_id l1 (PDict d) l2 0%nat H1 Ht Hout Hid).
  rewrite (is_item_truthy _ Ht). cbn [negb].
  unfold Api.put_fields.
  destruct text as [s|]; destruct completed as [b|];
    cbn [py_setitem write_back Nat.add]; rewrite list_set_middle; reflexivity.
Qed.

(** X18. On a store of items [PUT /todos/{id}] raises the 404 and does not
    write when no item has the id; otherwise it answers with the first item
    that has the id, where it sets the fields the request gives and keeps
    the ones it leaves out, and every other key, the order of the keys and
    the other items stay as they are. *)
Theorem api_update_sets_given_fields (f : file) (l : list pyval)
    (todo_id : Z) (text : option string) (completed : option bool) :
  store_of f = PList l -> forallb is_item l = true ->
  (~ In todo_id (item_ids l) ->
   Api.update_todo todo_id text completed f = (Ok (HTTPException 404), f))
  /\ (In todo_id (item_ids l) ->
      exists l1 d d' l2,
        l = l1 ++ PDict d :: l2
        /\ item_id (PDict d) = Some todo_id
        /\ ~ In todo_id (item_ids l1)
        /\ fst (Api.update_todo todo_id text completed f)
           = Ok (Response (PDict d'))
        /\ store_of (snd (Api.update_todo todo_id text completed f))
           = PList (l1 ++ PDict d' :: l2)
        /\ dict_lookup "text" d'
           = match text with
             | Some s => Some (PStr s)
             | None => dict_lookup "text" d
             end
        /\ dict_lookup "completed" d'
           = match completed with
             | Some b => Some (PBool b)
             | None => dict_lookup "completed" d
             end
        /\ (forall k, k <> "text" -> k <> "completed" ->
                      dict_lookup k d' = dict_lookup k d)
        /\ map fst d' = map fst d).
Proof.
  intros Hs Hl. split.
  - intros Hout. unfold Api.update_todo, bind, lift, ret.
    rewrite backend_load_todos_eq, load_todos_eq, Hs. cbn [py_iter].
    now rewrite (find_by_id_absent todo_id l 0%nat Hl Hout).
  - intros Hin.
    destruct (present_item l todo_id Hl Hin) as (l1 & d & l2 & -> & Hid & Hout).
    destruct (items_split_wf _ _ _ Hl) as (_ & Ht & _).
    destruct (is_item_inv _ Ht)
      as (d0 & n & s & b & c & E & _ & _ & Htext & Hcomp & _).
    inversion E; subst d0.
    destruct (put_fields_item text completed d Ht) as [Hi _].
    exists l1, d, (Api.put_fields text completed d), l2.
    rewrite (api_update_present f l1 d l2 todo_id text completed Hs Hl Hid Hout).
    cbn [fst snd]. repeat split; auto.
    + apply store_of_saved, items_wf.
      apply (replace_item_items _ _ _ _ Hl Hi).
    + unfold Api.put_fields. destruct text as [s'|]; destruct completed as [b'|];
        rewrite ?(dict_lookup_set_other "completed") by discriminate;
        rewrite ?dict_lookup_set_same; reflexivity.
    + unfold Api.put_fields. destruct text as [s'|]; destruct completed as [b'|];
        rewrite ?dict_lookup_set_same;
        rewrite ?(dict_lookup_set_other "text") by discriminate; reflexivity.
    + intros k Hk1 Hk2. unfold Api.put_fields.
      destruct text as [s'|]; destruct completed as [b'|];
        rewrite ?dict_lookup_set_other by assumption; reflexivity.
    + unfold Api.put_fields.
      assert (Hkt : In "text" (map fst d))
        by (apply dict_lookup_In; eauto).
      assert (Hkc : In "completed" (map fst d))
        by (apply dict_lookup_In; eauto).
      destruct text as [s'|]; destruct completed as [b'|];
        rewrite ?dict_set_keys_present; auto;
        rewrite ?dict_set_keys_present; auto.
Qed.

(** X19. On a store of items, completing a pending item with
    [complete_todo_tool] and then sending [PUT /todos/{id}] with
    [completed = false] brings the store back to what it was. *)
Theorem put_undoes_complete (f : file) (l l1 l2 : list pyval) (d : dict)
    (todo_id : Z) :
  store_of f = PList l -> forallb is_item l = true ->
  l = l1 ++ PDict d :: l2 ->
  item_id (PDict d) = Some todo_id -> ~ In todo_id (item_ids l1) ->
  dict_lookup "completed" d = Some (PBool false) ->
  store_of (snd (Api.update_todo todo_id None (Some false)
                   (snd (complete_todo_tool todo_id f))))
  = PList l.
Proof.
  intros Hs Hl -> Hid Hout Hpending.
  destruct (complete_present f l1 d l2 todo_id Hs Hl Hid Hout)
    as (text & _ & ->). cbn [snd].
  destruct (items_split_wf _ _ _ Hl) as (_ & Ht & _).
  destruct (set_field_item d "completed" (PBool true) Ht eq_refl)
    as [Hi Hsame]; [right; eauto|].
  pose proof (replace_item_items _ _ _ _ Hl Hi) as Hl'.
  rewrite (api_update_present _ l1 (dict_set "completed" (PBool true) d) l2
             todo_id None (Some false)); auto.
  - cbn [snd Api.put_fields]. rewrite dict_set_twice.
    rewrite (dict_set_present_value _ _ _ Hpending).
    rewrite store_of_saved; [reflexivity | now apply items_wf].
  - now apply store_of_saved, items_wf.
  - now rewrite Hsame.
Qed.

End ApiFacts.

(** ** The label of a command *)

Lemma lower_app a b : Api.lower (a ++ b) = (Api.lower a ++ Api.lower b)%string.
Proof. induction a as [|c a IH]; simpl; [reflexivity|]. now rewrite IH. Qed.

Lemma prefix_app_l n : forall x b,
  String.prefix n x = true -> String.prefix n (x ++ b) = true.
Proof.
  induction n as [|a n IH]; intros x b H; [destruct (x ++ b)%string; reflexivity|].
  destruct x as [|c x]; simpl in *; [discriminate|].
  destruct (ascii_dec a c); [now apply IH | discriminate].
Qed.

Lemma prefix_same n : String.prefix n n = true.
Proof.
  induction n as [|a n IH]; simpl; [reflexivity|].
  destruct (ascii_dec a a); [assumption | congruence].
Qed.

Lemma contains_app_r n a b :
  Api.contains n b = true -> Api.contains n (a ++ b) = true.
Proof.
  intros H. induction a as [|c a IH]; [assumption|].
  cbn [append Api.contains]. rewrite IH. apply orb_true_r.
Qed.

Lemma contains_app_l n a b :
  Api.contains n a = true -> Api.contains n (a ++ b) = true.
Proof.
  induction a as [|c a IH]; intros H.
  - cbn [Api.contains] in H. rewrite orb_false_r in H.
    destruct n; [|discriminate].
    destruct (EmptyString ++ b)%string; reflexivity.
  - cbn [Api.contains] in H. cbn [append Api.contains].
    apply orb_true_iff in H. apply orb_true_iff. destruct H as [H|H].
    + left. exact (prefix_app_l n (String c a) b H).
    + right. now apply IH.
Qed.

Lemma contains_same n : Api.contains n n = true.
Proof.
  destruct n as [|a n]; [reflexivity|].
  cbn [Api.contains]. now rewrite prefix_same.
Qed.

Lemma contains_concat sep x ls :
  In x ls -> Api.contains x (String.concat sep ls) = true.
Proof.
  induction ls as [|a ls IH]; intros Hin; [destruct Hin|].
  destruct ls as [|b ls].
  - destruct Hin as [->|[]]. simpl. apply contains_same.
  - change (String.concat sep (a :: b :: ls))
      with (a ++ sep ++ String.concat sep (b :: ls))%string.
    destruct Hin as [->|Hin].
    + apply contains_app_l, contains_same.
    + apply contains_app_r, contains_app_r. now apply IH.
Qed.

Lemma prefix_shorter p q : forall s,
  String.prefix (p ++ q) s = true -> String.prefix p s = true.
Proof.
  induction p as [|a p IH]; intros s H; [destruct s; reflexivity|].
  destruct s as [|c s]; simpl in *; [discriminate|].
  destruct (ascii_dec a c); [now apply IH | discriminate].
Qed.

Lemma contains_shorter p q s :
  Api.contains (p ++ q) s = true -> Api.contains p s = true.
Proof.
  induction s as [|c s IH]; cbn [Api.contains]; intros H;
    apply orb_true_iff in H; apply orb_true_iff; destruct H as [H|H];
    try discriminate; eauto using prefix_shorter.
Qed.

Section Labels.
Context {lib : PyLib}.

(** X20. [process_command] never raises: whatever the turn gave, the
    answer is a dictionary with the five keys, and [todo_id] is [None] in it
    (the code never fills it in).  A result of the turn that is a dictionary
    and reports a failure is handed on as it is, with no action and no todo
    text.  The answer is the error envelope, with the text of the exception
    and not the result of the turn under ["result"], when the turn raised,
    when its result is not a dictionary, and when the result reports success
    with a message that is not a string. *)
Theorem command_answer_shape (turn : Api.outcome pyval) :
  (exists action todo_text result message,
     Api.process_command turn
     = PDict [("action", action); ("todo_id", PNone);
              ("todo_text", todo_text); ("result", result);
              ("message", message)])
  /\ (forall d,
        turn = Api.Returns (PDict d) -> success_of (PDict d) = false ->
        Api.process_command turn
        = PDict [("action", PNone); ("todo_id", PNone);
                 ("todo_text", PNone); ("result", PDict d);
                 ("message", Api.dict_get d "message" (PStr ""))])
  /\ (forall str_e,
        turn = Api.Raises str_e ->
        Api.process_command turn = Api.error_answer str_e)
  /\ (forall result,
        turn = Api.Returns result -> (forall d, result <> PDict d) ->
        Api.process_command turn
        = Api.error_answer (Api.no_attribute result "get"))
  /\ (forall d,
        turn = Api.Returns (PDict d) -> success_of (PDict d) = true ->
        (forall s, Api.dict_get d "message" (PStr "") <> PStr s) ->
        Api.process_command turn
        = Api.error_answer
            (Api.no_attribute (Api.dict_get d "message" (PStr "")) "lower"))
  /\ (forall d s,
        turn = Api.Returns (PDict d) -> success_of (PDict d) = true ->
        Api.dict_get d "message" (PStr "") = PStr s ->
        (forall todo, dict_lookup "todo" d = Some todo ->
                      exists fields, todo = PDict fields) ->
        exists action todo_text,
          Api.process_command turn
          = PDict [("action", action); ("todo_id", PNone);
                   ("todo_text", todo_text); ("result", PDict d);
                   ("message", PStr s)]).
Proof.
  split; [|split; [|split; [|split; [|split]]]].
  - unfold Api.process_command.
    destruct turn as [result|str_e]; cbn [Api.outcome_bind];
      [|unfold Api.error_answer; eauto].
    destruct (Api.try_body result) as [answer|str_e] eqn:E;
      [|unfold Api.error_answer; eauto].
    unfold Api.try_body in E. destruct result as [| | | | |d]; try discriminate E.
    match type of E with
    | Api.outcome_bind ?labels _ = _ => destruct labels as [[a t]|]
    end; cbn [Api.outcome_bind] in E; [|discriminate E].
    inversion E. eauto.
  - intros d -> Hs. unfold Api.process_command, Api.try_body.
    cbn [Api.outcome_bind]. unfold success_of in Hs. unfold Api.dict_get at 1.
    destruct (dict_lookup "success" d) as [v|]; [rewrite Hs|]; reflexivity.
  - intros str_e ->. reflexivity.
  - intros result -> Hd. unfold Api.process_command, Api.try_body.
    cbn [Api.outcome_bind].
    destruct result as [| | | | |d]; try reflexivity.
    exfalso. now apply (Hd d).
  - intros d -> Hs Hm. unfold Api.process_command, Api.try_body.
    cbn [Api.outcome_bind]. unfold success_of in Hs. unfold Api.dict_get at 1.
    destruct (dict_lookup "success" d) as [v|]; [|discriminate Hs].
    rewrite Hs. unfold Api.lower_of.
    destruct (Api.dict_get d "message" (PStr "")) as [| | |s| |];
      try reflexivity.
    exfalso. now apply (Hm s).
  - intros d s -> Hs Hm Htodo. unfold Api.process_command, Api.try_body.
    cbn [Api.outcome_bind]. unfold success_of in Hs. unfold Api.dict_get at 1.
    destruct (dict_lookup "success" d) as [v|]; [|discriminate Hs].
    rewrite Hs, Hm. cbn [Api.lower_of Api.outcome_bind]. unfold Api.classify.
    destruct (Api.contains "created" (Api.lower s)
              || Api.contains "create" (Api.lower s)).
    + destruct (dict_lookup "todo" d) as [todo|] eqn:Et;
        [|cbn [Api.outcome_bind fst snd]; eauto].
      destruct (Htodo todo eq_refl) as [fields ->].
      cbn [Api.get Api.outcome_bind fst snd]. eauto.
    + destruct (Api.contains "deleted" (Api.lower s)
                && Api.contains "all" (Api.lower s));
        [cbn [Api.outcome_bind fst snd]; eauto|].
      destruct (Api.contains "deleted" (Api.lower s));
        [cbn [Api.outcome_bind fst snd]; eauto|].
      destruct (Api.contains "updated" (Api.lower s));
        [cbn [Api.outcome_bind fst snd]; eauto|].
      destruct (Api.contains "completed" (Api.lower s));
        cbn [Api.outcome_bind fst snd]; eauto.
Qed.

(** X21. The results of the tools that carry no text of an item besides the
    one created are labelled as meant: a result of [create_todo_tool] gets
    the action ["create"] and the text of the new todo, the result of
    [delete_all_todos_tool] the action ["delete_all"], a result of
    [list_todos_tool] the action ["list"]. *)
Theorem tool_results_labelled (f : file) (text now : string) :
  (forall r, fst (create_todo_tool text now f) = Ok r ->
     Api.process_command (Api.Returns r)
     = PDict [("action", PStr "create"); ("todo_id", PNone);
              ("todo_text", PStr text); ("result", r);
              ("message", PStr ("Created todo: " ++ text))])
  /\ (exists r, fst (delete_all_todos_tool f) = Ok r
                /\ Api.action_of r = Ok (PStr "delete_all"))
  /\ (forall r, fst (list_todos_tool f) = Ok r ->
        Api.action_of r = Ok (PStr "list")).
Proof.
  split; [|split].
  - intros r Hr.
    destruct (create_outcome text now f) as [E|(l & n & _ & _ & E)];
      rewrite E in Hr; cbn [fst] in Hr; inversion Hr; subst r.
    reflexivity.
  - eexists. split; reflexivity.
  - intros r. unfold list_todos_tool, bind, lift, ret. rewrite load_todos_eq.
    destruct (py_len (store_of f)) as [n|]; cbn [fst]; [|discriminate].
    intros H. inversion H. reflexivity.
Qed.

(** X22. The label follows the text of the item: when that text contains
    "create" in any case, the results of [delete_todo_tool],
    [update_todo_tool] (for the new text) and [complete_todo_tool] are all
    labelled ["create"]. *)
Theorem text_with_create_is_labelled_create (text old_text : string)
    (todo_id : Z) :
  Api.contains "create" (Api.lower text) = true ->
  Api.action_of (Api.deleted_result text) = Ok (PStr "create")
  /\ Api.action_of (Api.updated_result todo_id old_text text)
     = Ok (PStr "create")
  /\ Api.action_of (Api.completed_result text) = Ok (PStr "create").
Proof.
  intros H. unfold Api.action_of, Api.process_command, Api.try_body,
    Api.deleted_result, Api.updated_result, Api.completed_result.
  cbn [Api.outcome_bind Api.dict_get dict_lookup String.eqb Ascii.eqb
       Bool.eqb truthy Api.lower_of]. unfold Api.classify.
  split; [|split].
  - rewrite lower_app, (contains_app_r "create" _ _ H), orb_true_r.
    reflexivity.
  - assert (Hc : Api.contains "create"
                   (Api.lower ("Updated todo " ++ string_of_Z todo_id
                               ++ " from '" ++ old_text ++ "' to '"
                               ++ text ++ "'")) = true).
    { rewrite !lower_app. do 5 apply contains_app_r.
      now apply contains_app_l. }
    rewrite Hc, orb_true_r. reflexivity.
  - rewrite lower_app, (contains_app_r "create" _ _ H), orb_true_r.
    reflexivity.
Qed.

(** X23. A result of [delete_todo_tool] for an item whose text has no
    "create" in it is labelled ["delete_all"] when the text contains "all"
    in any case ("call", "wallet"), and ["delete"] otherwise. *)
Theorem deleted_text_with_all (text : string) :
  Api.contains "create" (Api.lower text) = false ->
  Api.action_of (Api.deleted_result text)
  = Ok (PStr (if Api.contains "all" (Api.lower text)
              then "delete_all" else "delete")).
Proof.
  intros Hc. unfold Api.action_of, Api.process_command, Api.try_body,
    Api.deleted_result.
  cbn [Api.outcome_bind Api.dict_get dict_lookup String.eqb Ascii.eqb
       Bool.eqb truthy Api.lower_of]. unfold Api.classify.
  assert (E1 : Api.contains "created" (Api.lower ("Deleted todo: " ++ text))
               = Api.contains "created" (Api.lower text)) by reflexivity.
  assert (E2 : Api.contains "create" (Api.lower ("Deleted todo: " ++ text))
               = Api.contains "create" (Api.lower text)) by reflexivity.
  assert (E3 : Api.contains "deleted" (Api.lower ("Deleted todo: " ++ text))
               = true) by reflexivity.
  assert (E4 : Api.contains "all" (Api.lower ("Deleted todo: " ++ text))
               = Api.contains "all" (Api.lower text)) by reflexivity.
  assert (Hd : Api.contains "created" (Api.lower text) = false).
  { destruct (Api.contains "created" (Api.lower text)) eqn:E; [|reflexivity].
    apply (contains_shorter "create" "d") in E. congruence. }
  rewrite E1, E2, E3, E4, Hd, Hc. cbn [orb andb].
  destruct (Api.contains "all" (Api.lower text)); reflexivity.
Qed.

End Labels.

(** ** The input of the agent *)

Lemma res_map_raised {A B} (g : A -> res B) l :
  Exists (fun a => g a = Raised) l -> res_map g l = Raised.
Proof.
  induction 1 as [a l Ha|a l _ IH]; simpl.
  - now rewrite Ha.
  - rewrite IH. destruct (g a); reflexivity.
Qed.

Lemma res_map_all_ok {A B} (g : A -> res B) l :
  (forall a, In a l -> exists b, g a = Ok b) ->
  exists bs,
    res_map g l = Ok bs
    /\ forall a b, In a l -> g a = Ok b -> In b bs.
Proof.
  induction l as [|a l IH]; intros Hall; simpl.
  - exists []. split; [reflexivity|]. intros a b [].
  - destruct (Hall a (or_introl eq_refl)) as [b Hb].
    destruct IH as (bs & Hbs & Hin); [intros x Hx; apply Hall; now right|].
    rewrite Hb, Hbs. simpl. exists (b :: bs). split; [reflexivity|].
    intros x y [<-|Hx] Hy.
    + left. congruence.
    + right. eauto.
Qed.

Section AgentFacts.
Context {lib : PyLib}.

Lemma todo_line_item d n s b :
  dict_lookup "id" d = Some (PInt n) ->
  dict_lookup "text" d = Some (PStr s) ->
  dict_lookup "completed" d = Some (PBool b) ->
  todo_line (PDict d) = Ok (item_line n s b).
Proof.
  intros Hn Hs Hb. unfold todo_line, item_line. cbn [py_getitem py_get].
  rewrite Hn, Hs, Hb. cbn [res_bind py_str truthy]. reflexivity.
Qed.

(** X24. The text of the current todos is built on every call of
    [call_agent], before the test for the first message: when an element of
    the stored list has no ["id"] or no ["text"], the call raises whatever
    the messages are, and writes nothing. *)
Theorem agent_input_needs_id_and_text (f : file) (l : list pyval)
    (messages : list message) :
  store_of f = PList l ->
  Exists (fun t => py_getitem t "id" = Raised \/ py_getitem t "text" = Raised)
    l ->
  call_agent_input messages f = (Raised, f).
Proof.
  intros Hs Hex. unfold call_agent_input, bind, lift, ret.
  rewrite load_todos_eq, Hs. unfold todos_context. cbn [py_iter res_bind].
  rewrite res_map_raised; [reflexivity|].
  eapply Exists_impl; [|exact Hex].
  intros t [H|H]; unfold todo_line; rewrite H; [reflexivity|].
  destruct (py_getitem t "id"); reflexivity.
Qed.

(** X25. On a store of items [call_agent] does not raise and does not
    write.  It hands the messages on as they are, except when the state
    holds exactly one message and the store is not empty: then one system
    message goes in front, and its text holds for every item of the store
    the line "ID <id>: <text> (completed)" or "... (pending)". *)
Theorem agent_input_on_items (f : file) (l : list pyval)
    (messages : list message) :
  store_of f = PList l -> forallb is_item l = true ->
  exists context,
    call_agent_input messages f
    = (Ok (if (List.length messages =? 1)%nat
              && match l with [] => false | _ => true end
           then {| msg_class := SystemMessage;
                   content := PStr (system_prompt context) |} :: messages
           else messages), f)
    /\ forall d n s b,
         In (PDict d) l ->
         dict_lookup "id" d = Some (PInt n) ->
         dict_lookup "text" d = Some (PStr s) ->
         dict_lookup "completed" d = Some (PBool b) ->
         Api.contains (item_line n s b) (system_prompt context) = true.
Proof.
  intros Hs Hl.
  destruct (res_map_all_ok todo_line l) as (lines & Hlines & Hin).
  { intros t Ht. rewrite forallb_forall in Hl.
    destruct (is_item_inv t (Hl t Ht))
      as (d & n & s & b & c & -> & _ & Hn & Hx & Hb & _).
    exists (item_line n s b). now apply todo_line_item. }
  exists (String.concat line_break lines). split.
  - unfold call_agent_input, bind, lift, ret. rewrite load_todos_eq, Hs.
    unfold todos_context. cbn [py_iter res_bind]. rewrite Hlines.
    reflexivity.
  - intros d n s b Hd Hn Hx Hb.
    pose proof (Hin (PDict d) _ Hd (todo_line_item d n s b Hn Hx Hb)) as Hline.
    unfold system_prompt. apply contains_app_r, contains_app_r.
    apply contains_app_l. now apply contains_concat.
Qed.

End AgentFacts.

(** ** Runs of the further properties with the reference module *)

Lemma milk_store : store_of (lib := ref_lib) milk_file = PList [to_dict milk].
Proof. vm_compute. reflexivity. Qed.

Lemma milk_has_1 : In 1 (item_ids [to_dict milk]).
Proof. simpl. auto. Qed.

Lemma milk_lacks_99 : ~ In 99 (item_ids [to_dict milk]).
Proof. simpl. intros [H|[]]. discriminate H. Qed.

Lemma create_appends_item_witness :
  store_of (lib := ref_lib) milk_file = PList [to_dict milk]
  /\ forallb is_item [to_dict milk] = true
  /\ exists n,
       (forall x, In x (item_ids [to_dict milk]) -> x < n)
       /\ fst (create_todo_tool (lib := ref_lib) "eggs" "2024-01-02T09:30:00"
                 milk_file)
          = Ok (PDict [("success", PBool true);
                       ("todo", to_dict {| id := n; text := "eggs";
                                           completed := false;
                                           created_at := "2024-01-02T09:30:00" |});
                       ("message", PStr ("Created todo: " ++ "eggs"))])
       /\ store_of (lib := ref_lib)
            (snd (create_todo_tool (lib := ref_lib) "eggs"
                    "2024-01-02T09:30:00" milk_file))
          = PList ([to_dict milk]
                   ++ [to_dict {| id := n; text := "eggs"; completed := false;
                                  created_at := "2024-01-02T09:30:00" |}]).
Proof.
  split; [exact milk_store|]. split; [reflexivity|].
  exact (create_appends_item (lib := ref_lib) milk_file [to_dict milk]
           "eggs" "2024-01-02T09:30:00" milk_store eq_refl).
Defined.

Lemma create_then_delete_restores_witness :
  store_of (lib := ref_lib) milk_file = PList [to_dict milk]
  /\ forallb is_item [to_dict milk] = true
  /\ exists n,
       created_id (fst (create_todo_tool (lib := ref_lib) "eggs"
                          "2024-01-02T09:30:00" milk_file)) = Some n
       /\ store_of (lib := ref_lib)
            (snd (delete_todo_tool (lib := ref_lib) n
                    (snd (create_todo_tool (lib := ref_lib) "eggs"
                            "2024-01-02T09:30:00" milk_file))))
          = PList [to_dict milk].
Proof.
  split; [exact milk_store|]. split; [reflexivity|].
  exact (create_then_delete_restores (lib := ref_lib) milk_file [to_dict milk]
           "eggs" "2024-01-02T09:30:00" milk_store eq_refl).
Defined.

Lemma delete_removes_the_id_witness :
  store_of (lib := ref_lib) milk_file = PList [to_dict milk]
  /\ forallb is_item [to_dict milk] = true
  /\ In 1 (item_ids [to_dict milk])
  /\ store_of (lib := ref_lib)
       (snd (delete_todo_tool (lib := ref_lib) 1 milk_file))
     = PList [].
Proof.
  split; [exact milk_store|]. split; [reflexivity|].
  split; [exact milk_has_1|].
  destruct (delete_removes_the_id (lib := ref_lib) milk_file [to_dict milk] 1
              milk_store eq_refl milk_has_1)
    as (l1 & d & l2 & text & _ & _ & _ & _ & _ & E).
  exact E.
Defined.

Lemma delete_unknown_id_witness :
  store_of (lib := ref_lib) milk_file = PList [to_dict milk]
  /\ forallb is_item [to_dict milk] = true
  /\ ~ In 99 (item_ids [to_dict milk])
  /\ delete_todo_tool (lib := ref_lib) 99 milk_file
     = (Ok (not_found 99), milk_file)
  /\ py_getitem (not_found 99) "success" = Ok (PBool false).
Proof.
  split; [exact milk_store|]. split; [reflexivity|].
  split; [exact milk_lacks_99|].
  exact (delete_unknown_id (lib := ref_lib) milk_file [to_dict milk] 99
           milk_store eq_refl milk_lacks_99).
Defined.

Lemma complete_sets_flag_only_witness :
  store_of (lib := ref_lib) milk_file = PList [to_dict milk]
  /\ forallb is_item [to_dict milk] = true
  /\ In 1 (item_ids [to_dict milk])
  /\ exists l1 d d' l2 text,
       [to_dict milk] = l1 ++ PDict d :: l2
       /\ item_id (PDict d) = Some 1
       /\ ~ In 1 (item_ids l1)
       /\ dict_lookup "text" d = Some (PStr text)
       /\ fst (complete_todo_tool (lib := ref_lib) 1 milk_file)
          = Ok (PDict [("success", PBool true);
                       ("message",
                        PStr ("Marked todo as completed: " ++ text))])
       /\ store_of (lib := ref_lib)
            (snd (complete_todo_tool (lib := ref_lib) 1 milk_file))
          = PList (l1 ++ PDict d' :: l2)
       /\ dict_lookup "completed" d' = Some (PBool true)
       /\ (forall k, k <> "completed" -> dict_lookup k d' = dict_lookup k d)
       /\ map fst d' = map fst d.
Proof.
  split; [exact milk_store|]. split; [reflexivity|].
  split; [exact milk_has_1|].
  exact (complete_sets_flag_only (lib := ref_lib) milk_file [to_dict milk] 1
           milk_store eq_refl milk_has_1).
Defined.

Lemma complete_twice_witness :
  store_of (lib := ref_lib) milk_file = PList [to_dict milk]
  /\ forallb is_item [to_dict milk] = true
  /\ In 1 (item_ids [to_dict milk])
  /\ (let (r1, f1) := complete_todo_tool (lib := ref_lib) 1 milk_file in
      complete_todo_tool (lib := ref_lib) 1 f1 = (r1, f1)).
Proof.
  split; [exact milk_store|]. split; [reflexivity|].
  split; [exact milk_has_1|].
  exact (complete_twice (lib := ref_lib) milk_file [to_dict milk] 1
           milk_store eq_refl milk_has_1).
Defined.

Lemma missing_text_key_witness :
  store_of (lib := ref_lib) no_text_file = PList ([] ++ PDict [("id", PInt 7)] :: [])
  /\ update_todo_tool (lib := ref_lib) 7 "x" no_text_file
     = (Raised, no_text_file)
  /\ delete_todo_tool (lib := ref_lib) 7 no_text_file
     = (Raised, Some (json_dumps (PList (drop_id 7 ([] ++ [])))))
  /\ complete_todo_tool (lib := ref_lib) 7 no_text_file
     = (Raised,
        Some (json_dumps
                (PList ([] ++ PDict (dict_set "completed" (PBool true)
                                       [("id", PInt 7)]) :: [])))).
Proof.
  assert (Hs : store_of (lib := ref_lib) no_text_file
               = PList ([] ++ PDict [("id", PInt 7)] :: []))
    by (vm_compute; reflexivity).
  split; [exact Hs|].
  apply (missing_text_key (lib := ref_lib) no_text_file [] []
           [("id", PInt 7)] 7 "x" Hs eq_refl).
  - intros [].
  - reflexivity.
  - reflexivity.
Defined.

Lemma get_next_id_or_raise_witness :
  (exists m,
     get_next_id (PList [PDict [("id", PInt 2)]; PDict []; PDict [("id", PBool true)]])
     = Ok (PInt (m + 1))
     /\ (exists t,
           In t [PDict [("id", PInt 2)]; PDict []; PDict [("id", PBool true)]]
           /\ id_or_zero t = Some m)
     /\ (forall t k,
           In t [PDict [("id", PInt 2)]; PDict []; PDict [("id", PBool true)]] ->
           id_or_zero t = Some k -> k <= m))
  /\ get_next_id (PList [PDict [("id", PInt 2)]; PDict [("id", PStr "3")]])
     = Raised.
Proof.
  split.
  - apply (proj1 (get_next_id_or_raise
                    [PDict [("id", PInt 2)]; PDict []; PDict [("id", PBool true)]]
                    ltac:(discriminate))).
    repeat constructor; discriminate.
  - apply (proj2 (get_next_id_or_raise
                    [PDict [("id", PInt 2)]; PDict [("id", PStr "3")]]
                    ltac:(discriminate))).
    apply Exists_cons_tl, Exists_cons_hd. reflexivity.
Defined.

Lemma turn_result_never_fails_witness :
  process_command_with_graph (lib := ref_lib) [] = Raised
  /\ exists r, process_command_with_graph (lib := ref_lib) turn_99 = Ok r
               /\ success_of r = true.
Proof.
  split.
  - exact (proj1 (turn_result_never_fails (lib := ref_lib) []) eq_refl).
  - apply (proj2 (turn_result_never_fails (lib := ref_lib) turn_99)).
    discriminate.
Defined.

Lemma last_tool_result_returned_witness :
  process_command_with_graph (lib := ref_lib)
    ([{| msg_class := HumanMessage; content := PStr "Delete all" |}]
     ++ {| msg_class := ToolMessage;
           content := PDict [("success", PBool true);
                             ("message", PStr "All todos deleted")] |}
     :: [{| msg_class := ToolMessage; content := PStr "[1, 2]" |};
         {| msg_class := AIMessage; content := PStr "Done." |}])
  = Ok (PDict [("success", PBool true); ("message", PStr "All todos deleted")]).
Proof.
  apply (last_tool_result_returned (lib := ref_lib)); reflexivity.
Defined.

Lemma unparseable_tool_text_is_success_witness :
  json_loads (PyLib := ref_lib) tool_error_text = None
  /\ process_command_with_graph (lib := ref_lib)
       ([{| msg_class := HumanMessage; content := PStr "Delete todo 1" |}]
        ++ {| msg_class := ToolMessage; content := PStr tool_error_text |}
        :: [{| msg_class := AIMessage; content := PStr "Sorry." |}])
     = Ok (PDict [("success", PBool true); ("message", PStr tool_error_text)]).
Proof.
  assert (H : json_loads (PyLib := ref_lib) tool_error_text = None)
    by (vm_compute; reflexivity).
  split; [exact H|].
  exact (unparseable_tool_text_is_success (lib := ref_lib)
           [{| msg_class := HumanMessage; content := PStr "Delete todo 1" |}]
           [{| msg_class := AIMessage; content := PStr "Sorry." |}]
           tool_error_text H eq_refl).
Defined.

Lemma no_tool_result_wraps_final_witness :
  process_command_with_graph (lib := ref_lib)
    ([{| msg_class := HumanMessage; content := PStr "Hello" |}]
     ++ [{| msg_class := AIMessage; content := PStr "Hi, what shall I do?" |}])
  = Ok (PDict [("success", PBool true);
               ("message", PStr "Hi, what shall I do?")]).
Proof.
  apply (no_tool_result_wraps_final (lib := ref_lib)). reflexivity.
Defined.

Lemma api_delete_as_tool_witness :
  fst (Api.delete_todo (lib := ref_lib) 99 milk_file) = Ok (HTTPException 404)
  /\ fst (delete_todo_tool (lib := ref_lib) 99 milk_file) = Ok (not_found 99).
Proof.
  assert (H : fst (delete_todo_tool (lib := ref_lib) 99 milk_file)
              = Ok (not_found 99)) by (vm_compute; reflexivity).
  split; [|exact H].
  exact (proj2 (proj2 (api_delete_as_tool (lib := ref_lib) milk_file 99)) H).
Defined.

Lemma api_get_todo_finds_first_witness :
  fst (Api.get_todo (lib := ref_lib) 99 milk_file) = Ok (HTTPException 404)
  /\ fst (Api.get_todo (lib := ref_lib) 1 milk_file)
     = Ok (Response (to_dict milk)).
Proof.
  split.
  - exact (proj1 (proj2 (api_get_todo_finds_first (lib := ref_lib) milk_file
                           [to_dict milk] 99) milk_store eq_refl)
             milk_lacks_99).
  - apply (proj2 (proj2 (api_get_todo_finds_first (lib := ref_lib) milk_file
                           [to_dict milk] 1) milk_store eq_refl)
             [] (to_dict milk) []); [reflexivity | reflexivity | intros []].
Defined.

Lemma api_update_sets_given_fields_witness :
  Api.update_todo (lib := ref_lib) 99 (Some "x") None milk_file
  = (Ok (HTTPException 404), milk_file)
  /\ exists l1 d d' l2,
       [to_dict milk] = l1 ++ PDict d :: l2
       /\ item_id (PDict d) = Some 1
       /\ ~ In 1 (item_ids l1)
       /\ fst (Api.update_todo (lib := ref_lib) 1 (Some "oat milk") None
                 milk_file)
          = Ok (Response (PDict d'))
       /\ store_of (lib := ref_lib)
            (snd (Api.update_todo (lib := ref_lib) 1 (Some "oat milk") None
                    milk_file))
          = PList (l1 ++ PDict d' :: l2)
       /\ dict_lookup "text" d' = Some (PStr "oat milk")
       /\ dict_lookup "completed" d' = dict_lookup "completed" d
       /\ (forall k, k <> "text" -> k <> "completed" ->
                     dict_lookup k d' = dict_lookup k d)
       /\ map fst d' = map fst d.
Proof.
  split.
  - exact (proj1 (api_update_sets_given_fields (lib := ref_lib) milk_file
                    [to_dict milk] 99 (Some "x") None milk_store eq_refl)
             milk_lacks_99).
  - exact (proj2 (api_update_sets_given_fields (lib := ref_lib) milk_file
                    [to_dict milk] 1 (Some "oat milk") None milk_store eq_refl)
             milk_has_1).
Defined.

Lemma put_undoes_complete_witness :
  store_of (lib := ref_lib)
    (snd (Api.update_todo (lib := ref_lib) 1 None (Some false)
            (snd (complete_todo_tool (lib := ref_lib) 1 milk_file))))
  = PList [to_dict milk].
Proof.
  apply (put_undoes_complete (lib := ref_lib) milk_file [to_dict milk] [] []
           [("id", PInt 1); ("text", PStr "milk"); ("completed", PBool false);
            ("created_at", PStr "2024-01-01T10:00:00")] 1).
  - exact milk_store.
  - reflexivity.
  - reflexivity.
  - reflexivity.
  - intros [].
  - reflexivity.
Defined.

Lemma command_answer_shape_witness :
  success_of (not_found 99) = false
  /\ Api.process_command (Api.Returns (not_found 99))
     = PDict [("action", PNone); ("todo_id", PNone); ("todo_text", PNone);
              ("result", not_found 99);
              ("message", PStr "Todo with ID 99 not found")]
  /\ Api.process_command (Api.Raises "list index out of range")
     = Api.error_answer "list index out of range"
  /\ Api.process_command (Api.Returns (PList []))
     = Api.error_answer "'list' object has no attribute 'get'"
  /\ success_of (PDict [("success", PBool true); ("message", PNone)]) = true
  /\ Api.process_command
       (Api.Returns (PDict [("success", PBool true); ("message", PNone)]))
     = Api.error_answer "'NoneType' object has no attribute 'lower'"
  /\ success_of (wrapped "I could not find a todo with ID 99.") = true
  /\ exists action todo_text,
       Api.process_command
         (Api.Returns (wrapped "I could not find a todo with ID 99."))
       = PDict [("action", action); ("todo_id", PNone);
                ("todo_text", todo_text);
                ("result", wrapped "I could not find a todo with ID 99.");
                ("message", PStr "I could not find a todo with ID 99.")].
Proof.
  split; [reflexivity|]. split; [|split; [|split; [|split; [|split; [|split]]]]].
  - apply (proj1 (proj2 (command_answer_shape
                           (Api.Returns (not_found 99))))
             [("success", PBool false);
              ("message", PStr ("Todo with ID " ++ string_of_Z 99
                                ++ " not found"))]);
      reflexivity.
  - apply (proj1 (proj2 (proj2 (command_answer_shape
                                  (Api.Raises "list index out of range"))))).
    reflexivity.
  - apply (proj1 (proj2 (proj2 (proj2 (command_answer_shape
                                         (Api.Returns (PList []))))))
             (PList []) eq_refl).
    discriminate.
  - reflexivity.
  - apply (proj1 (proj2 (proj2 (proj2 (proj2 (command_answer_shape
             (Api.Returns (PDict [("success", PBool true);
                                  ("message", PNone)])))))))
             [("success", PBool true); ("message", PNone)] eq_refl eq_refl).
    discriminate.
  - reflexivity.
  - apply (proj2 (proj2 (proj2 (proj2 (proj2 (command_answer_shape
             (Api.Returns (wrapped "I could not find a todo with ID 99.")))))))
             [("success", PBool true);
              ("message", PStr "I could not find a todo with ID 99.")]
             "I could not find a todo with ID 99." eq_refl eq_refl eq_refl).
    intros todo H. discriminate H.
Defined.

Lemma tool_results_labelled_witness :
  Api.process_command
    (Api.Returns
       (PDict [("success", PBool true);
               ("todo", to_dict {| id := 2; text := "eggs"; completed := false;
                                   created_at := "2024-01-02T09:30:00" |});
               ("message", PStr "Created todo: eggs")]))
  = PDict [("action", PStr "create"); ("todo_id", PNone);
           ("todo_text", PStr "eggs");
           ("result",
            PDict [("success", PBool true);
                   ("todo", to_dict {| id := 2; text := "eggs";
                                       completed := false;
                                       created_at := "2024-01-02T09:30:00" |});
                   ("message", PStr "Created todo: eggs")]);
           ("message", PStr ("Created todo: " ++ "eggs"))]
  /\ Api.action_of
       (PDict [("success", PBool true); ("todos", PList [to_dict milk]);
               ("count", PInt 1)])
     = Ok (PStr "list").
Proof.
  split.
  - apply (proj1 (tool_results_labelled (lib := ref_lib) milk_file "eggs"
                    "2024-01-02T09:30:00")).
    vm_compute. reflexivity.
  - apply (proj2 (proj2 (tool_results_labelled (lib := ref_lib) milk_file
                           "eggs" "2024-01-02T09:30:00"))).
    vm_compute. reflexivity.
Defined.

Lemma text_with_create_is_labelled_create_witness :
  Api.contains "create" (Api.lower "Create report") = true
  /\ Api.action_of (Api.deleted_result "Create report") = Ok (PStr "create")
  /\ Api.action_of (Api.updated_result 1 "milk" "Create report")
     = Ok (PStr "create")
  /\ Api.action_of (Api.completed_result "Create report") = Ok (PStr "create").
Proof.
  split; [reflexivity|].
  exact (text_with_create_is_labelled_create "Create report" "milk" 1 eq_refl).
Defined.

Lemma deleted_text_with_all_witness :
  Api.contains "create" (Api.lower "Call mom") = false
  /\ Api.action_of (Api.deleted_result "Call mom")
     = Ok (PStr (if Api.contains "all" (Api.lower "Call mom")
                 then "delete_all" else "delete"))
  /\ Api.contains "all" (Api.lower "Call mom") = true.
Proof.
  split; [reflexivity|]. split; [|reflexivity].
  exact (deleted_text_with_all "Call mom" eq_refl).
Defined.

Lemma agent_input_needs_id_and_text_witness :
  store_of (lib := ref_lib) no_text_file = PList [PDict [("id", PInt 7)]]
  /\ call_agent_input (lib := ref_lib)
       [{| msg_class := HumanMessage; content := PStr "a" |};
        {| msg_class := AIMessage; content := PStr "b" |};
        {| msg_class := HumanMessage; content := PStr "List todos" |}]
       no_text_file
     = (Raised, no_text_file).
Proof.
  assert (Hs : store_of (lib := ref_lib) no_text_file
               = PList [PDict [("id", PInt 7)]]) by (vm_compute; reflexivity).
  split; [exact Hs|].
  apply (agent_input_needs_id_and_text (lib := ref_lib) no_text_file
           [PDict [("id", PInt 7)]] _ Hs).
  apply Exists_cons_hd. right. reflexivity.
Defined.

Lemma agent_input_on_items_witness :
  exists context,
    call_agent_input (lib := ref_lib)
      [{| msg_class := HumanMessage; content := PStr "Complete todo 1" |}]
      milk_file
    = (Ok ({| msg_class := SystemMessage;
              content := PStr (system_prompt context) |}
           :: [{| msg_class := HumanMessage;
                  content := PStr "Complete todo 1" |}]), milk_file)
    /\ Api.contains (item_line 1 "milk" false) (system_prompt context) = true.
Proof.
  destruct (agent_input_on_items (lib := ref_lib) milk_file [to_dict milk]
              [{| msg_class := HumanMessage;
                  content := PStr "Complete todo 1" |}]
              milk_store eq_refl) as (context & Hrun & Hline).
  exists context. split; [exact Hrun|].
  apply (Hline [("id", PInt 1); ("text", PStr "milk");
                ("completed", PBool false);
                ("created_at", PStr "2024-01-01T10:00:00")] 1 "milk" false);
    [left; reflexivity | reflexivity | reflexivity | reflexivity].
Defined.
